(** * SubTrack: billing-cycle date engine and notification jobs

    A shallow embedding of [app.py] and [models.py] of the SubTrack
    application, together with the parts of Python's [datetime] and
    [calendar] modules that the application calls.

    - integers are [Z]; Python's [//] and [%] with a positive divisor are
      [Z.div] and [Z.modulo] (both round towards minus infinity);
    - a raised exception is the [Raise] outcome of a computation;
    - the clock, the record store and the mail transport are oracles of an
      environment; the effects of a job (clock readings, store reads, the
      messages handed to the transport, the lines printed) are threaded
      through an explicit state. *)

From Stdlib Require Import ZArith List Bool Lia String Sorted Permutation.
Import ListNotations.
Local Open Scope string_scope.
Local Open Scope list_scope.
Local Open Scope Z_scope.

(** ** Exceptions *)

Inductive Exn : Type :=
| ValueError            (* datetime(...) with a field out of range *)
| IllegalMonthError     (* calendar.monthrange with a month outside 1..12 *)
| StoreError (code : Z) (* the record store failed to answer a read *)
| TransportError (code : Z). (* mail.send failed *)

Inductive Outcome (A : Type) : Type :=
| Return (a : A)
| Raise (e : Exn).
Arguments Return {A} a.
Arguments Raise {A} e.

(** Pure fallible code: the [Outcome] monad. *)
Definition obind {A B} (o : Outcome A) (k : A -> Outcome B) : Outcome B :=
  match o with
  | Return a => k a
  | Raise e => Raise e
  end.

Declare Scope outcome_scope.
Delimit Scope outcome_scope with outcome.
Notation "'let?' x ':=' c 'in' k" := (obind c (fun x => k))
  (at level 10, x name, c at level 100, k at level 200) : outcome_scope.

(** ** Python's [calendar] and [datetime] *)

Module Calendar.

Definition MINYEAR : Z := 1.
Definition MAXYEAR : Z := 9999.

(** [calendar.isleap] (and [datetime._is_leap]):
    [year % 4 == 0 and (year % 100 != 0 or year % 400 == 0)]. *)
Definition isleap (year : Z) : bool :=
  (year mod 4 =? 0) && (negb (year mod 100 =? 0) || (year mod 400 =? 0)).

(** [calendar.mdays], also [datetime._DAYS_IN_MONTH]. *)
Definition mdays (month : Z) : Z :=
  match month with
  | 1 => 31 | 2 => 28 | 3 => 31 | 4 => 30 | 5 => 31 | 6 => 30
  | 7 => 31 | 8 => 31 | 9 => 30 | 10 => 31 | 11 => 30 | 12 => 31
  | _ => 0
  end.

(** [datetime._days_in_month]. *)
Definition days_in_month (year month : Z) : Z :=
  if (month =? 2) && isleap year then 29 else mdays month.

(** [datetime._DAYS_BEFORE_MONTH]. *)
Definition DAYS_BEFORE_MONTH (month : Z) : Z :=
  match month with
  | 1 => 0 | 2 => 31 | 3 => 59 | 4 => 90 | 5 => 120 | 6 => 151
  | 7 => 181 | 8 => 212 | 9 => 243 | 10 => 273 | 11 => 304 | 12 => 334
  | _ => 0
  end.

(** [datetime._days_before_year]:
    [y = year - 1; y*365 + y//4 - y//100 + y//400]. *)
Definition days_before_year (year : Z) : Z :=
  let y := year - 1 in
  y * 365 + y / 4 - y / 100 + y / 400.

(** [datetime._days_before_month]. *)
Definition days_before_month (year month : Z) : Z :=
  DAYS_BEFORE_MONTH month + (if (2 <? month) && isleap year then 1 else 0).

(** [datetime._ymd2ord]: the ordinal of a date, 0001-01-01 being day 1. *)
Definition ymd2ord (year month day : Z) : Z :=
  days_before_year year + days_before_month year month + day.

(** [calendar.weekday]: Monday is 0.  Years outside the [datetime] range are
    first mapped into it. *)
Definition weekday (year month day : Z) : Z :=
  let year := if (MINYEAR <=? year) && (year <=? MAXYEAR) then year
              else 2000 + year mod 400 in
  (ymd2ord year month day + 6) mod 7.

(** [calendar.monthrange]: the weekday of the first of the month and the
    number of days of the month. *)
Definition monthrange (year month : Z) : Outcome (Z * Z) :=
  if (1 <=? month) && (month <=? 12) then
    let day1 := weekday year month 1 in
    let ndays := mdays month + (if (month =? 2) && isleap year then 1 else 0) in
    Return (day1, ndays)
  else Raise IllegalMonthError.

(** A naive [datetime.datetime]. *)
Record datetime : Type := mkDatetime {
  year : Z; month : Z; day : Z;
  hour : Z; minute : Z; second : Z; microsecond : Z
}.

(** The invariant of a [datetime] object (what its constructor checks). *)
Definition valid_datetime (t : datetime) : bool :=
  (MINYEAR <=? year t) && (year t <=? MAXYEAR) &&
  (1 <=? month t) && (month t <=? 12) &&
  (1 <=? day t) && (day t <=? days_in_month (year t) (month t)) &&
  (0 <=? hour t) && (hour t <=? 23) &&
  (0 <=? minute t) && (minute t <=? 59) &&
  (0 <=? second t) && (second t <=? 59) &&
  (0 <=? microsecond t) && (microsecond t <=? 999999).

(** [datetime(year, month, day)]: the time fields default to 0; a field out
    of range raises [ValueError]. *)
Definition datetime_ymd (y m d : Z) : Outcome datetime :=
  let t := mkDatetime y m d 0 0 0 0 in
  if valid_datetime t then Return t else Raise ValueError.

Definition toordinal (t : datetime) : Z := ymd2ord (year t) (month t) (day t).

(** A [datetime.timedelta], always normalised:
    [0 <= seconds < 86400] and [0 <= microseconds < 1000000]. *)
Record timedelta : Type := mkTimedelta {
  days : Z; seconds : Z; microseconds : Z
}.

(** [timedelta(days, seconds, microseconds)] on integers: the constructor
    carries with [divmod], so [days] is the floor of the duration. *)
Definition timedelta_new (d s us : Z) : timedelta :=
  let s := s + us / 1000000 in
  let us := us mod 1000000 in
  let d := d + s / 86400 in
  let s := s mod 86400 in
  mkTimedelta d s us.

(** [datetime.__sub__] on two naive datetimes. *)
Definition datetime_sub (a b : datetime) : timedelta :=
  let days1 := toordinal a in
  let days2 := toordinal b in
  let secs1 := second a + minute a * 60 + hour a * 3600 in
  let secs2 := second b + minute b * 60 + hour b * 3600 in
  timedelta_new (days1 - days2) (secs1 - secs2) (microsecond a - microsecond b).

(** The position of a datetime on the time line, in microseconds: naive
    datetimes are ordered as these numbers are. *)
Definition to_micros (t : datetime) : Z :=
  (toordinal t * 86400 + (second t + minute t * 60 + hour t * 3600)) * 1000000
  + microsecond t.

(** Microseconds into the day. *)
Definition time_of_day (t : datetime) : Z :=
  (second t + minute t * 60 + hour t * 3600) * 1000000 + microsecond t.

End Calendar.
Import Calendar.

(** ** The billing date computation

    [app.get_days_until_payment], the body of the inner loop of
    [app.check_payment_reminders] and [Subscription.get_next_payment_date]
    repeat the same statements, from the test [now.day < billing_date] to
    [next_date = datetime(next_year, next_month, actual_day)]. *)

Local Open Scope outcome_scope.

(** The month the payment is resolved to: [(next_year, next_month)]. *)
Definition next_year_month (billing_date : Z) (now : datetime) : Z * Z :=
  let current_year := year now in
  let current_month := month now in
  if day now <? billing_date then (current_year, current_month)
  else if current_month =? 12 then (current_year + 1, 1)
  else (current_year, current_month + 1).

(** [next_date], from the branch on [now.day] to the [datetime(...)] call. *)
Definition next_date_at (billing_date : Z) (now : datetime) : Outcome datetime :=
  let '(next_year, next_month) := next_year_month billing_date now in
  let? mr := monthrange next_year next_month in
  let max_day := snd mr in
  let actual_day := Z.min billing_date max_day in
  datetime_ymd next_year next_month actual_day.

(** [get_days_until_payment] at the reading [now] of the clock. *)
Definition days_until_at (billing_date : Z) (now : datetime) : Outcome Z :=
  let? next_date := next_date_at billing_date now in
  let days_until := days (datetime_sub next_date now) in
  Return days_until.

Definition at_time (y m d hh mm ss : Z) : datetime := mkDatetime y m d hh mm ss 0.

(** December of [MAXYEAR]: the one month with no following month that a
    [datetime] can hold. *)
Definition last_month (now : datetime) : bool :=
  (year now =? MAXYEAR) && (month now =? 12).

(** The position of a month on the time line, in months. *)
Definition month_index (t : datetime) : Z := year t * 12 + month t.

(** ** Data model ([models.py]) *)

(** The [Float] columns ([monthly_price], [monthly_budget]) are used by the
    jobs through [sum], [-], [* 12] and [>] only.  The code is embedded over
    any carrier with these operations ([<=] is there to state properties);
    the facts about them that are used are that [0 > 0] is false and that
    [x <= y] excludes [x > y], as is the case of Python's floats. *)
Class Money (A : Type) : Type := {
  zero : A;
  add : A -> A -> A;
  sub : A -> A -> A;
  mul_int : A -> Z -> A;
  gtb : A -> A -> bool;
  leb : A -> A -> bool;
  gtb_zero_zero : gtb zero zero = false;
  leb_not_gtb : forall x y, leb x y = true -> gtb x y = false
}.

Lemma Zle_gtb_false (x y : Z) : (x <=? y) = true -> (x >? y) = false.
Proof. rewrite Z.gtb_ltb, Z.leb_le, Z.ltb_ge. auto. Qed.

(** Amounts as whole numbers (of cents, say). *)
#[global] Instance Money_Z : Money Z := {|
  zero := 0;
  add := Z.add;
  sub := Z.sub;
  mul_int := Z.mul;
  gtb := Z.gtb;
  leb := Z.leb;
  gtb_zero_zero := eq_refl;
  leb_not_gtb := Zle_gtb_false
|}.

(** Python's [sum(...)] of a generator of amounts: left to right, from 0. *)
Definition sum {A} `{Money A} (xs : list A) : A := fold_left add xs zero.

Module User.
(** The columns of [users] that the jobs read. *)
Record t (A : Type) : Type := mk {
  id : Z;
  email : string;
  monthly_budget : A;
  payment_reminders : bool;
  budget_alerts : bool;
  monthly_summary : bool;
  new_subscription : bool
}.
Arguments mk {A}.
Arguments id {A}.
Arguments email {A}.
Arguments monthly_budget {A}.
Arguments payment_reminders {A}.
Arguments budget_alerts {A}.
Arguments monthly_summary {A}.
Arguments new_subscription {A}.
End User.

Module Subscription.
(** The columns of [subscriptions] that the jobs read. *)
Record t (A : Type) : Type := mk {
  id : Z;
  name : string;
  monthly_price : A;
  billing_date : Z; (* day of month (1-31) *)
  user_id : Z
}.
Arguments mk {A}.
Arguments id {A}.
Arguments name {A}.
Arguments monthly_price {A}.
Arguments billing_date {A}.
Arguments user_id {A}.
End Subscription.

(** ** Effects *)

(** What [mail.send] is handed: the recipient and the values interpolated
    into the subject and the HTML body. *)
Inductive Message (A : Type) : Type :=
| SubscriptionEmail (recipient : string) (subscription_name : string)
    (monthly_price : A)
| PaymentReminder (recipient : string) (subscription_name : string)
    (monthly_price : A) (days_until : Z) (payment_date : datetime)
| BudgetAlert (recipient : string) (budget_limit total_spending overage : A)
| MonthlySummary (recipient : string) (issued : datetime) (total_monthly : A)
    (subscription_count : Z) (rows : list (string * A)).
Arguments SubscriptionEmail {A}.
Arguments PaymentReminder {A}.
Arguments BudgetAlert {A}.
Arguments MonthlySummary {A}.

Inductive Job : Type := JobPaymentReminders | JobBudgetAlerts | JobMonthlySummary.

(** The lines the code prints. *)
Inductive LogLine (A : Type) : Type :=
| Running (job : Job) (now : datetime)
| Sent (m : Message A)
| SendError (e : Exn)
| Complete (job : Job) (count : Z).
Arguments Running {A}.
Arguments Sent {A}.
Arguments SendError {A}.
Arguments Complete {A}.

(** The collaborators: the clock ([clock n] is what the [n]-th call of
    [datetime.now()] returns), the two tables, and the failures of the store
    and of the transport ([store_fault n] is the exception raised by the
    [n]-th read, [mail_fault n] the one raised by the [n]-th [mail.send]). *)
Record Env (A : Type) : Type := mkEnv {
  clock : nat -> datetime;
  users : list (User.t A);
  subscriptions : list (Subscription.t A);
  store_fault : nat -> option Exn;
  mail_fault : nat -> option Exn
}.
Arguments mkEnv {A}.
Arguments clock {A}.
Arguments users {A}.
Arguments subscriptions {A}.
Arguments store_fault {A}.
Arguments mail_fault {A}.

(** What a run has done so far: the number of clock readings and of store
    reads, the messages handed to [mail.send] in order, each with whether
    it was delivered, and the lines printed. *)
Record State (A : Type) : Type := mkState {
  clock_reads : nat;
  store_reads : nat;
  outbox : list (Message A * bool);
  stdout : list (LogLine A)
}.
Arguments mkState {A}.
Arguments clock_reads {A}.
Arguments store_reads {A}.
Arguments outbox {A}.
Arguments stdout {A}.

Definition init_state {A} : State A := mkState 0%nat 0%nat [] [].

(** A computation reads the environment, updates the state and returns or
    raises; the state reached is kept in both cases. *)
Definition M (A X : Type) : Type := Env A -> State A -> Outcome X * State A.

Definition ret {A X} (x : X) : M A X := fun _ st => (Return x, st).

Definition bind {A X Y} (c : M A X) (k : X -> M A Y) : M A Y :=
  fun env st =>
    match c env st with
    | (Return x, st') => k x env st'
    | (Raise e, st') => (Raise e, st')
    end.

Definition raise {A X} (e : Exn) : M A X := fun _ st => (Raise e, st).

(** [try: body except Exception as e: handler]. *)
Definition try_except {A X} (body : M A X) (handler : Exn -> M A X) : M A X :=
  fun env st =>
    match body env st with
    | (Return x, st') => (Return x, st')
    | (Raise e, st') => handler e env st'
    end.

Definition lift {A X} (o : Outcome X) : M A X := fun _ st => (o, st).

Declare Scope job_scope.
Delimit Scope job_scope with job.
Notation "x <- c ;; k" := (bind c (fun x => k))
  (at level 61, c at next level, right associativity) : job_scope.
Notation "c ;; k" := (bind c (fun _ => k))
  (at level 61, right associativity) : job_scope.
Local Open Scope job_scope.

(** [for x in xs: acc = body(x, acc)]. *)
Fixpoint for_each {A X Acc} (xs : list X) (acc : Acc)
    (body : X -> Acc -> M A Acc) : M A Acc :=
  match xs with
  | [] => ret acc
  | x :: xs' => acc' <- body x acc ;; for_each xs' acc' body
  end.

(** [datetime.now()]. *)
Definition datetime_now {A} : M A datetime :=
  fun env st =>
    (Return (clock env (clock_reads st)),
     mkState (S (clock_reads st)) (store_reads st) (outbox st) (stdout st)).

(** [print(...)]. *)
Definition print {A} (l : LogLine A) : M A unit :=
  fun _ st =>
    (Return tt,
     mkState (clock_reads st) (store_reads st) (outbox st) (stdout st ++ [l])).

(** One read of the record store: counted, and raising when the store
    fails. *)
Definition store_read {A X} (rows : Env A -> X) : M A X :=
  fun env st =>
    let st' := mkState (clock_reads st) (S (store_reads st)) (outbox st)
                 (stdout st) in
    match store_fault env (store_reads st) with
    | Some e => (Raise e, st')
    | None => (Return (rows env), st')
    end.

(** [User.query.filter(...).all()] and [User.query.filter_by(...).all()]. *)
Definition query_users {A} (criterion : User.t A -> bool) : M A (list (User.t A)) :=
  store_read (fun env => filter criterion (users env)).

(** [Subscription.query.filter_by(user_id=user_id).all()]. *)
Definition query_subscriptions {A} (user_id : Z) : M A (list (Subscription.t A)) :=
  store_read (fun env =>
    filter (fun s => Subscription.user_id s =? user_id) (subscriptions env)).

(** [User.query.get(user_id)]. *)
Definition get_user {A} (user_id : Z) : M A (option (User.t A)) :=
  store_read (fun env => find (fun u => User.id u =? user_id) (users env)).

(** [user.subscriptions]: the relationship, loaded on first access. *)
Definition user_subscriptions {A} (user : User.t A) : M A (list (Subscription.t A)) :=
  query_subscriptions (User.id user).

(** [mail.send(msg)]. *)
Definition mail_send {A} (msg : Message A) : M A unit :=
  fun env st =>
    let n := List.length (outbox st) in
    match mail_fault env n with
    | Some e =>
        (Raise e,
         mkState (clock_reads st) (store_reads st) (outbox st ++ [(msg, false)])
           (stdout st))
    | None =>
        (Return tt,
         mkState (clock_reads st) (store_reads st) (outbox st ++ [(msg, true)])
           (stdout st))
    end.

(** ** [models.py] *)

Section Models.
Context {A : Type} `{Money A}.

(** [User.get_total_monthly_cost], on the loaded relationship. *)
Definition get_total_monthly_cost (subs : list (Subscription.t A)) : A :=
  sum (map Subscription.monthly_price subs).

(** [Subscription.get_next_payment_date]: the date whose [strftime] the
    method returns. *)
Definition get_next_payment_date (subscription : Subscription.t A) : M A datetime :=
  now <- datetime_now ;;
  lift (next_date_at (Subscription.billing_date subscription) now).

End Models.

(** ** [app.py] *)

Section App.
Context {A : Type} `{Money A}.

Definition send_subscription_email (user_email subscription_name : string)
    (monthly_price : A) : M A bool :=
  try_except
    (mail_send (SubscriptionEmail user_email subscription_name monthly_price) ;;
     ret true)
    (fun e => print (SendError e) ;; ret false).

Definition send_payment_reminder (user : User.t A)
    (subscription : Subscription.t A) (days_until : Z) : M A bool :=
  try_except
    (payment_date <- get_next_payment_date subscription ;;
     let msg := PaymentReminder (User.email user) (Subscription.name subscription)
                  (Subscription.monthly_price subscription) days_until
                  payment_date in
     mail_send msg ;;
     print (Sent msg) ;;
     ret true)
    (fun e => print (SendError e) ;; ret false).

Definition send_budget_alert (user : User.t A)
    (total_spending budget_limit overage : A) : M A bool :=
  try_except
    (let msg := BudgetAlert (User.email user) budget_limit total_spending
                  overage in
     mail_send msg ;;
     print (Sent msg) ;;
     ret true)
    (fun e => print (SendError e) ;; ret false).

Definition send_monthly_summary (user : User.t A) (total_monthly : A)
    (subscription_count : Z) (subscriptions_list : list (Subscription.t A))
    : M A bool :=
  try_except
    (let subscription_rows :=
       map (fun s => (Subscription.name s, Subscription.monthly_price s))
         subscriptions_list in
     issued <- datetime_now ;;
     let msg := MonthlySummary (User.email user) issued total_monthly
                  subscription_count subscription_rows in
     mail_send msg ;;
     print (Sent msg) ;;
     ret true)
    (fun e => print (SendError e) ;; ret false).

Definition check_payment_reminders : M A unit :=
  started <- datetime_now ;;
  print (Running JobPaymentReminders started) ;;
  users <- query_users User.payment_reminders ;;
  reminders_sent <-
    for_each users 0 (fun user reminders_sent =>
      subs <- user_subscriptions user ;;
      for_each subs reminders_sent (fun subscription reminders_sent =>
        now <- datetime_now ;;
        let billing_date := Subscription.billing_date subscription in
        next_date <- lift (next_date_at billing_date now) ;;
        let days_until := days (datetime_sub next_date now) in
        if days_until =? 3 then
          ok <- send_payment_reminder user subscription days_until ;;
          ret (if ok : bool then reminders_sent + 1 else reminders_sent)
        else ret reminders_sent)) ;;
  print (Complete JobPaymentReminders reminders_sent).

Definition check_budget_alerts : M A unit :=
  started <- datetime_now ;;
  print (Running JobBudgetAlerts started) ;;
  users <- query_users (fun u =>
             User.budget_alerts u && gtb (User.monthly_budget u) zero) ;;
  alerts_sent <-
    for_each users 0 (fun user alerts_sent =>
      subs <- user_subscriptions user ;;
      let total_spending := get_total_monthly_cost subs in
      let budget_limit := User.monthly_budget user in
      if gtb total_spending budget_limit then
        let overage := sub total_spending budget_limit in
        ok <- send_budget_alert user total_spending budget_limit overage ;;
        ret (if ok : bool then alerts_sent + 1 else alerts_sent)
      else ret alerts_sent) ;;
  print (Complete JobBudgetAlerts alerts_sent).

Definition send_all_monthly_summaries : M A unit :=
  started <- datetime_now ;;
  print (Running JobMonthlySummary started) ;;
  users <- query_users User.monthly_summary ;;
  summaries_sent <-
    for_each users 0 (fun user summaries_sent =>
      subscriptions <- user_subscriptions user ;;
      let total_monthly := get_total_monthly_cost subscriptions in
      let subscription_count := Z.of_nat (List.length subscriptions) in
      ok <- send_monthly_summary user total_monthly subscription_count
              subscriptions ;;
      ret (if ok : bool then summaries_sent + 1 else summaries_sent)) ;;
  print (Complete JobMonthlySummary summaries_sent).

(** [get_days_until_payment]. *)
Definition get_days_until_payment (billing_date : Z) : M A Z :=
  now <- datetime_now ;;
  lift (days_until_at billing_date now).

(** The dictionary [get_monthly_summary] returns. *)
Record Summary : Type := mkSummary {
  monthly : A;
  yearly : A;
  count : Z
}.

Definition get_monthly_summary (user_id : Z) : M A Summary :=
  user <- get_user user_id ;;
  subscriptions <- query_subscriptions user_id ;;
  let monthly_total := sum (map Subscription.monthly_price subscriptions) in
  let yearly_total := mul_int monthly_total 12 in
  ret (mkSummary monthly_total yearly_total (Z.of_nat (List.length subscriptions))).

End App.

(** [CronTrigger(day=..., hour=..., minute=...)]; a trigger without [day]
    fires every day. *)
Record CronTrigger : Type := mkCronTrigger {
  cron_day : option Z;
  cron_hour : Z;
  cron_minute : Z
}.

(** [init_scheduler]: the function and the trigger registered under each
    job id. *)
Definition job_function {A} `{Money A} (j : Job) : M A unit :=
  match j with
  | JobPaymentReminders => check_payment_reminders
  | JobBudgetAlerts => check_budget_alerts
  | JobMonthlySummary => send_all_monthly_summaries
  end.

Definition job_trigger (j : Job) : CronTrigger :=
  match j with
  | JobPaymentReminders => mkCronTrigger None 9 0
  | JobBudgetAlerts => mkCronTrigger None 9 0
  | JobMonthlySummary => mkCronTrigger (Some 1) 9 0
  end.

(** The hour and the minute of the daily reminder job. *)
Definition scheduled_hour : Z := cron_hour (job_trigger JobPaymentReminders).
Definition scheduled_minute : Z := cron_minute (job_trigger JobPaymentReminders).

(** ** What a run leaves behind

    The messages a job decides to send, as lists computed from the tables,
    and the trace the transport's failures make of them. *)

Definition delivered (fault : nat -> option Exn) (n : nat) : bool :=
  match fault n with None => true | Some _ => false end.

Definition send_line {A} (fault : nat -> option Exn) (n : nat)
    (msg : Message A) : LogLine A :=
  match fault n with None => Sent msg | Some e => SendError e end.

(** The outbox entries of the messages [msgs], the first being the [n]-th
    message handed to the transport. *)
Fixpoint deliver {A} (fault : nat -> option Exn) (n : nat)
    (msgs : list (Message A)) : list (Message A * bool) :=
  match msgs with
  | [] => []
  | m :: ms => (m, delivered fault n) :: deliver fault (S n) ms
  end.

(** The lines printed for them. *)
Fixpoint delivery_log {A} (fault : nat -> option Exn) (n : nat)
    (msgs : list (Message A)) : list (LogLine A) :=
  match msgs with
  | [] => []
  | m :: ms => send_line fault n m :: delivery_log fault (S n) ms
  end.

Definition delivered_count {A} (l : list (Message A * bool)) : Z :=
  Z.of_nat (List.length (filter snd l)).

Section Decisions.
Context {A : Type} `{Money A}.
Variable env : Env A.

(** The rows of [subscriptions] that belong to [u]. *)
Definition subscriptions_of (u : User.t A) : list (Subscription.t A) :=
  filter (fun s => Subscription.user_id s =? User.id u) (subscriptions env).

Definition total_of (u : User.t A) : A :=
  sum (map Subscription.monthly_price (subscriptions_of u)).

(** A reminder is due at [now] for the subscriptions whose [days_until]
    is 3. *)
Definition reminder_due (now : datetime) (s : Subscription.t A) : bool :=
  match days_until_at (Subscription.billing_date s) now with
  | Return n => n =? 3
  | Raise _ => false
  end.

Definition reminder_message (now : datetime) (u : User.t A)
    (s : Subscription.t A) : list (Message A) :=
  match next_date_at (Subscription.billing_date s) now with
  | Return next_date =>
      [PaymentReminder (User.email u) (Subscription.name s)
         (Subscription.monthly_price s) 3 next_date]
  | Raise _ => []
  end.

Definition reminders_of (now : datetime) (u : User.t A) : list (Message A) :=
  flat_map (reminder_message now u) (filter (reminder_due now) (subscriptions_of u)).

Definition reminder_decisions (now : datetime) : list (Message A) :=
  flat_map (reminders_of now) (filter User.payment_reminders (users env)).

Definition budget_alert_eligible (u : User.t A) : bool :=
  User.budget_alerts u && gtb (User.monthly_budget u) zero.

Definition over_budget (u : User.t A) : bool :=
  gtb (total_of u) (User.monthly_budget u).

Definition budget_alert_message (u : User.t A) : Message A :=
  BudgetAlert (User.email u) (User.monthly_budget u) (total_of u)
    (sub (total_of u) (User.monthly_budget u)).

Definition budget_alert_decisions : list (Message A) :=
  map budget_alert_message
    (filter over_budget (filter budget_alert_eligible (users env))).

Definition summary_message (now : datetime) (u : User.t A) : Message A :=
  MonthlySummary (User.email u) now (total_of u)
    (Z.of_nat (List.length (subscriptions_of u)))
    (map (fun s => (Subscription.name s, Subscription.monthly_price s))
       (subscriptions_of u)).

Definition summary_decisions (now : datetime) : list (Message A) :=
  map (summary_message now) (filter User.monthly_summary (users env)).

End Decisions.

(** The store answers every read. *)
Definition store_healthy {A} (env : Env A) : Prop :=
  forall n, store_fault env n = None.

(** Every reading of the clock during the run is [now]. *)
Definition clock_frozen {A} (env : Env A) (now : datetime) : Prop :=
  forall n, clock env n = now.

(** The invariant [add_subscription] establishes on the rows it inserts. *)
Definition billing_dates_valid {A} (env : Env A) : Prop :=
  forall s, In s (subscriptions env) -> 1 <= Subscription.billing_date s <= 31.


(** ** Auxiliary notions for the properties *)

(** The field ranges of a valid [datetime]. *)
Record valid_fields (t : datetime) : Prop := {
  vf_year : MINYEAR <= year t <= MAXYEAR;
  vf_month : 1 <= month t <= 12;
  vf_day : 1 <= day t <= days_in_month (year t) (month t);
  vf_hour : 0 <= hour t <= 23;
  vf_minute : 0 <= minute t <= 59;
  vf_second : 0 <= second t <= 59;
  vf_microsecond : 0 <= microsecond t <= 999999
}.

(** The number of calendar days from [now] to the resolved date. *)
Definition calendar_days_ahead (d : Z) (now : datetime) : Z :=
  let y := year now in
  let m := month now in
  if day now <? d then Z.min d (days_in_month y m) - day now
  else
    let '(ny, nm) := next_year_month d now in
    days_in_month y m - day now + Z.min d (days_in_month ny nm).

(** A step that returns, adds to the counter the number of messages it got
    delivered, and leaves the trace of the messages [msgs]. *)
Definition step_sends {A} (env : Env A) (c : M A Z) (acc : Z) (st : State A)
    (msgs : list (Message A)) : Prop :=
  let n := List.length (outbox st) in
  exists st',
    c env st =
      (Return (acc + delivered_count (deliver (mail_fault env) n msgs)), st') /\
    outbox st' = outbox st ++ deliver (mail_fault env) n msgs /\
    stdout st' = stdout st ++ delivery_log (mail_fault env) n msgs.

(** The decision for one subscription of one user. *)
Definition reminder_for {A} (now : datetime) (u : User.t A)
    (s : Subscription.t A) : list (Message A) :=
  if User.payment_reminders u && reminder_due now s
  then reminder_message now u s else [].

(** The decision for one user. *)
Definition budget_alert_for {A} `{Money A} (env : Env A) (u : User.t A)
    : list (Message A) :=
  if User.budget_alerts u && gtb (User.monthly_budget u) zero
     && gtb (total_of env u) (User.monthly_budget u)
  then [budget_alert_message env u] else [].

Definition summary_for {A} `{Money A} (env : Env A) (now : datetime)
    (u : User.t A) : list (Message A) :=
  if User.monthly_summary u then [summary_message env now u] else [].

(** The messages a job decides to send. *)
Definition job_decisions {A} `{Money A} (env : Env A) (now : datetime)
    (j : Job) : list (Message A) :=
  match j with
  | JobPaymentReminders => reminder_decisions env now
  | JobBudgetAlerts => budget_alert_decisions env
  | JobMonthlySummary => summary_decisions env now
  end.

(** The printed lines of a completed run of job [j] that began with the
    [n]-th message of the transport. *)
Definition job_log {A} (fault : nat -> option Exn) (n : nat) (j : Job)
    (now : datetime) (msgs : list (Message A)) : list (LogLine A) :=
  [Running j now] ++ delivery_log fault n msgs ++
  [Complete j (delivered_count (deliver fault n msgs))].

(** A job function that keeps a failure of the store to itself: whenever
    the read of the users raises, the call still returns. *)
Definition contains_store_errors {A} (job : M A unit) : Prop :=
  forall env st e,
    store_fault env (store_reads st) = Some e ->
    exists st', job env st = (Return tt, st').

(** A computation that never hides the failure of a store read: the count
    of reads does not go down, and when the computation returns, every read
    it has made was answered. *)
Definition reads_answered {A X} (c : M A X) : Prop :=
  forall env st,
    (store_reads st <= store_reads (snd (c env st)))%nat /\
    forall x, fst (c env st) = Return x ->
      forall n, (store_reads st <= n < store_reads (snd (c env st)))%nat ->
                store_fault env n = None.

(** A computation that does not read the store. *)
Definition reads_nothing {A X} (c : M A X) : Prop :=
  forall env st, store_reads (snd (c env st)) = store_reads st.

(** An environment whose clock stands at [now], with a store and a
    transport that do not fail. *)
Definition quiet_env {A} (now : datetime) (us : list (User.t A))
    (ss : list (Subscription.t A)) : Env A :=
  mkEnv (fun _ => now) us ss (fun _ => None) (fun _ => None).


(** ** Sample data *)

Definition alice : User.t Z :=
  User.mk 1 "alice@example.com" 100 true true true true.
Definition bob : User.t Z :=
  User.mk 2 "bob@example.com" 0 false true true true.
Definition carol : User.t Z :=
  User.mk 3 "carol@example.com" 10 false true false true.

Definition netflix : Subscription.t Z := Subscription.mk 1 "Netflix" 70 5 1.
Definition gym : Subscription.t Z := Subscription.mk 2 "Gym" 50 20 1.
Definition music : Subscription.t Z := Subscription.mk 3 "Music" 15 5 3.

(** 1 March 2024, at the hour of the daily jobs. *)
Definition march_first : datetime := at_time 2024 3 1 9 0 0.

Definition sample_env : Env Z :=
  quiet_env march_first [alice; bob; carol] [netflix; gym; music].

(** The same, with a transport that fails on the first message only. *)
Definition flaky_env : Env Z :=
  mkEnv (fun _ => march_first) [alice; bob; carol] [netflix; gym; music]
    (fun _ => None)
    (fun n => match n with O => Some (TransportError 421) | S _ => None end).

(** The same, with a store that does not answer. *)
Definition broken_env : Env Z :=
  mkEnv (fun _ => march_first) [alice; bob; carol] [netflix; gym; music]
    (fun _ => Some (StoreError 1)) (fun _ => None).


(** ** Months on the time line *)

(** The ordinal of the day before the first day of a month. *)
Definition month_start (y m : Z) : Z := days_before_year y + days_before_month y m.

(** The month after [(y, m)]. *)
Definition following_month (ym : Z * Z) : Z * Z :=
  let '(y, m) := ym in
  if m =? 12 then (y + 1, 1) else (y, m + 1).


(** ** The routes of [app.py]

    A request handler runs against the tables, the session, the flashed
    messages and the collaborators of the jobs.  Python's [float], [int] and
    [str.strip], the primary key the database gives to a new row,
    [User.check_password] and the failures of [db.session.commit] are
    oracles of the environment. *)

(** The exceptions of a handler: those of the jobs, the [AttributeError] of
    an attribute of [None], the [KeyError] of a key the session does not
    hold, and the [NotFound] of [get_or_404]. *)
Inductive WebExn : Type :=
| PyExn (e : Exn)
| AttributeError
| KeyError
| NotFound.

Inductive WOutcome (X : Type) : Type :=
| WReturn (x : X)
| WRaise (e : WebExn).
Arguments WReturn {X} x.
Arguments WRaise {X} e.

Inductive Category : Type := success | danger | warning | info.

(** The messages the routes flash. *)
Inductive FlashText : Type :=
| PleaseLogIn
| AllFieldsRequired
| PriceMustBePositive
| BillingDateOutOfRange
| SubscriptionAdded (name : string)
| InvalidInput
| ErrorOccurred
| UnauthorizedAction
| SubscriptionDeleted (name : string)
| DeleteError
| BudgetNegative
| ProfileUpdated
| InvalidBudget
| ProfileError
| LoggedOut
| WelcomeBack
| InvalidCredentials
| EmailPasswordRequired
| PasswordTooShort
| EmailAlreadyRegistered
| RegistrationSuccessful
| RegistrationError.

Inductive Endpoint : Type := EpLogin | EpDashboard | EpSubscriptions | EpProfile.

Record WebEnv (A : Type) : Type := mkWebEnv {
  w_clock : nat -> datetime;
  w_store_fault : nat -> option Exn;
  w_mail_fault : nat -> option Exn;
  w_commit_fault : nat -> option Exn; (* the failure of the n-th commit *)
  py_float : string -> option A;      (* [None] is [ValueError] *)
  py_int : string -> option Z;        (* [None] is [ValueError] *)
  py_strip : string -> string;
  new_subscription_id : list (Subscription.t A) -> Z;
  new_user_id : list (User.t A) -> Z;
  check_password : User.t A -> string -> bool
}.
Arguments mkWebEnv {A}.
Arguments w_clock {A}.
Arguments w_store_fault {A}.
Arguments w_mail_fault {A}.
Arguments w_commit_fault {A}.
Arguments py_float {A}.
Arguments py_int {A}.
Arguments py_strip {A}.
Arguments new_subscription_id {A}.
Arguments new_user_id {A}.
Arguments check_password {A}.

(** The tables, the two keys of the session, the flashed messages, the
    number of commits so far, the exceptions printed, and the state of the
    collaborators. *)
Record WebState (A : Type) : Type := mkWebState {
  db_users : list (User.t A);
  db_subscriptions : list (Subscription.t A);
  session_user_id : option Z;
  session_user_email : option string;
  flashes : list (FlashText * Category);
  commits : nat;
  printed : list WebExn;
  core : State A
}.
Arguments mkWebState {A}.
Arguments db_users {A}.
Arguments db_subscriptions {A}.
Arguments session_user_id {A}.
Arguments session_user_email {A}.
Arguments flashes {A}.
Arguments commits {A}.
Arguments printed {A}.
Arguments core {A}.

Definition W (A X : Type) : Type :=
  WebEnv A -> WebState A -> WOutcome X * WebState A.

Definition wret {A X} (x : X) : W A X := fun _ wst => (WReturn x, wst).

Definition wbind {A X Y} (c : W A X) (k : X -> W A Y) : W A Y :=
  fun wenv wst =>
    match c wenv wst with
    | (WReturn x, wst') => k x wenv wst'
    | (WRaise e, wst') => (WRaise e, wst')
    end.

Definition wraise {A X} (e : WebExn) : W A X := fun _ wst => (WRaise e, wst).

(** [try: body except ...: handler]. *)
Definition wtry {A X} (body : W A X) (handler : WebExn -> W A X) : W A X :=
  fun wenv wst =>
    match body wenv wst with
    | (WReturn x, wst') => (WReturn x, wst')
    | (WRaise e, wst') => handler e wenv wst'
    end.

Declare Scope web_scope.
Delimit Scope web_scope with web.
Notation "x <- c ;; k" := (wbind c (fun x => k))
  (at level 61, c at next level, right associativity) : web_scope.
Notation "c ;; k" := (wbind c (fun _ => k))
  (at level 61, right associativity) : web_scope.

(** The environment the jobs' functions see from a handler. *)
Definition core_env {A} (wenv : WebEnv A) (wst : WebState A) : Env A :=
  mkEnv (w_clock wenv) (db_users wst) (db_subscriptions wst)
    (w_store_fault wenv) (w_mail_fault wenv).

Definition with_core {A} (wst : WebState A) (st : State A) : WebState A :=
  mkWebState (db_users wst) (db_subscriptions wst) (session_user_id wst)
    (session_user_email wst) (flashes wst) (commits wst) (printed wst) st.

(** A call, from a handler, of a function of the jobs' layer. *)
Definition run_core {A X} (c : M A X) : W A X :=
  fun wenv wst =>
    match c (core_env wenv wst) (core wst) with
    | (Return x, st') => (WReturn x, with_core wst st')
    | (Raise e, st') => (WRaise (PyExn e), with_core wst st')
    end.

(** [flash(message, category)]. *)
Definition flash {A} (text : FlashText) (category : Category) : W A unit :=
  fun _ wst =>
    (WReturn tt,
     mkWebState (db_users wst) (db_subscriptions wst) (session_user_id wst)
       (session_user_email wst) (flashes wst ++ [(text, category)])
       (commits wst) (printed wst) (core wst)).

(** [print(f"...: {str(e)}")]. *)
Definition wprint {A} (e : WebExn) : W A unit :=
  fun _ wst =>
    (WReturn tt,
     mkWebState (db_users wst) (db_subscriptions wst) (session_user_id wst)
       (session_user_email wst) (flashes wst) (commits wst)
       (printed wst ++ [e]) (core wst)).

(** [session['user_id']]. *)
Definition session_get_user_id {A} : W A Z :=
  fun _ wst =>
    match session_user_id wst with
    | Some uid => (WReturn uid, wst)
    | None => (WRaise KeyError, wst)
    end.

(** The rows of the two tables after a change. *)
Definition with_tables {A} (wst : WebState A) (us : list (User.t A))
    (ss : list (Subscription.t A)) : WebState A :=
  mkWebState us ss (session_user_id wst) (session_user_email wst)
    (flashes wst) (commits wst) (printed wst) (core wst).

(** [db.session.commit()] of the changes made to the session since the
    last one: all of them reach the tables, or the commit raises and none
    does ([db.session.rollback()] then discards them). *)
Definition db_commit {A}
    (change : list (User.t A) * list (Subscription.t A) ->
              list (User.t A) * list (Subscription.t A)) : W A unit :=
  fun wenv wst =>
    let wst1 :=
      mkWebState (db_users wst) (db_subscriptions wst) (session_user_id wst)
        (session_user_email wst) (flashes wst) (S (commits wst)) (printed wst)
        (core wst) in
    match w_commit_fault wenv (commits wst) with
    | Some e => (WRaise (PyExn e), wst1)
    | None =>
        let '(us, ss) := change (db_users wst, db_subscriptions wst) in
        (WReturn tt, with_tables wst1 us ss)
    end.

(** [request.form.get(key, '')]. *)
Definition form_get (form : string -> option string) (key : string) : string :=
  match form key with
  | Some v => v
  | None => EmptyString
  end.

(** [key in request.form]. *)
Definition form_has (form : string -> option string) (key : string) : bool :=
  match form key with
  | Some _ => true
  | None => false
  end.

(** [not s], for a string. *)
Definition is_empty (s : string) : bool :=
  match s with
  | EmptyString => true
  | String _ _ => false
  end.

(** A conversion that raises [ValueError]. *)
Definition py_call {A X} (r : option X) : W A X :=
  match r with
  | Some x => wret x
  | None => wraise (PyExn ValueError)
  end.

(** The first row with the given primary key removed. *)
Fixpoint delete_row {A} (id : Z) (rows : list (Subscription.t A))
    : list (Subscription.t A) :=
  match rows with
  | [] => []
  | s :: rows' =>
      if Subscription.id s =? id then rows' else s :: delete_row id rows'
  end.

(** The row of a user replaced, under its primary key. *)
Definition update_user {A} (user : User.t A) (rows : list (User.t A))
    : list (User.t A) :=
  map (fun u => if User.id u =? User.id user then user else u) rows.

(** [list.sort(key=...)]: the stable sort, by insertion from the right. *)
Fixpoint insert_by {X} (key : X -> Z) (x : X) (l : list X) : list X :=
  match l with
  | [] => [x]
  | y :: l' => if key x <=? key y then x :: y :: l' else y :: insert_by key x l'
  end.

Fixpoint sort_by {X} (key : X -> Z) (l : list X) : list X :=
  match l with
  | [] => []
  | x :: l' => insert_by key x (sort_by key l')
  end.


(** An entry of the dashboard's list of upcoming payments. *)
Record Upcoming (A : Type) : Type := mkUpcoming {
  up_subscription : Subscription.t A;
  up_days_until : Z;
  up_next_date : datetime
}.
Arguments mkUpcoming {A}.
Arguments up_subscription {A}.
Arguments up_days_until {A}.
Arguments up_next_date {A}.

(** What a handler returns: a redirection, or a template with its
    arguments. *)
Inductive Response (A : Type) : Type :=
| Redirect (endpoint : Endpoint)
| RenderLogin
| RenderRegister
| RenderDashboard (user : User.t A) (upcoming : list (Upcoming A))
    (monthly yearly : A) (count : Z) (budget_alert : bool).
Arguments Redirect {A}.
Arguments RenderLogin {A}.
Arguments RenderRegister {A}.
Arguments RenderDashboard {A}.

Section Routes.
Context {A : Type} `{Money A}.
Local Open Scope web_scope.

(** The decorator [login_required]. *)
Definition login_required (f : W A (Response A)) : W A (Response A) :=
  fun wenv wst =>
    match session_user_id wst with
    | None =>
        (flash PleaseLogIn warning ;; wret (Redirect EpLogin)) wenv wst
    | Some _ => f wenv wst
    end.

(** The route [/]. *)
Definition index : W A (Response A) :=
  fun wenv wst =>
    match session_user_id wst with
    | Some _ => (WReturn (Redirect EpDashboard), wst)
    | None => (WReturn (Redirect EpLogin), wst)
    end.

(** [User.query.filter_by(email=email).first()]. *)
Definition first_user_by_email (email : string) : M A (option (User.t A)) :=
  store_read (fun env =>
    find (fun u => String.eqb (User.email u) email) (users env)).

(** The route [/login]; [post] tells a POST from a GET. *)
Definition login (post : bool) (form : string -> option string)
    : W A (Response A) :=
  fun wenv wst =>
    match session_user_id wst with
    | Some _ => (WReturn (Redirect EpDashboard), wst)
    | None =>
        (if post then
           let email := py_strip wenv (form_get form "email") in
           let password := form_get form "password" in
           if is_empty email || is_empty password then
             flash EmailPasswordRequired danger ;; wret RenderLogin
           else
             user <- run_core (first_user_by_email email) ;;
             match user with
             | Some user =>
                 if check_password wenv user password then
                   (fun _ wst =>
                      (WReturn tt,
                       mkWebState (db_users wst) (db_subscriptions wst)
                         (Some (User.id user)) (Some (User.email user))
                         (flashes wst) (commits wst) (printed wst)
                         (core wst))) ;;
                   flash WelcomeBack success ;;
                   wret (Redirect EpDashboard)
                 else
                   flash InvalidCredentials danger ;; wret RenderLogin
             | None =>
                 flash InvalidCredentials danger ;; wret RenderLogin
             end
         else wret RenderLogin) wenv wst
    end.

(** The route [/register]; [post] tells a POST from a GET.  The hash of the
    password goes into a column that no other function modelled here
    reads; the other columns of the new row get their defaults. *)
Definition register (post : bool) (form : string -> option string)
    : W A (Response A) :=
  fun wenv wst =>
    match session_user_id wst with
    | Some _ => (WReturn (Redirect EpDashboard), wst)
    | None =>
        (if post then
           let email := py_strip wenv (form_get form "email") in
           let password := form_get form "password" in
           let monthly_budget := form_get form "monthly_budget" in
           if is_empty email || is_empty password then
             flash EmailPasswordRequired danger ;; wret RenderRegister
           else if Z.of_nat (String.length password) <? 6 then
             flash PasswordTooShort danger ;; wret RenderRegister
           else
             existing_user <- run_core (first_user_by_email email) ;;
             match existing_user with
             | Some _ =>
                 flash EmailAlreadyRegistered danger ;;
                 wret (Redirect EpLogin)
             | None =>
                 wtry
                   (budget <- (if is_empty monthly_budget then wret zero
                               else py_call (py_float wenv monthly_budget)) ;;
                    db_commit (fun '(us, ss) =>
                      (us ++ [User.mk (new_user_id wenv us) email budget
                                true true false true], ss)) ;;
                    flash RegistrationSuccessful success ;;
                    wret (Redirect EpLogin))
                   (fun e =>
                      flash RegistrationError danger ;; wprint e ;;
                      wret RenderRegister)
             end
         else wret RenderRegister) wenv wst
    end.

(** [session.clear()]: the keys of the session go, and the messages
    flashed so far with them. *)
Definition session_clear : W A unit :=
  fun _ wst =>
    (WReturn tt,
     mkWebState (db_users wst) (db_subscriptions wst) None None []
       (commits wst) (printed wst) (core wst)).

(** The route [/logout]. *)
Definition logout : W A (Response A) :=
  login_required
    (session_clear ;; flash LoggedOut info ;; wret (Redirect EpLogin)).

(** The route [/dashboard]. *)
Definition dashboard : W A (Response A) :=
  login_required
    (uid <- session_get_user_id ;;
     user <- run_core (get_user uid) ;;
     match user with
     | None => wraise AttributeError
     | Some user =>
         subscriptions <- run_core (query_subscriptions (User.id user)) ;;
         upcoming <-
           run_core
             (for_each subscriptions [] (fun sub upcoming =>
                days_until <-
                  get_days_until_payment (Subscription.billing_date sub) ;;
                if days_until <=? 30 then
                  next_date <- get_next_payment_date sub ;;
                  ret (upcoming ++ [mkUpcoming sub days_until next_date])
                else ret upcoming)%job) ;;
         let upcoming := sort_by up_days_until upcoming in
         summary <- run_core (get_monthly_summary (User.id user)) ;;
         let budget_alert :=
           if gtb (User.monthly_budget user) zero
           then gtb (monthly summary) (User.monthly_budget user)
           else false in
         wret (RenderDashboard user upcoming (monthly summary)
                 (yearly summary) (count summary) budget_alert)
     end).

(** The route [/subscription/add]. *)
Definition add_subscription (form : string -> option string)
    : W A (Response A) :=
  login_required
    (fun wenv =>
       (let name := py_strip wenv (form_get form "name") in
        let monthly_price := form_get form "monthly_price" in
        let billing_date := form_get form "billing_date" in
        if is_empty name || is_empty monthly_price || is_empty billing_date
        then
          flash AllFieldsRequired danger ;; wret (Redirect EpSubscriptions)
        else
          wtry
            (price <- py_call (py_float wenv monthly_price) ;;
             day <- py_call (py_int wenv billing_date) ;;
             if leb price zero then
               flash PriceMustBePositive danger ;;
               wret (Redirect EpSubscriptions)
             else if (day <? 1) || (day >? 31) then
               flash BillingDateOutOfRange danger ;;
               wret (Redirect EpSubscriptions)
             else
               owner <- session_get_user_id ;;
               db_commit (fun '(us, ss) =>
                 (us, ss ++ [Subscription.mk (new_subscription_id wenv ss)
                               name price day owner])) ;;
               uid <- session_get_user_id ;;
               user <- run_core (get_user uid) ;;
               match user with
               | None => wraise AttributeError
               | Some user =>
                   email_sent <-
                     run_core (send_subscription_email (User.email user)
                                 name price) ;;
                   (if email_sent : bool
                    then flash (SubscriptionAdded name) success
                    else flash (SubscriptionAdded name) success) ;;
                   wret (Redirect EpSubscriptions)
               end)
            (fun e =>
               match e with
               | PyExn ValueError =>
                   flash InvalidInput danger ;; wret (Redirect EpSubscriptions)
               | _ =>
                   flash ErrorOccurred danger ;; wprint e ;;
                   wret (Redirect EpSubscriptions)
               end)) wenv).

(** [Subscription.query.get_or_404(subscription_id)]. *)
Definition get_subscription_or_404 (subscription_id : Z)
    : W A (Subscription.t A) :=
  found <- run_core (store_read (fun env =>
             find (fun s => Subscription.id s =? subscription_id)
               (subscriptions env))) ;;
  match found with
  | Some s => wret s
  | None => wraise NotFound
  end.

(** The route [/subscription/delete/<int:subscription_id>]. *)
Definition delete_subscription (subscription_id : Z) : W A (Response A) :=
  login_required
    (subscription <- get_subscription_or_404 subscription_id ;;
     uid <- session_get_user_id ;;
     if negb (Subscription.user_id subscription =? uid) then
       flash UnauthorizedAction danger ;; wret (Redirect EpSubscriptions)
     else
       wtry
         (let subscription_name := Subscription.name subscription in
          db_commit (fun '(us, ss) =>
            (us, delete_row (Subscription.id subscription) ss)) ;;
          flash (SubscriptionDeleted subscription_name) success ;;
          wret (Redirect EpSubscriptions))
         (fun e =>
            flash DeleteError danger ;; wprint e ;;
            wret (Redirect EpSubscriptions))).

(** The route [/profile/update]. *)
Definition update_profile (form : string -> option string)
    : W A (Response A) :=
  login_required
    (fun wenv =>
       (uid <- session_get_user_id ;;
        user <- run_core (get_user uid) ;;
        let new_budget := form_get form "monthly_budget" in
        wtry
          (budget <- (if is_empty new_budget then wret zero
                      else py_call (py_float wenv new_budget)) ;;
           if gtb zero budget then
             flash BudgetNegative danger ;; wret (Redirect EpProfile)
           else
             match user with
             | None => wraise AttributeError
             | Some user =>
                 let user' :=
                   User.mk (User.id user) (User.email user) budget
                     (form_has form "payment_reminders")
                     (form_has form "budget_alerts")
                     (form_has form "monthly_summary")
                     (form_has form "new_subscription") in
                 db_commit (fun '(us, ss) => (update_user user' us, ss)) ;;
                 flash ProfileUpdated success ;;
                 wret (Redirect EpProfile)
             end)
          (fun e =>
             match e with
             | PyExn ValueError =>
                 flash InvalidBudget danger ;; wret (Redirect EpProfile)
             | _ =>
                 flash ProfileError danger ;; wprint e ;;
                 wret (Redirect EpProfile)
             end)) wenv).

End Routes.


(** ** Requests *)

(** A request to one of the routes. *)
Inductive Request : Type :=
| GetIndex
| GetLogin
| PostLogin (form : string -> option string)
| GetRegister
| PostRegister (form : string -> option string)
| GetLogout
| GetDashboard
| PostAddSubscription (form : string -> option string)
| PostDeleteSubscription (subscription_id : Z)
| PostUpdateProfile (form : string -> option string).

(** The handler of a request. *)
Definition handle {A} `{Money A} (r : Request) : W A (Response A) :=
  match r with
  | GetIndex => index
  | GetLogin => login false (fun _ => None)
  | PostLogin form => login true form
  | GetRegister => register false (fun _ => None)
  | PostRegister form => register true form
  | GetLogout => logout
  | GetDashboard => dashboard
  | PostAddSubscription form => add_subscription form
  | PostDeleteSubscription subscription_id => delete_subscription subscription_id
  | PostUpdateProfile form => update_profile form
  end.

(** The state after a sequence of requests, whatever each of them
    answered. *)
Fixpoint serve {A} `{Money A} (rs : list Request) (wenv : WebEnv A)
    (wst : WebState A) : WebState A :=
  match rs with
  | [] => wst
  | r :: rs' => serve rs' wenv (snd (handle r wenv wst))
  end.

(** The routes behind [login_required]. *)
Definition protected (r : Request) : bool :=
  match r with
  | GetLogout | GetDashboard | PostAddSubscription _
  | PostDeleteSubscription _ | PostUpdateProfile _ => true
  | GetIndex | GetLogin | PostLogin _ | GetRegister | PostRegister _ => false
  end.

(** The rows of the subscriptions are as [add_subscription] accepts them:
    a billing day in 1..31, a price that is not [<= 0], a name that is not
    empty. *)
Definition subscription_rows_valid {A} `{Money A} (wst : WebState A) : Prop :=
  forall s, In s (db_subscriptions wst) ->
    1 <= Subscription.billing_date s <= 31 /\
    leb (Subscription.monthly_price s) zero = false /\
    Subscription.name s <> EmptyString.


(** A handler that leaves the two tables as they are. *)
Definition keeps_tables {A X} (c : W A X) : Prop :=
  forall wenv wst,
    db_users (snd (c wenv wst)) = db_users wst /\
    db_subscriptions (snd (c wenv wst)) = db_subscriptions wst.


(** ** Sample requests *)

Definition sample_float (s : string) : option Z :=
  if String.eqb s "12" then Some 12
  else if String.eqb s "250" then Some 250
  else if String.eqb s "-5" then Some (-5)
  else None.

Definition sample_int (s : string) : option Z :=
  if String.eqb s "7" then Some 7
  else if String.eqb s "40" then Some 40
  else None.

(** One more than the largest key of the table, as SQLite gives. *)
Definition next_key (keys : list Z) : Z := 1 + fold_right Z.max 0 keys.

Definition sample_wenv : WebEnv Z :=
  mkWebEnv (fun _ => march_first) (fun _ => None) (fun _ => None)
    (fun _ => None) sample_float sample_int (fun s => s)
    (fun ss => next_key (map Subscription.id ss))
    (fun us => next_key (map User.id us))
    (fun u password => String.eqb password "correct horse").

(** Alice is logged in. *)
Definition sample_wst : WebState Z :=
  mkWebState [alice; bob; carol] [netflix; gym; music] (Some 1)
    (Some "alice@example.com") [] 0%nat [] init_state.

(** Nobody is logged in. *)
Definition anonymous_wst : WebState Z :=
  mkWebState [alice; bob; carol] [netflix; gym; music] None None [] 0%nat []
    init_state.

Definition cloud_form (key : string) : option string :=
  if String.eqb key "name" then Some "Cloud"
  else if String.eqb key "monthly_price" then Some "12"
  else if String.eqb key "billing_date" then Some "7"
  else None.

Definition login_form (key : string) : option string :=
  if String.eqb key "email" then Some "alice@example.com"
  else if String.eqb key "password" then Some "correct horse"
  else None.

Definition budget_form (key : string) : option string :=
  if String.eqb key "monthly_budget" then Some "250"
  else if String.eqb key "budget_alerts" then Some "on"
  else None.


(** ** The dashboard's list *)

(** The entry of a subscription in the list of upcoming payments at [now]:
    none when [days_until] is above 30. *)
Definition upcoming_entry {A} (now : datetime) (s : Subscription.t A)
    : list (Upcoming A) :=
  match days_until_at (Subscription.billing_date s) now,
        next_date_at (Subscription.billing_date s) now with
  | Return n, Return next_date =>
      if n <=? 30 then [mkUpcoming s n next_date] else []
  | _, _ => []
  end.

(** The flag of the dashboard. *)
Definition dashboard_budget_alert {A} `{Money A} (wst : WebState A)
    (user : User.t A) : bool :=
  let monthly :=
    sum (map Subscription.monthly_price
           (filter (fun s => Subscription.user_id s =? User.id user)
              (db_subscriptions wst))) in
  if gtb (User.monthly_budget user) zero
  then gtb monthly (User.monthly_budget user)
  else false.


(** The subscriptions the dashboard lists at [now]: those whose
    [days_until] is at most 30. *)
Definition listed_on_dashboard {A} (now : datetime) (s : Subscription.t A)
    : bool :=
  match days_until_at (Subscription.billing_date s) now with
  | Return n => n <=? 30
  | Raise _ => false
  end.


(** The keys of the users, their emails and the keys of the subscriptions
    are each without repetition. *)
Definition accounts_distinct {A} (wst : WebState A) : Prop :=
  NoDup (map User.id (db_users wst)) /\
  NoDup (map User.email (db_users wst)) /\
  NoDup (map Subscription.id (db_subscriptions wst)).

(** The database gives a new row a key that no row of the table has. *)
Definition fresh_keys {A} (wenv : WebEnv A) : Prop :=
  (forall us, ~ In (new_user_id wenv us) (map User.id us)) /\
  (forall ss, ~ In (new_subscription_id wenv ss) (map Subscription.id ss)).

Definition register_form (key : string) : option string :=
  if String.eqb key "email" then Some "dave@example.com"
  else if String.eqb key "password" then Some "correct horse"
  else if String.eqb key "monthly_budget" then Some "250"
  else None.


(** A row with a billing day that [add_subscription] would not accept. *)
Definition stale : Subscription.t Z := Subscription.mk 9 "Stale" 5 0 1.

Definition stale_env : Env Z :=
  quiet_env march_first [alice; bob; carol] [netflix; stale; music].


(** A handler that leaves the user of the session as it is. *)
Definition keeps_session {A X} (c : W A X) : Prop :=
  forall wenv wst, session_user_id (snd (c wenv wst)) = session_user_id wst.

(** The user of the session, when there is one, is a row of the users. *)
Definition session_user_known {A} (wst : WebState A) : Prop :=
  forall uid, session_user_id wst = Some uid ->
              In uid (map User.id (db_users wst)).

Definition preferences_form (key : string) : option string :=
  if String.eqb key "monthly_budget" then Some "250"
  else if String.eqb key "budget_alerts" then Some "on"
  else if String.eqb key "monthly_summary" then Some "on"
  else None.


(** * Properties *)

(** ** Calendar arithmetic *)

Example ex_same_month :
  next_date_at 15 (at_time 2024 1 10 12 0 0) = Return (at_time 2024 1 15 0 0 0).
Proof. reflexivity. Qed.

Example ex_roll_over :
  next_date_at 15 (at_time 2024 1 20 12 0 0) = Return (at_time 2024 2 15 0 0 0).
Proof. reflexivity. Qed.

Example ex_year_wrap :
  next_date_at 10 (at_time 2024 12 15 12 0 0) = Return (at_time 2025 1 10 0 0 0).
Proof. reflexivity. Qed.

Example ex_end_of_february :
  days_until_at 31 (at_time 2023 2 28 9 0 0) = Return (-1).
Proof. reflexivity. Qed.

Lemma month_cases (m : Z) :
  1 <= m <= 12 ->
  m = 1 \/ m = 2 \/ m = 3 \/ m = 4 \/ m = 5 \/ m = 6 \/
  m = 7 \/ m = 8 \/ m = 9 \/ m = 10 \/ m = 11 \/ m = 12.
Proof. lia. Qed.

Ltac each_month m H :=
  let C := fresh "C" in
  pose proof (month_cases m H) as C;
  repeat (destruct C as [C | C]; [subst m | ]); [ .. | subst m].

Lemma days_in_month_bounds (y m : Z) :
  1 <= m <= 12 -> 28 <= days_in_month y m <= 31.
Proof.
  intros H. unfold days_in_month.
  each_month m H; destruct (isleap y); simpl; lia.
Qed.

Lemma monthrange_days (y m : Z) :
  1 <= m <= 12 ->
  exists day1, monthrange y m = Return (day1, days_in_month y m).
Proof.
  intros H. unfold monthrange.
  replace ((1 <=? m) && (m <=? 12)) with true
    by (symmetry; apply andb_true_iff; split; apply Z.leb_le; lia).
  eexists. f_equal. f_equal. unfold days_in_month.
  each_month m H; destruct (isleap y); reflexivity.
Qed.

Lemma days_before_year_succ (y : Z) :
  days_before_year (y + 1) =
  days_before_year y + 365 + (if isleap y then 1 else 0).
Proof.
  unfold days_before_year, isleap.
  replace (y + 1 - 1) with y by lia.
  destruct (Z.eqb_spec (y mod 4) 0), (Z.eqb_spec (y mod 100) 0),
    (Z.eqb_spec (y mod 400) 0); simpl; Z.to_euclidean_division_equations; lia.
Qed.

Lemma days_before_month_succ (y m : Z) :
  1 <= m <= 11 ->
  days_before_month y (m + 1) = days_before_month y m + days_in_month y m.
Proof.
  intros H. unfold days_before_month, days_in_month.
  assert (H' : 1 <= m <= 12) by lia.
  each_month m H'; try lia; destruct (isleap y); reflexivity.
Qed.

Lemma days_before_december (y : Z) :
  days_before_month y 12 + days_in_month y 12 =
  365 + (if isleap y then 1 else 0).
Proof.
  unfold days_before_month, days_in_month. destruct (isleap y); reflexivity.
Qed.

Lemma days_before_january (y : Z) : days_before_month y 1 = 0.
Proof. unfold days_before_month. simpl. reflexivity. Qed.


Lemma valid_datetime_fields (t : datetime) :
  valid_datetime t = true <-> valid_fields t.
Proof.
  unfold valid_datetime. rewrite !andb_true_iff, !Z.leb_le. split.
  - intros H. constructor; lia.
  - intros [? ? ? ? ? ? ?]. lia.
Qed.

Lemma time_of_day_bounds (t : datetime) :
  valid_datetime t = true -> 0 <= time_of_day t < 86400000000.
Proof.
  intros V. apply valid_datetime_fields in V. destruct V.
  unfold time_of_day. lia.
Qed.

Lemma to_micros_split (t : datetime) :
  to_micros t = toordinal t * 86400000000 + time_of_day t.
Proof. unfold to_micros, time_of_day. lia. Qed.

(** [(a - b).days] is the floor of the distance from [b] to [a] in days. *)
Lemma datetime_sub_days (a b : datetime) :
  days (datetime_sub a b) = (to_micros a - to_micros b) / 86400000000.
Proof.
  unfold datetime_sub, timedelta_new, to_micros. cbn [days].
  Z.to_euclidean_division_equations. lia.
Qed.

Lemma next_year_month_range (d : Z) (now : datetime) :
  valid_datetime now = true ->
  last_month now = false ->
  MINYEAR <= fst (next_year_month d now) <= MAXYEAR /\
  1 <= snd (next_year_month d now) <= 12.
Proof.
  intros V L. apply valid_datetime_fields in V. destruct V.
  unfold last_month in L. apply andb_false_iff in L.
  rewrite !Z.eqb_neq in L.
  unfold next_year_month.
  destruct (day now <? d); [cbn; lia|].
  destruct (Z.eqb_spec (month now) 12); cbn; unfold MINYEAR, MAXYEAR in *; lia.
Qed.

(** The computation returns, and returns midnight of the clamped day of
    the resolved month. *)
Lemma next_date_at_eq (d : Z) (now : datetime) :
  valid_datetime now = true ->
  1 <= d <= 31 ->
  last_month now = false ->
  next_date_at d now =
  Return (let '(ny, nm) := next_year_month d now in
          mkDatetime ny nm (Z.min d (days_in_month ny nm)) 0 0 0 0).
Proof.
  intros V D L.
  destruct (next_year_month_range d now V L) as [Hy Hm].
  unfold next_date_at.
  destruct (next_year_month d now) as [ny nm]. cbn [fst snd] in Hy, Hm.
  destruct (monthrange_days ny nm Hm) as [day1 ->]. cbn [obind snd].
  unfold datetime_ymd.
  pose proof (days_in_month_bounds ny nm Hm) as B.
  replace (valid_datetime _) with true; [reflexivity|].
  symmetry. apply valid_datetime_fields. constructor; cbn; lia.
Qed.


Lemma ymd2ord_next_month (y m dy dy' : Z) :
  1 <= m <= 12 ->
  ymd2ord (if m =? 12 then y + 1 else y) (if m =? 12 then 1 else m + 1) dy'
  - ymd2ord y m dy = days_in_month y m - dy + dy'.
Proof.
  intros H. unfold ymd2ord.
  destruct (Z.eqb_spec m 12) as [->|N].
  - rewrite days_before_year_succ, days_before_january.
    pose proof (days_before_december y). lia.
  - rewrite days_before_month_succ by lia. lia.
Qed.

Lemma next_date_ordinal (d : Z) (now next_date : datetime) :
  valid_datetime now = true ->
  1 <= d <= 31 ->
  next_date_at d now = Return next_date ->
  toordinal next_date - toordinal now = calendar_days_ahead d now /\
  time_of_day next_date = 0.
Proof.
  intros V D E.
  pose proof V as V'. apply valid_datetime_fields in V'. destruct V'.
  unfold next_date_at in E.
  destruct (next_year_month d now) as [ny nm] eqn:NYM.
  destruct (monthrange ny nm) as [[day1 nd]|] eqn:MR; [|discriminate].
  cbn [obind snd] in E. unfold datetime_ymd in E.
  match type of E with
  | context [valid_datetime ?t] => destruct (valid_datetime t) eqn:V2
  end; [|discriminate].
  injection E as <-.
  apply valid_datetime_fields in V2. destruct V2 as [? Hm ? ? ? ? ?].
  cbn [year month day] in *.
  destruct (monthrange_days ny nm Hm) as [day1' MR'].
  rewrite MR' in MR. injection MR as -> <-.
  split; [|reflexivity].
  unfold toordinal, calendar_days_ahead. cbn [year month day].
  rewrite NYM. unfold next_year_month in NYM.
  destruct (day now <? d).
  - injection NYM as <- <-. unfold ymd2ord. lia.
  - pose proof (ymd2ord_next_month (year now) (month now) (day now)
                  (Z.min d (days_in_month ny nm)) vf_month0) as O.
    destruct (month now =? 12); injection NYM as <- <-; exact O.
Qed.

Lemma calendar_days_ahead_bounds (d : Z) (now : datetime) :
  valid_datetime now = true ->
  1 <= d <= 31 ->
  last_month now = false ->
  0 <= calendar_days_ahead d now <= 31.
Proof.
  intros V D L.
  destruct (next_year_month_range d now V L) as [_ Hm].
  apply valid_datetime_fields in V. destruct V.
  pose proof (days_in_month_bounds (year now) (month now) vf_month0).
  unfold calendar_days_ahead.
  destruct (Z.ltb_spec (day now) d); [lia|].
  destruct (next_year_month d now) as [ny nm]. cbn [snd] in Hm.
  pose proof (days_in_month_bounds ny nm Hm). lia.
Qed.

(** [days_until] is the floor of the distance to the resolved midnight. *)
Lemma days_until_at_eq (d : Z) (now : datetime) :
  valid_datetime now = true ->
  1 <= d <= 31 ->
  last_month now = false ->
  days_until_at d now =
  Return ((calendar_days_ahead d now * 86400000000 - time_of_day now)
          / 86400000000).
Proof.
  intros V D L. unfold days_until_at.
  pose proof (next_date_at_eq d now V D L) as E.
  remember (let '(ny, nm) := next_year_month d now in _) as nd eqn:Hnd.
  clear Hnd. rewrite E. cbn [obind].
  destruct (next_date_ordinal d now nd V D E) as [O T].
  rewrite datetime_sub_days, !to_micros_split, T. f_equal. f_equal. lia.
Qed.

Lemma floor_below (c t : Z) :
  0 < t < 86400000000 -> (c * 86400000000 - t) / 86400000000 = c - 1.
Proof. intros. Z.to_euclidean_division_equations. lia. Qed.

Lemma floor_exact (c : Z) : (c * 86400000000 - 0) / 86400000000 = c.
Proof. Z.to_euclidean_division_equations. lia. Qed.

(** The range of [days_until], and the inputs at which it is negative: the
    last day of a month shorter than the billing day, after midnight. *)
Lemma days_until_range (d : Z) (now : datetime) :
  valid_datetime now = true ->
  1 <= d <= 31 ->
  last_month now = false ->
  exists n, days_until_at d now = Return n /\ -1 <= n <= 31 /\
    (n < 0 <->
     day now = days_in_month (year now) (month now) /\ day now < d /\
     0 < time_of_day now).
Proof.
  intros V D L. eexists. split; [apply days_until_at_eq; assumption|].
  pose proof (calendar_days_ahead_bounds d now V D L) as B.
  pose proof (time_of_day_bounds now V) as T.
  assert (C0 : calendar_days_ahead d now = 0 <->
               day now = days_in_month (year now) (month now) /\ day now < d).
  { destruct (next_year_month_range d now V L) as [_ Hm].
    pose proof V as V'. apply valid_datetime_fields in V'. destruct V'.
    unfold calendar_days_ahead.
    destruct (Z.ltb_spec (day now) d); [lia|].
    destruct (next_year_month d now) as [ny nm]. cbn [snd] in Hm.
    pose proof (days_in_month_bounds ny nm Hm). lia. }
  destruct (Z.eq_dec (time_of_day now) 0) as [T0|T0].
  - rewrite T0, floor_exact. lia.
  - rewrite floor_below by lia. lia.
Qed.

(** ** The billing date computation: the claims *)

(** C1 (the code at the input where the property fails).  On 28 February
    2023 at 09:00, for billing day 31, the computed payment date is
    28 February 2023 at midnight, which is before the clock's reading, and
    [get_days_until_payment] returns -1: the date is not strictly after now
    and the day count is negative. *)
Theorem days_until_negative_at_month_end :
  let now := at_time 2023 2 28 9 0 0 in
  valid_datetime now = true /\
  next_date_at 31 now = Return (at_time 2023 2 28 0 0 0) /\
  to_micros (at_time 2023 2 28 0 0 0) < to_micros now /\
  fst (get_days_until_payment (A := Z) 31 (quiet_env now [] []) init_state)
  = Return (-1).
Proof. cbv zeta. repeat split. Qed.

(** C2.  For a billing day in 1..31 the payment date is resolved to the
    current month exactly when [now.day < d], and otherwise to the month
    that follows (January of the next year after December); in particular
    for [now.day = d]; it is never more than one calendar month ahead. *)
Theorem next_payment_month (d : Z) (now : datetime) :
  valid_datetime now = true ->
  1 <= d <= 31 ->
  last_month now = false ->
  exists next_date,
    next_date_at d now = Return next_date /\
    (day now < d <->
     year next_date = year now /\ month next_date = month now) /\
    (d <= day now ->
     month_index next_date = month_index now + 1 /\
     (month now = 12 -> year next_date = year now + 1 /\ month next_date = 1) /\
     (month now <> 12 ->
      year next_date = year now /\ month next_date = month now + 1)) /\
    (day now = d -> month_index next_date = month_index now + 1) /\
    0 <= month_index next_date - month_index now <= 1.
Proof.
  intros V D L. eexists. split; [apply next_date_at_eq; assumption|].
  apply valid_datetime_fields in V. destruct V.
  unfold next_year_month, month_index.
  destruct (Z.ltb_spec (day now) d);
    [|destruct (Z.eqb_spec (month now) 12)]; cbn [year month]; lia.
Qed.

Lemma next_payment_month_witness :
  valid_datetime (at_time 2024 12 15 9 0 0) = true /\
  1 <= 10 <= 31 /\
  last_month (at_time 2024 12 15 9 0 0) = false /\
  exists next_date,
    next_date_at 10 (at_time 2024 12 15 9 0 0) = Return next_date /\
    year next_date = 2025 /\ month next_date = 1.
Proof.
  split; [reflexivity|]. split; [lia|]. split; [reflexivity|].
  destruct (next_payment_month 10 (at_time 2024 12 15 9 0 0))
    as (nd & E & _ & N & _); [reflexivity|lia|reflexivity|].
  exists nd. split; [exact E|]. apply N; cbn; lia.
Defined.

(** C3.  The day of the resolved date is [min(d, days in the resolved
    month)], the month lengths being the calendar's: the length of a month
    is the distance between its first day and the first day of the month
    after it, February having 29 days in leap years and 28 otherwise.  For
    billing day 31 on 15 February the day is 29 in 2024 and 28 in 2023. *)
Theorem payment_day_clamped (d : Z) (now : datetime) :
  valid_datetime now = true ->
  1 <= d <= 31 ->
  last_month now = false ->
  exists next_date max_day,
    next_date_at d now = Return next_date /\
    (exists day1, monthrange (year next_date) (month next_date)
                  = Return (day1, max_day)) /\
    day next_date = Z.min d max_day /\
    valid_datetime next_date = true /\
    max_day =
      ymd2ord (if month next_date =? 12 then year next_date + 1
               else year next_date)
              (if month next_date =? 12 then 1 else month next_date + 1) 1
      - ymd2ord (year next_date) (month next_date) 1 /\
    (month next_date = 2 ->
     max_day = if isleap (year next_date) then 29 else 28) /\
    (now = at_time 2024 2 15 0 0 0 -> d = 31 ->
     next_date = at_time 2024 2 29 0 0 0) /\
    (now = at_time 2023 2 15 0 0 0 -> d = 31 ->
     next_date = at_time 2023 2 28 0 0 0).
Proof.
  intros V D L.
  destruct (next_year_month_range d now V L) as [Hy Hm].
  pose proof (next_date_at_eq d now V D L) as E.
  destruct (next_year_month d now) as [ny nm]. cbn [fst snd] in Hy, Hm.
  pose proof (days_in_month_bounds ny nm Hm) as B.
  eexists. exists (days_in_month ny nm). split; [exact E|].
  cbn [year month day]. repeat split.
  - apply monthrange_days, Hm.
  - apply valid_datetime_fields. constructor; cbn; lia.
  - pose proof (ymd2ord_next_month ny nm 1 1 Hm). lia.
  - intros ->. unfold days_in_month. destruct (isleap ny); reflexivity.
  - intros -> ->. cbv in E. now injection E as <- <-.
  - intros -> ->. cbv in E. now injection E as <- <-.
Qed.

Lemma payment_day_clamped_witness :
  valid_datetime (at_time 2024 2 15 0 0 0) = true /\
  1 <= 31 <= 31 /\
  last_month (at_time 2024 2 15 0 0 0) = false /\
  exists next_date,
    next_date_at 31 (at_time 2024 2 15 0 0 0) = Return next_date /\
    day next_date = 29.
Proof.
  split; [reflexivity|]. split; [lia|]. split; [reflexivity|].
  destruct (payment_day_clamped 31 (at_time 2024 2 15 0 0 0))
    as (nd & md & E & _ & _ & _ & _ & _ & X & _);
    [reflexivity|lia|reflexivity|].
  exists nd. split; [exact E|]. now rewrite X.
Defined.

(** C9.  When the clock reads a time after midnight, [days_until] is the
    number of calendar days from the date of [now] to the payment date,
    minus 1.  At a run of the daily job, scheduled at 09:00, [days_until]
    is 3 exactly when the payment date is 4 calendar days after the date of
    the run, and a reminder decided then is for a payment 4 calendar days
    after that date. *)
Theorem days_until_after_midnight (d : Z) (now : datetime) :
  valid_datetime now = true ->
  1 <= d <= 31 ->
  last_month now = false ->
  exists next_date,
    next_date_at d now = Return next_date /\
    hour next_date = 0 /\ minute next_date = 0 /\ second next_date = 0 /\
    microsecond next_date = 0 /\
    (0 < time_of_day now ->
     days_until_at d now =
     Return (toordinal next_date - toordinal now - 1)) /\
    (hour now = scheduled_hour -> minute now = scheduled_minute ->
     (days_until_at d now = Return 3 <->
      toordinal next_date - toordinal now = 4) /\
     forall (A : Type) (u : User.t A) (s : Subscription.t A) (m : Message A),
       Subscription.billing_date s = d ->
       In m (reminder_for now u s) ->
       m = PaymentReminder (User.email u) (Subscription.name s)
             (Subscription.monthly_price s) 3 next_date /\
       toordinal next_date - toordinal now = 4).
Proof.
  intros V D L.
  pose proof (next_date_at_eq d now V D L) as E.
  pose proof (days_until_at_eq d now V D L) as U.
  pose proof (time_of_day_bounds now V) as T.
  remember (let '(ny, nm) := next_year_month d now in _) as nd eqn:Hnd.
  assert (F : hour nd = 0 /\ minute nd = 0 /\ second nd = 0 /\
              microsecond nd = 0).
  { subst nd. destruct (next_year_month d now). cbn. auto. }
  clear Hnd. exists nd. split; [exact E|].
  destruct (next_date_ordinal d now nd V D E) as [O _].
  destruct F as (? & ? & ? & ?). do 4 (split; [assumption|]). split.
  - intros P. rewrite U, floor_below, O by lia. reflexivity.
  - intros Hh Hmin.
    assert (P : 0 < time_of_day now < 86400000000).
    { apply valid_datetime_fields in V. destruct V.
      unfold time_of_day, scheduled_hour in *. cbn in Hh. lia. }
    assert (I : days_until_at d now = Return 3 <->
                toordinal nd - toordinal now = 4).
    { rewrite U, floor_below by exact P. split.
      - intros R. injection R as R. lia.
      - intros R. f_equal. lia. }
    split; [exact I|].
    intros A u s m <- Hin. unfold reminder_for, reminder_due in Hin.
    destruct (User.payment_reminders u); [|contradiction].
    cbn [andb] in Hin.
    destruct (days_until_at (Subscription.billing_date s) now) as [n|e] eqn:Dn;
      [|contradiction].
    destruct (Z.eqb_spec n 3) as [->|]; [|contradiction].
    unfold reminder_message in Hin. rewrite E in Hin.
    destruct Hin as [<-|[]]. split; [reflexivity|]. now apply I.
Qed.

Lemma days_until_after_midnight_witness :
  valid_datetime march_first = true /\
  1 <= 5 <= 31 /\
  last_month march_first = false /\
  days_until_at 5 march_first = Return 3 /\
  exists next_date,
    next_date_at 5 march_first = Return next_date /\
    toordinal next_date - toordinal march_first = 4.
Proof.
  split; [reflexivity|]. split; [lia|]. split; [reflexivity|].
  destruct (days_until_after_midnight 5 march_first)
    as (nd & E & _ & _ & _ & _ & _ & S);
    [reflexivity|lia|reflexivity|].
  split; [reflexivity|]. exists nd. split; [exact E|].
  apply S; reflexivity.
Defined.

(** ** Runs of the dispatch functions *)

Section Runs.
Context {A : Type} `{Money A}.
Variable env : Env A.

Lemma deliver_app (n : nat) (xs ys : list (Message A)) :
  deliver (mail_fault env) n (xs ++ ys) =
  deliver (mail_fault env) n xs ++ deliver (mail_fault env) (n + List.length xs) ys.
Proof.
  revert n. induction xs as [|x xs IH]; intros n; cbn.
  - now rewrite Nat.add_0_r.
  - rewrite IH. now rewrite Nat.add_succ_r.
Qed.

Lemma delivery_log_app (n : nat) (xs ys : list (Message A)) :
  delivery_log (mail_fault env) n (xs ++ ys) =
  delivery_log (mail_fault env) n xs ++ delivery_log (mail_fault env) (n + List.length xs) ys.
Proof.
  revert n. induction xs as [|x xs IH]; intros n; cbn.
  - now rewrite Nat.add_0_r.
  - rewrite IH. now rewrite Nat.add_succ_r.
Qed.

Lemma deliver_length (n : nat) (xs : list (Message A)) :
  List.length (deliver (mail_fault env) n xs) = List.length xs.
Proof. revert n. induction xs; intros; cbn; auto. Qed.

Lemma deliver_fst (n : nat) (xs : list (Message A)) :
  map fst (deliver (mail_fault env) n xs) = xs.
Proof. revert n. induction xs; intros; cbn; f_equal; auto. Qed.

Lemma delivered_count_app (xs ys : list (Message A * bool)) :
  delivered_count (xs ++ ys) = delivered_count xs + delivered_count ys.
Proof.
  unfold delivered_count. rewrite filter_app, length_app. lia.
Qed.

Lemma send_budget_alert_run (st : State A) (u : User.t A) (t b o : A) :
  let msg := BudgetAlert (User.email u) b t o in
  let n := List.length (outbox st) in
  send_budget_alert u t b o env st =
  (Return (delivered (mail_fault env) n),
   mkState (clock_reads st) (store_reads st)
     (outbox st ++ [(msg, delivered (mail_fault env) n)])
     (stdout st ++ [send_line (mail_fault env) n msg])).
Proof.
  unfold send_budget_alert, try_except, bind, mail_send, print, ret,
    delivered, send_line.
  cbn. destruct (mail_fault env _); reflexivity.
Qed.

(** One read of a healthy store. *)
Lemma store_read_run {X} (rows : Env A -> X) (st : State A) :
  store_healthy env ->
  store_read rows env st =
  (Return (rows env),
   mkState (clock_reads st) (S (store_reads st)) (outbox st) (stdout st)).
Proof. intros Hs. unfold store_read. now rewrite Hs. Qed.

Lemma bind_return {X Y} (c : M A X) (k : X -> M A Y) (st st1 : State A) (x : X) :
  c env st = (Return x, st1) -> bind c k env st = k x env st1.
Proof. intros E. unfold bind. now rewrite E. Qed.

Lemma bind_raise {X Y} (c : M A X) (k : X -> M A Y) (st st1 : State A) (e : Exn) :
  c env st = (Raise e, st1) -> bind c k env st = (Raise e, st1).
Proof. intros E. unfold bind. now rewrite E. Qed.


Lemma step_sends_nil (acc : Z) (st : State A) : step_sends env (ret acc) acc st [].
Proof.
  exists st. cbn. unfold ret, delivered_count. cbn.
  now rewrite Z.add_0_r, !app_nil_r.
Qed.

Lemma step_sends_bind (c : M A Z) (k : Z -> M A Z) (acc : Z) (st : State A)
    (xs ys : list (Message A)) :
  step_sends env c acc st xs ->
  (forall acc' st', outbox st' = outbox st ++
                      deliver (mail_fault env) (List.length (outbox st)) xs ->
                    step_sends env (k acc') acc' st' ys) ->
  step_sends env (bind c k) acc st (xs ++ ys).
Proof.
  intros (st1 & E1 & O1 & L1) K.
  destruct (K (acc + delivered_count
                 (deliver (mail_fault env) (List.length (outbox st)) xs)) st1 O1)
    as (st2 & E2 & O2 & L2).
  exists st2. rewrite (bind_return _ _ _ _ _ E1), E2, O2, L2, O1, L1.
  rewrite length_app, deliver_length, deliver_app, delivery_log_app.
  rewrite delivered_count_app, <- !app_assoc.
  repeat split. f_equal. f_equal. lia.
Qed.

(** A loop whose every step sends the messages [dec x]. *)
Lemma for_each_sends {X} (body : X -> Z -> M A Z) (dec : X -> list (Message A))
    (xs : list X) :
  (forall x acc st, In x xs -> step_sends env (body x acc) acc st (dec x)) ->
  forall acc st, step_sends env (for_each xs acc body) acc st (flat_map dec xs).
Proof.
  induction xs as [|x xs IH]; intros Hb acc st; cbn [for_each flat_map].
  - apply step_sends_nil.
  - apply step_sends_bind.
    + apply Hb. now left.
    + intros acc' st' _. apply IH. intros. apply Hb. now right.
Qed.

Lemma flat_map_filter_map {X Y} (p : X -> bool) (f : X -> Y) (xs : list X) :
  flat_map (fun x => if p x then [f x] else []) xs = map f (filter p xs).
Proof.
  induction xs as [|x xs IH]; cbn; [reflexivity|].
  rewrite IH. now destruct (p x).
Qed.

Lemma flat_map_map_eq {X Y} (f : X -> Y) (xs : list X) :
  flat_map (fun x => [f x]) xs = map f xs.
Proof. induction xs; cbn; congruence. Qed.

(** A step that returns and neither sends nor prints. *)
Lemma step_sends_quiet {X} (c : M A X) (k : X -> M A Z) (x : X)
    (acc : Z) (st st1 : State A) (msgs : list (Message A)) :
  c env st = (Return x, st1) ->
  outbox st1 = outbox st ->
  stdout st1 = stdout st ->
  step_sends env (k x) acc st1 msgs ->
  step_sends env (bind c k) acc st msgs.
Proof.
  intros E O L (st2 & E2 & O2 & L2). exists st2.
  rewrite (bind_return _ _ _ _ _ E), E2, O2, L2, O, L. auto.
Qed.

(** Reading a healthy store sends nothing. *)
Lemma step_sends_store_read {X} (rows : Env A -> X) (k : X -> M A Z)
    (acc : Z) (st : State A) (msgs : list (Message A)) :
  store_healthy env ->
  (forall st', outbox st' = outbox st -> stdout st' = stdout st ->
               step_sends env (k (rows env)) acc st' msgs) ->
  step_sends env (bind (store_read rows) k) acc st msgs.
Proof.
  intros Hs K.
  destruct (K (mkState (clock_reads st) (S (store_reads st)) (outbox st)
                 (stdout st)) eq_refl eq_refl) as (st2 & E & O & L).
  exists st2. rewrite (bind_return _ _ _ _ _ (store_read_run rows st Hs)).
  cbn [outbox stdout] in *. auto.
Qed.

(** A dispatch whose boolean result is added to the counter. *)
Lemma step_sends_dispatch (c : M A bool) (acc : Z) (st : State A)
    (msg : Message A) :
  let n := List.length (outbox st) in
  (exists st', c env st = (Return (delivered (mail_fault env) n), st') /\
     outbox st' = outbox st ++ [(msg, delivered (mail_fault env) n)] /\
     stdout st' = stdout st ++ [send_line (mail_fault env) n msg]) ->
  step_sends env (ok <- c ;; ret (if ok : bool then acc + 1 else acc)) acc st [msg].
Proof.
  intros n (st' & E & O & L). exists st'.
  rewrite (bind_return _ _ _ _ _ E). unfold ret. cbn [deliver delivery_log].
  fold n. rewrite O, L. repeat split. f_equal. f_equal.
  unfold delivered_count. cbn. destruct (delivered _ _); cbn; lia.
Qed.

Lemma budget_step_run (u : User.t A) (acc : Z) (st : State A) :
  store_healthy env ->
  step_sends env
    (subs <- user_subscriptions u ;;
     let total_spending := get_total_monthly_cost subs in
     let budget_limit := User.monthly_budget u in
     if gtb total_spending budget_limit then
       let overage := sub total_spending budget_limit in
       ok <- send_budget_alert u total_spending budget_limit overage ;;
       ret (if ok : bool then acc + 1 else acc)
     else ret acc) acc st
    (if over_budget env u then [budget_alert_message env u] else []).
Proof.
  intros Hs. unfold user_subscriptions, query_subscriptions.
  apply step_sends_store_read; [exact Hs|]. intros st' _ _.
  fold (subscriptions_of env u). cbn zeta.
  unfold get_total_monthly_cost. fold (total_of env u).
  unfold over_budget.
  destruct (gtb (total_of env u) (User.monthly_budget u)).
  - apply step_sends_dispatch. rewrite send_budget_alert_run.
    eexists. repeat split.
  - apply step_sends_nil.
Qed.

Lemma datetime_now_run (st : State A) :
  datetime_now env st =
  (Return (clock env (clock_reads st)),
   mkState (S (clock_reads st)) (store_reads st) (outbox st) (stdout st)).
Proof. reflexivity. Qed.

Lemma print_run (l : LogLine A) (st : State A) :
  print l env st =
  (Return tt,
   mkState (clock_reads st) (store_reads st) (outbox st) (stdout st ++ [l])).
Proof. reflexivity. Qed.

(** The shape of a job: banner, query, loop, closing line. *)
Lemma job_run (job : Job) (criterion : User.t A -> bool)
    (body : User.t A -> Z -> M A Z) (dec : User.t A -> list (Message A))
    (st : State A) :
  store_healthy env ->
  (forall u acc st, In u (filter criterion (users env)) ->
                    step_sends env (body u acc) acc st (dec u)) ->
  let n := List.length (outbox st) in
  let msgs := flat_map dec (filter criterion (users env)) in
  exists st',
    (started <- datetime_now ;;
     print (Running job started) ;;
     users <- query_users criterion ;;
     sent <- for_each users 0 body ;;
     print (Complete job sent)) env st = (Return tt, st') /\
    outbox st' = outbox st ++ deliver (mail_fault env) n msgs /\
    stdout st' =
      stdout st ++ [Running job (clock env (clock_reads st))] ++
      delivery_log (mail_fault env) n msgs ++
      [Complete job (delivered_count (deliver (mail_fault env) n msgs))].
Proof.
  intros Hs Hb n msgs.
  rewrite (bind_return _ _ _ _ _ (datetime_now_run st)).
  rewrite (bind_return _ _ _ _ _ (print_run _ _)).
  unfold query_users.
  rewrite (bind_return _ _ _ _ _ (store_read_run _ _ Hs)).
  match goal with
  | |- context [bind (for_each ?xs 0 body) _ env ?s] =>
      destruct (for_each_sends body dec xs Hb 0 s) as (st4 & E & O & L)
  end.
  rewrite (bind_return _ _ _ _ _ E), print_run.
  cbn [outbox stdout] in *. fold n msgs in O, L, E |- *.
  eexists. split; [reflexivity|]. cbn [outbox stdout].
  rewrite O, L, Z.add_0_l, <- !app_assoc. auto.
Qed.

Lemma check_budget_alerts_run (st : State A) :
  store_healthy env ->
  let n := List.length (outbox st) in
  let msgs := budget_alert_decisions env in
  exists st',
    check_budget_alerts env st = (Return tt, st') /\
    outbox st' = outbox st ++ deliver (mail_fault env) n msgs /\
    stdout st' =
      stdout st ++ [Running JobBudgetAlerts (clock env (clock_reads st))] ++
      delivery_log (mail_fault env) n msgs ++
      [Complete JobBudgetAlerts
         (delivered_count (deliver (mail_fault env) n msgs))].
Proof.
  intros Hs n msgs. unfold msgs, budget_alert_decisions.
  rewrite <- flat_map_filter_map.
  apply job_run; [exact Hs|].
  intros u acc st0 _. now apply budget_step_run.
Qed.

Lemma send_monthly_summary_run (st : State A) (u : User.t A) (t : A)
    (c : Z) (subs : list (Subscription.t A)) :
  let msg := MonthlySummary (User.email u) (clock env (clock_reads st)) t c
               (map (fun s => (Subscription.name s, Subscription.monthly_price s))
                  subs) in
  let n := List.length (outbox st) in
  send_monthly_summary u t c subs env st =
  (Return (delivered (mail_fault env) n),
   mkState (S (clock_reads st)) (store_reads st)
     (outbox st ++ [(msg, delivered (mail_fault env) n)])
     (stdout st ++ [send_line (mail_fault env) n msg])).
Proof.
  unfold send_monthly_summary, try_except, bind, mail_send, print, ret,
    datetime_now, delivered, send_line.
  cbn. destruct (mail_fault env _); reflexivity.
Qed.

Lemma summary_step_run (now : datetime) (u : User.t A) (acc : Z) (st : State A) :
  store_healthy env ->
  clock_frozen env now ->
  step_sends env
    (subscriptions <- user_subscriptions u ;;
     let total_monthly := get_total_monthly_cost subscriptions in
     let subscription_count := Z.of_nat (List.length subscriptions) in
     ok <- send_monthly_summary u total_monthly subscription_count
             subscriptions ;;
     ret (if ok : bool then acc + 1 else acc)) acc st
    [summary_message env now u].
Proof.
  intros Hs Hc. unfold user_subscriptions, query_subscriptions.
  apply step_sends_store_read; [exact Hs|]. intros st' _ _.
  fold (subscriptions_of env u). cbn zeta.
  unfold get_total_monthly_cost. fold (total_of env u).
  apply step_sends_dispatch. rewrite send_monthly_summary_run, Hc.
  eexists. repeat split.
Qed.

Lemma send_all_monthly_summaries_run (now : datetime) (st : State A) :
  store_healthy env ->
  clock_frozen env now ->
  let n := List.length (outbox st) in
  let msgs := summary_decisions env now in
  exists st',
    send_all_monthly_summaries env st = (Return tt, st') /\
    outbox st' = outbox st ++ deliver (mail_fault env) n msgs /\
    stdout st' =
      stdout st ++ [Running JobMonthlySummary now] ++
      delivery_log (mail_fault env) n msgs ++
      [Complete JobMonthlySummary
         (delivered_count (deliver (mail_fault env) n msgs))].
Proof.
  intros Hs Hc n msgs. unfold msgs, summary_decisions.
  rewrite <- flat_map_map_eq, <- (Hc (clock_reads st)).
  apply job_run; [exact Hs|].
  intros u acc st0 _. rewrite (Hc (clock_reads st)). now apply summary_step_run.
Qed.

Lemma lift_run {X} (o : Outcome X) (st : State A) : lift o env st = (o, st).
Proof. reflexivity. Qed.

Lemma send_payment_reminder_run (now next_date : datetime) (st : State A)
    (u : User.t A) (s : Subscription.t A) (d : Z) :
  clock_frozen env now ->
  next_date_at (Subscription.billing_date s) now = Return next_date ->
  let msg := PaymentReminder (User.email u) (Subscription.name s)
               (Subscription.monthly_price s) d next_date in
  let n := List.length (outbox st) in
  send_payment_reminder u s d env st =
  (Return (delivered (mail_fault env) n),
   mkState (S (clock_reads st)) (store_reads st)
     (outbox st ++ [(msg, delivered (mail_fault env) n)])
     (stdout st ++ [send_line (mail_fault env) n msg])).
Proof.
  intros Hc E.
  unfold send_payment_reminder, try_except, get_next_payment_date.
  unfold bind, datetime_now, lift. rewrite Hc, E.
  unfold mail_send, print, ret, delivered, send_line.
  cbn. destruct (mail_fault env _); reflexivity.
Qed.

Lemma flat_map_filter {X Y} (p : X -> bool) (f : X -> list Y) (xs : list X) :
  flat_map (fun x => if p x then f x else []) xs = flat_map f (filter p xs).
Proof.
  induction xs as [|x xs IH]; cbn; [reflexivity|].
  rewrite IH. now destruct (p x).
Qed.

Lemma reminder_step_run (now : datetime) (u : User.t A) (s : Subscription.t A)
    (acc : Z) (st : State A) :
  clock_frozen env now ->
  valid_datetime now = true ->
  last_month now = false ->
  1 <= Subscription.billing_date s <= 31 ->
  step_sends env
    (now <- datetime_now ;;
     let billing_date := Subscription.billing_date s in
     next_date <- lift (next_date_at billing_date now) ;;
     let days_until := days (datetime_sub next_date now) in
     if days_until =? 3 then
       ok <- send_payment_reminder u s days_until ;;
       ret (if ok : bool then acc + 1 else acc)
     else ret acc) acc st
    (if reminder_due now s then reminder_message now u s else []).
Proof.
  intros Hc V L D.
  pose proof (next_date_at_eq _ _ V D L) as E.
  remember (let '(ny, nm) := next_year_month (Subscription.billing_date s) now in _)
    as nd eqn:Hnd. clear Hnd.
  unfold reminder_due, reminder_message, days_until_at. rewrite E. cbn [obind].
  eapply step_sends_quiet; [apply datetime_now_run|reflexivity..|].
  cbn beta zeta. rewrite !Hc, E.
  eapply step_sends_quiet; [apply lift_run|reflexivity..|].
  cbn beta.
  destruct (Z.eqb_spec (days (datetime_sub nd now)) 3) as [E3|N3].
  - rewrite E3. apply step_sends_dispatch.
    rewrite (send_payment_reminder_run now nd _ _ _ _ Hc E).
    eexists. repeat split.
  - apply step_sends_nil.
Qed.

Lemma reminder_user_run (now : datetime) (u : User.t A) (acc : Z) (st : State A) :
  store_healthy env ->
  clock_frozen env now ->
  valid_datetime now = true ->
  last_month now = false ->
  billing_dates_valid env ->
  step_sends env
    (subs <- user_subscriptions u ;;
     for_each subs acc (fun subscription reminders_sent =>
       now <- datetime_now ;;
       let billing_date := Subscription.billing_date subscription in
       next_date <- lift (next_date_at billing_date now) ;;
       let days_until := days (datetime_sub next_date now) in
       if days_until =? 3 then
         ok <- send_payment_reminder u subscription days_until ;;
         ret (if ok : bool then reminders_sent + 1 else reminders_sent)
       else ret reminders_sent)) acc st
    (reminders_of env now u).
Proof.
  intros Hs Hc V L B. unfold user_subscriptions, query_subscriptions.
  apply step_sends_store_read; [exact Hs|]. intros st' _ _.
  fold (subscriptions_of env u). unfold reminders_of.
  rewrite <- flat_map_filter.
  apply for_each_sends. intros s acc' st0 Hin.
  apply reminder_step_run; auto.
  apply B. unfold subscriptions_of in Hin. apply filter_In in Hin. tauto.
Qed.

Lemma check_payment_reminders_run (now : datetime) (st : State A) :
  store_healthy env ->
  clock_frozen env now ->
  valid_datetime now = true ->
  last_month now = false ->
  billing_dates_valid env ->
  let n := List.length (outbox st) in
  let msgs := reminder_decisions env now in
  exists st',
    check_payment_reminders env st = (Return tt, st') /\
    outbox st' = outbox st ++ deliver (mail_fault env) n msgs /\
    stdout st' =
      stdout st ++ [Running JobPaymentReminders now] ++
      delivery_log (mail_fault env) n msgs ++
      [Complete JobPaymentReminders
         (delivered_count (deliver (mail_fault env) n msgs))].
Proof.
  intros Hs Hc V L B n msgs. unfold msgs, reminder_decisions.
  rewrite <- (Hc (clock_reads st)).
  apply job_run; [exact Hs|].
  intros u acc st0 _. rewrite (Hc (clock_reads st)).
  now apply reminder_user_run.
Qed.

(** The three jobs at once. *)
Lemma job_function_run (j : Job) (now : datetime) (st : State A) :
  store_healthy env ->
  clock_frozen env now ->
  (j = JobPaymentReminders ->
   valid_datetime now = true /\ last_month now = false /\
   billing_dates_valid env) ->
  let n := List.length (outbox st) in
  let msgs := job_decisions env now j in
  exists st',
    job_function j env st = (Return tt, st') /\
    outbox st' = outbox st ++ deliver (mail_fault env) n msgs /\
    stdout st' = stdout st ++ job_log (mail_fault env) n j now msgs.
Proof.
  intros Hs Hc Hd n msgs. unfold job_log. destruct j; cbn [job_function].
  - destruct Hd as (V & L & B); [reflexivity|].
    now apply check_payment_reminders_run.
  - rewrite <- (Hc (clock_reads st)). now apply check_budget_alerts_run.
  - now apply send_all_monthly_summaries_run.
Qed.

(** The decisions, user by user and subscription by subscription. *)
Lemma reminder_decisions_eq (now : datetime) :
  reminder_decisions env now =
  flat_map (fun u => flat_map (reminder_for now u) (subscriptions_of env u))
    (users env).
Proof.
  unfold reminder_decisions. rewrite <- flat_map_filter.
  apply flat_map_ext. intros u. unfold reminders_of, reminder_for.
  destruct (User.payment_reminders u); cbn [andb].
  - now rewrite <- flat_map_filter.
  - clear. induction (subscriptions_of env u); cbn; auto.
Qed.

Lemma budget_alert_decisions_eq :
  budget_alert_decisions env = flat_map (budget_alert_for env) (users env).
Proof.
  unfold budget_alert_decisions.
  rewrite <- flat_map_filter_map, <- flat_map_filter.
  apply flat_map_ext. intros u. unfold budget_alert_for, budget_alert_eligible,
    over_budget.
  destruct (User.budget_alerts u && gtb (User.monthly_budget u) zero);
    reflexivity.
Qed.

Lemma summary_decisions_eq (now : datetime) :
  summary_decisions env now = flat_map (summary_for env now) (users env).
Proof.
  unfold summary_decisions. now rewrite <- flat_map_filter_map.
Qed.

(** The counter of a job: the sends of the run that did not raise. *)
Lemma delivered_count_deliver (n : nat) (msgs : list (Message A)) :
  delivered_count (deliver (mail_fault env) n msgs) =
  Z.of_nat (List.length (filter (delivered (mail_fault env))
                           (seq n (List.length msgs)))).
Proof.
  unfold delivered_count. f_equal. revert n.
  induction msgs as [|m ms IH]; intros n; cbn; [reflexivity|].
  destruct (delivered (mail_fault env) n); cbn; now rewrite IH.
Qed.

(** The dispatch functions return on every input, with [false] when the
    transport raises. *)
Lemma send_payment_reminder_total (st : State A) (u : User.t A)
    (s : Subscription.t A) (d : Z) :
  exists b st',
    send_payment_reminder u s d env st = (Return b, st') /\
    (forall e, mail_fault env (List.length (outbox st)) = Some e -> b = false).
Proof.
  unfold send_payment_reminder, try_except, get_next_payment_date, bind,
    datetime_now, lift, mail_send, print, ret.
  destruct (next_date_at _ _); cbn [outbox].
  - destruct (mail_fault env _); do 2 eexists; (split; [reflexivity|]);
      intros; congruence.
  - do 2 eexists. split; [reflexivity|]. reflexivity.
Qed.

Lemma send_budget_alert_total (st : State A) (u : User.t A) (t b o : A) :
  exists r st',
    send_budget_alert u t b o env st = (Return r, st') /\
    (forall e, mail_fault env (List.length (outbox st)) = Some e -> r = false).
Proof.
  rewrite send_budget_alert_run. do 2 eexists. split; [reflexivity|].
  unfold delivered. now intros e ->.
Qed.

Lemma send_monthly_summary_total (st : State A) (u : User.t A) (t : A)
    (c : Z) (subs : list (Subscription.t A)) :
  exists r st',
    send_monthly_summary u t c subs env st = (Return r, st') /\
    (forall e, mail_fault env (List.length (outbox st)) = Some e -> r = false).
Proof.
  rewrite send_monthly_summary_run. do 2 eexists. split; [reflexivity|].
  unfold delivered. now intros e ->.
Qed.

Lemma send_subscription_email_total (st : State A) (to name : string) (p : A) :
  exists r st',
    send_subscription_email to name p env st = (Return r, st') /\
    (forall e, mail_fault env (List.length (outbox st)) = Some e -> r = false).
Proof.
  unfold send_subscription_email, try_except, bind, mail_send, print, ret.
  destruct (mail_fault env _); do 2 eexists; (split; [reflexivity|]);
    intros; congruence.
Qed.

(** A failure of the read of the users leaves the job function as an
    exception, after the banner and before anything is sent. *)
Lemma job_function_store_error (j : Job) (st : State A) (e : Exn) :
  store_fault env (store_reads st) = Some e ->
  exists st',
    job_function j env st = (Raise e, st') /\
    outbox st' = outbox st /\
    stdout st' = stdout st ++ [Running j (clock env (clock_reads st))].
Proof.
  intros F.
  destruct j; cbn [job_function];
    unfold check_payment_reminders, check_budget_alerts,
      send_all_monthly_summaries;
    rewrite (bind_return _ _ _ _ _ (datetime_now_run st));
    rewrite (bind_return _ _ _ _ _ (print_run _ _));
    unfold query_users;
    (erewrite bind_raise;
     [|unfold store_read; cbn [store_reads]; rewrite F; reflexivity]);
    eexists; repeat split.
Qed.

End Runs.

(** ** Store failures are never hidden *)

Section StoreReads.
Context {A : Type} `{Money A}.

Lemma reads_nothing_answered {X} (c : M A X) :
  reads_nothing c -> reads_answered c.
Proof.
  intros N env st. rewrite (N env st). split; [lia|]. intros; lia.
Qed.

Lemma reads_answered_bind {X Y} (c : M A X) (k : X -> M A Y) :
  reads_answered c -> (forall x, reads_answered (k x)) ->
  reads_answered (bind c k).
Proof.
  intros Hc Hk env st. unfold bind.
  destruct (Hc env st) as [Le1 R1].
  destruct (c env st) as [[x|e] st1]; cbn [fst snd] in *.
  - destruct (Hk x env st1) as [Le2 R2].
    split; [lia|]. intros y Ey n Hn.
    destruct (Nat.lt_ge_cases n (store_reads st1)).
    + apply (R1 x eq_refl). lia.
    + apply (R2 y Ey). lia.
  - split; [exact Le1|]. discriminate.
Qed.

Lemma reads_nothing_bind {X Y} (c : M A X) (k : X -> M A Y) :
  reads_nothing c -> (forall x, reads_nothing (k x)) -> reads_nothing (bind c k).
Proof.
  intros Hc Hk env st. unfold bind. specialize (Hc env st).
  destruct (c env st) as [[x|e] st1]; cbn [snd] in *.
  - now rewrite Hk.
  - exact Hc.
Qed.

Lemma reads_nothing_try_except {X} (body : M A X) (handler : Exn -> M A X) :
  reads_nothing body -> (forall e, reads_nothing (handler e)) ->
  reads_nothing (try_except body handler).
Proof.
  intros Hb Hh env st. unfold try_except. specialize (Hb env st).
  destruct (body env st) as [[x|e] st1]; cbn [snd] in *.
  - exact Hb.
  - now rewrite Hh.
Qed.

Lemma reads_nothing_ret {X} (x : X) : reads_nothing (A := A) (ret x).
Proof. intros env st. reflexivity. Qed.

Lemma reads_nothing_lift {X} (o : Outcome X) : reads_nothing (A := A) (lift o).
Proof. intros env st. reflexivity. Qed.

Lemma reads_nothing_now : reads_nothing (A := A) datetime_now.
Proof. intros env st. reflexivity. Qed.

Lemma reads_nothing_print (l : LogLine A) : reads_nothing (print l).
Proof. intros env st. reflexivity. Qed.

Lemma reads_nothing_mail_send (m : Message A) : reads_nothing (mail_send m).
Proof.
  intros env st. unfold mail_send. now destruct (mail_fault env _).
Qed.

Lemma reads_answered_store_read {X} (rows : Env A -> X) :
  reads_answered (store_read rows).
Proof.
  intros env st. unfold store_read.
  destruct (store_fault env (store_reads st)) eqn:F; cbn [fst snd store_reads].
  - split; [lia|]. discriminate.
  - split; [lia|]. intros x _ n Hn. now replace n with (store_reads st) by lia.
Qed.

Lemma reads_answered_for_each {X} (xs : list X) (body : X -> Z -> M A Z) :
  (forall x acc, reads_answered (body x acc)) ->
  forall acc, reads_answered (for_each xs acc body).
Proof.
  intros Hb. induction xs as [|x xs IH]; intros acc; cbn [for_each].
  - apply reads_nothing_answered, reads_nothing_ret.
  - apply reads_answered_bind; auto.
Qed.

Create HintDb reads discriminated.
#[local] Hint Resolve reads_nothing_ret reads_nothing_lift reads_nothing_now
  reads_nothing_print reads_nothing_mail_send reads_answered_store_read
  : reads.

Ltac reads_nothing_tac :=
  repeat first
    [ apply reads_nothing_try_except; intros
    | apply reads_nothing_bind; intros
    | solve [auto with reads] ].

Lemma reads_nothing_send_payment_reminder (u : User.t A)
    (s : Subscription.t A) (d : Z) :
  reads_nothing (send_payment_reminder u s d).
Proof.
  unfold send_payment_reminder, get_next_payment_date. reads_nothing_tac.
Qed.

Lemma reads_nothing_send_budget_alert (u : User.t A) (t b o : A) :
  reads_nothing (send_budget_alert u t b o).
Proof. unfold send_budget_alert. reads_nothing_tac. Qed.

Lemma reads_nothing_send_monthly_summary (u : User.t A) (t : A) (c : Z)
    (subs : list (Subscription.t A)) :
  reads_nothing (send_monthly_summary u t c subs).
Proof. unfold send_monthly_summary. reads_nothing_tac. Qed.

#[local] Hint Resolve reads_nothing_send_payment_reminder
  reads_nothing_send_budget_alert reads_nothing_send_monthly_summary : reads.

Ltac reads_answered_tac :=
  repeat first
    [ apply reads_answered_bind; intros
    | apply reads_answered_for_each; intros
    | apply reads_answered_store_read
    | match goal with
      | |- reads_answered (if ?b then _ else _) => destruct b
      end
    | solve [apply reads_nothing_answered; auto with reads] ].

(** No job function hides the failure of a store read. *)
Lemma job_function_reads_answered (j : Job) :
  reads_answered (job_function (A := A) j).
Proof.
  destruct j; cbn [job_function];
    unfold check_payment_reminders, check_budget_alerts,
      send_all_monthly_summaries, query_users, user_subscriptions,
      query_subscriptions;
    reads_answered_tac.
Qed.

End StoreReads.

(** ** The jobs: the claims *)

Lemma sample_env_healthy : store_healthy sample_env.
Proof. intros n. reflexivity. Qed.

Lemma sample_env_frozen : clock_frozen sample_env march_first.
Proof. intros n. reflexivity. Qed.

Lemma sample_env_billing : billing_dates_valid sample_env.
Proof. intros s [<-|[<-|[<-|[]]]]; cbn; lia. Qed.

Lemma flaky_env_healthy : store_healthy flaky_env.
Proof. intros n. reflexivity. Qed.

Lemma flaky_env_frozen : clock_frozen flaky_env march_first.
Proof. intros n. reflexivity. Qed.

(** C4.  The run of [check_payment_reminders] hands to the transport, for
    the users in order and their subscriptions in order, one reminder for
    each subscription whose [days_until] is 3 and whose owner has
    [payment_reminders] set, and nothing else: nothing for another value of
    [days_until], nothing for a user with [payment_reminders] unset. *)
Theorem reminder_sent_iff_three_days {A} `{Money A} (env : Env A)
    (now : datetime) (st : State A) :
  store_healthy env ->
  clock_frozen env now ->
  valid_datetime now = true ->
  last_month now = false ->
  billing_dates_valid env ->
  exists st',
    check_payment_reminders env st = (Return tt, st') /\
    map fst (outbox st') =
      map fst (outbox st) ++
      flat_map (fun u => flat_map (reminder_for now u) (subscriptions_of env u))
        (users env) /\
    forall u s,
      In s (subscriptions_of env u) ->
      (User.payment_reminders u = true ->
       days_until_at (Subscription.billing_date s) now = Return 3 ->
       exists next_date,
         next_date_at (Subscription.billing_date s) now = Return next_date /\
         reminder_for now u s =
         [PaymentReminder (User.email u) (Subscription.name s)
            (Subscription.monthly_price s) 3 next_date]) /\
      (days_until_at (Subscription.billing_date s) now <> Return 3 ->
       reminder_for now u s = []) /\
      (User.payment_reminders u = false -> reminder_for now u s = []).
Proof.
  intros Hs Hc V L B.
  destruct (check_payment_reminders_run env now st Hs Hc V L B)
    as (st' & E & O & _).
  exists st'. split; [exact E|]. split.
  - rewrite O, map_app, deliver_fst. f_equal. apply reminder_decisions_eq.
  - intros u s Hin.
    assert (D : 1 <= Subscription.billing_date s <= 31).
    { apply B. unfold subscriptions_of in Hin. apply filter_In in Hin. tauto. }
    pose proof (next_date_at_eq _ _ V D L) as N.
    unfold reminder_for, reminder_due, reminder_message. repeat split.
    + intros -> ->. rewrite N. eexists. split; reflexivity.
    + intros U. destruct (days_until_at _ _) as [n|e].
      * destruct (Z.eqb_spec n 3) as [->|]; [congruence|].
        now rewrite andb_false_r.
      * now rewrite andb_false_r.
    + now intros ->.
Qed.

Lemma reminder_sent_iff_three_days_witness :
  store_healthy sample_env /\
  clock_frozen sample_env march_first /\
  valid_datetime march_first = true /\
  last_month march_first = false /\
  billing_dates_valid sample_env /\
  exists st',
    check_payment_reminders sample_env init_state = (Return tt, st') /\
    map fst (outbox st') =
    [PaymentReminder "alice@example.com" "Netflix" 70 3 (at_time 2024 3 5 0 0 0)].
Proof.
  split; [apply sample_env_healthy|]. split; [apply sample_env_frozen|].
  split; [reflexivity|]. split; [reflexivity|].
  split; [apply sample_env_billing|].
  destruct (reminder_sent_iff_three_days sample_env march_first init_state
              sample_env_healthy sample_env_frozen eq_refl eq_refl
              sample_env_billing) as (st' & E & O & _).
  exists st'. split; [exact E|]. rewrite O. reflexivity.
Defined.

(** C5.  The run of [check_budget_alerts] hands to the transport one alert
    for each user with [budget_alerts] set, a budget above 0 and a total
    monthly cost strictly above the budget, carrying the overage
    [total - budget], and nothing else: nothing for a budget of 0, nothing
    when the total is not above the budget. *)
Theorem budget_alert_iff_over_budget {A} `{Money A} (env : Env A)
    (st : State A) :
  store_healthy env ->
  exists st',
    check_budget_alerts env st = (Return tt, st') /\
    map fst (outbox st') =
      map fst (outbox st) ++ flat_map (budget_alert_for env) (users env) /\
    forall u,
      let total := sum (map Subscription.monthly_price (subscriptions_of env u)) in
      let budget := User.monthly_budget u in
      (User.budget_alerts u = true -> gtb budget zero = true ->
       gtb total budget = true ->
       budget_alert_for env u =
       [BudgetAlert (User.email u) budget total (sub total budget)]) /\
      (User.budget_alerts u = false -> budget_alert_for env u = []) /\
      (gtb budget zero = false -> budget_alert_for env u = []) /\
      (budget = zero -> budget_alert_for env u = []) /\
      (gtb total budget = false -> budget_alert_for env u = []) /\
      (leb total budget = true -> budget_alert_for env u = []).
Proof.
  intros Hs.
  destruct (check_budget_alerts_run env st Hs) as (st' & E & O & _).
  exists st'. split; [exact E|]. split.
  - rewrite O, map_app, deliver_fst. f_equal. apply budget_alert_decisions_eq.
  - intros u total budget.
    unfold budget_alert_for, budget_alert_message, total_of.
    fold total budget. repeat split.
    + now intros -> -> ->.
    + now intros ->.
    + intros ->. now rewrite andb_false_r.
    + intros ->. now rewrite gtb_zero_zero, andb_false_r.
    + intros ->. now rewrite andb_false_r.
    + intros Le. apply leb_not_gtb in Le. rewrite Le. now rewrite andb_false_r.
Qed.

Lemma budget_alert_iff_over_budget_witness :
  store_healthy sample_env /\
  exists st',
    check_budget_alerts sample_env init_state = (Return tt, st') /\
    map fst (outbox st') =
    [BudgetAlert "alice@example.com" 100 120 20;
     BudgetAlert "carol@example.com" 10 15 5].
Proof.
  split; [apply sample_env_healthy|].
  destruct (budget_alert_iff_over_budget sample_env init_state
              sample_env_healthy) as (st' & E & O & _).
  exists st'. split; [exact E|]. rewrite O. reflexivity.
Defined.

(** C6.  The run of [send_all_monthly_summaries] hands to the transport one
    summary for each user with [monthly_summary] set, whatever the user's
    subscriptions are; the summary carries the sum of the prices of the
    user's subscriptions and their number.  [get_monthly_summary] returns
    that sum, twelve times that sum and that number. *)
Theorem monthly_summary_for_every_opted_in_user {A} `{Money A} (env : Env A)
    (now : datetime) (st : State A) :
  store_healthy env ->
  clock_frozen env now ->
  (exists st',
     send_all_monthly_summaries env st = (Return tt, st') /\
     map fst (outbox st') =
       map fst (outbox st) ++ flat_map (summary_for env now) (users env) /\
     forall u,
       let subs := subscriptions_of env u in
       (User.monthly_summary u = true ->
        summary_for env now u =
        [MonthlySummary (User.email u) now
           (sum (map Subscription.monthly_price subs))
           (Z.of_nat (List.length subs))
           (map (fun s => (Subscription.name s, Subscription.monthly_price s))
              subs)]) /\
       (User.monthly_summary u = false -> summary_for env now u = [])) /\
  forall user_id,
    let subs := filter (fun s => Subscription.user_id s =? user_id)
                  (subscriptions env) in
    exists summary st',
      get_monthly_summary user_id env st = (Return summary, st') /\
      monthly summary = sum (map Subscription.monthly_price subs) /\
      yearly summary = mul_int (monthly summary) 12 /\
      count summary = Z.of_nat (List.length subs).
Proof.
  intros Hs Hc. split.
  - destruct (send_all_monthly_summaries_run env now st Hs Hc)
      as (st' & E & O & _).
    exists st'. split; [exact E|]. split.
    + rewrite O, map_app, deliver_fst. f_equal. apply summary_decisions_eq.
    + intros u subs. unfold summary_for, summary_message, total_of.
      split; now intros ->.
  - intros user_id subs. unfold get_monthly_summary, get_user, query_subscriptions.
    rewrite (bind_return _ _ _ _ _ _ (store_read_run env _ _ Hs)).
    rewrite (bind_return _ _ _ _ _ _ (store_read_run env _ _ Hs)).
    unfold ret. do 2 eexists. split; [reflexivity|]. cbn. auto.
Qed.

Lemma monthly_summary_for_every_opted_in_user_witness :
  store_healthy sample_env /\
  clock_frozen sample_env march_first /\
  (exists st',
     send_all_monthly_summaries sample_env init_state = (Return tt, st') /\
     map fst (outbox st') =
     [MonthlySummary "alice@example.com" march_first 120 2
        [("Netflix", 70); ("Gym", 50)];
      MonthlySummary "bob@example.com" march_first 0 0 []]) /\
  exists summary st',
    get_monthly_summary 1 sample_env init_state = (Return summary, st') /\
    monthly summary = 120 /\ yearly summary = 1440 /\ count summary = 2.
Proof.
  split; [apply sample_env_healthy|]. split; [apply sample_env_frozen|].
  destruct (monthly_summary_for_every_opted_in_user sample_env march_first
              init_state sample_env_healthy sample_env_frozen)
    as [(st' & E & O & _) G].
  split.
  - exists st'. split; [exact E|]. rewrite O. reflexivity.
  - destruct (G 1) as (sm & st2 & E2 & M & Y & C).
    exists sm, st2. split; [exact E2|]. rewrite Y, M, C. repeat split.
Defined.

(** C7.  The dispatch functions return a boolean on every input, [false]
    when the transport raises; they never raise.  In a run of a job, every
    message the job decides on is handed to the transport whatever happened
    to the messages before it, and the counter of the job is the number of
    sends that did not raise. *)
Theorem dispatch_never_raises {A} `{Money A} (env : Env A) (st : State A) :
  (forall u s d, exists b st',
     send_payment_reminder u s d env st = (Return b, st') /\
     (forall e, mail_fault env (List.length (outbox st)) = Some e -> b = false)) /\
  (forall u t b o, exists r st',
     send_budget_alert u t b o env st = (Return r, st') /\
     (forall e, mail_fault env (List.length (outbox st)) = Some e -> r = false)) /\
  (forall u t c subs, exists r st',
     send_monthly_summary u t c subs env st = (Return r, st') /\
     (forall e, mail_fault env (List.length (outbox st)) = Some e -> r = false)) /\
  (forall to name p, exists r st',
     send_subscription_email to name p env st = (Return r, st') /\
     (forall e, mail_fault env (List.length (outbox st)) = Some e -> r = false)) /\
  (forall j now,
     store_healthy env ->
     clock_frozen env now ->
     (j = JobPaymentReminders ->
      valid_datetime now = true /\ last_month now = false /\
      billing_dates_valid env) ->
     let n := List.length (outbox st) in
     let msgs := job_decisions env now j in
     exists st',
       job_function j env st = (Return tt, st') /\
       map fst (outbox st') = map fst (outbox st) ++ msgs /\
       outbox st' = outbox st ++ deliver (mail_fault env) n msgs /\
       stdout st' =
         stdout st ++ [Running j now] ++
         delivery_log (mail_fault env) n msgs ++
         [Complete j
            (Z.of_nat
               (List.length
                  (filter (fun i => match mail_fault env i with
                                    | None => true
                                    | Some _ => false
                                    end)
                     (seq n (List.length msgs)))))]).
Proof.
  split; [intros; apply send_payment_reminder_total|].
  split; [intros; apply send_budget_alert_total|].
  split; [intros; apply send_monthly_summary_total|].
  split; [intros; apply send_subscription_email_total|].
  intros j now Hs Hc Hd n msgs.
  destruct (job_function_run env j now st Hs Hc Hd) as (st' & E & O & L).
  exists st'. split; [exact E|]. split; [|split; [exact O|]].
  - rewrite O, map_app, deliver_fst. reflexivity.
  - rewrite L. unfold job_log. now rewrite delivered_count_deliver.
Qed.

Lemma dispatch_never_raises_witness :
  store_healthy flaky_env /\
  clock_frozen flaky_env march_first /\
  fst (send_budget_alert alice 120 100 20 flaky_env init_state) = Return false /\
  exists st',
    check_budget_alerts flaky_env init_state = (Return tt, st') /\
    outbox st' =
    [(BudgetAlert "alice@example.com" 100 120 20, false);
     (BudgetAlert "carol@example.com" 10 15 5, true)] /\
    last (stdout st') (SendError ValueError) = Complete JobBudgetAlerts 1.
Proof.
  split; [apply flaky_env_healthy|]. split; [apply flaky_env_frozen|].
  destruct (dispatch_never_raises flaky_env init_state)
    as (_ & B & _ & _ & J).
  split.
  - destruct (B alice 120 100 20) as (r & st' & E & F).
    rewrite E. cbn [fst]. f_equal. apply (F (TransportError 421)). reflexivity.
  - destruct (J JobBudgetAlerts march_first flaky_env_healthy flaky_env_frozen)
      as (st' & E & _ & O & L); [discriminate|].
    exists st'. split; [exact E|]. split.
    + rewrite O. reflexivity.
    + rewrite L. reflexivity.
Defined.

(** C8, as the claim states it, fails: none of the three job functions
    keeps a failure of the store to itself. *)
Lemma store_error_leaves_the_job :
  ~ contains_store_errors (job_function (A := Z) JobPaymentReminders) /\
  ~ contains_store_errors (job_function (A := Z) JobBudgetAlerts) /\
  ~ contains_store_errors (job_function (A := Z) JobMonthlySummary).
Proof.
  repeat split; intros C;
    destruct (C broken_env init_state (StoreError 1) eq_refl) as (st' & E);
    discriminate E.
Qed.

(** C8, amended.  When the read of the users raises, each of the three job
    functions raises that exception to its caller: the job has printed its
    banner only, has handed nothing to the transport, and prints neither an
    error nor its closing line.  More generally a call of a job function
    returns only if every store read it made was answered. *)
Theorem store_error_propagates {A} `{Money A} (env : Env A) (j : Job)
    (st : State A) :
  (forall e,
     store_fault env (store_reads st) = Some e ->
     exists st',
       job_function j env st = (Raise e, st') /\
       outbox st' = outbox st /\
       stdout st' = stdout st ++ [Running j (clock env (clock_reads st))]) /\
  (forall st',
     job_function j env st = (Return tt, st') ->
     forall n, (store_reads st <= n < store_reads st')%nat ->
               store_fault env n = None).
Proof.
  split.
  - intros e. apply job_function_store_error.
  - intros st' E.
    destruct (job_function_reads_answered j env st) as [_ R].
    rewrite E in R. cbn [fst snd] in R. exact (R tt eq_refl).
Qed.

Lemma store_error_propagates_witness :
  store_fault broken_env (store_reads (A := Z) init_state) = Some (StoreError 1) /\
  exists st',
    check_payment_reminders broken_env init_state = (Raise (StoreError 1), st') /\
    outbox st' = [] /\
    stdout st' = [Running JobPaymentReminders march_first].
Proof.
  split; [reflexivity|].
  exact (proj1 (store_error_propagates broken_env JobPaymentReminders init_state)
           (StoreError 1) eq_refl).
Defined.

(** C10.  A user with [monthly_summary] set and no subscription is sent a
    summary all the same, with total 0 and count 0. *)
Theorem summary_sent_without_subscriptions {A} `{Money A} (env : Env A)
    (now : datetime) (st : State A) (u : User.t A) :
  store_healthy env ->
  clock_frozen env now ->
  In u (users env) ->
  User.monthly_summary u = true ->
  subscriptions_of env u = [] ->
  exists st',
    send_all_monthly_summaries env st = (Return tt, st') /\
    In (MonthlySummary (User.email u) now zero 0 []) (map fst (outbox st')) /\
    get_total_monthly_cost (subscriptions_of env u) = zero.
Proof.
  intros Hs Hc Hu Hm He.
  destruct (send_all_monthly_summaries_run env now st Hs Hc)
    as (st' & E & O & _).
  exists st'. split; [exact E|]. split.
  - rewrite O, map_app, deliver_fst. apply in_or_app. right.
    unfold summary_decisions. apply in_map_iff. exists u. split.
    + unfold summary_message, total_of. rewrite He. reflexivity.
    + apply filter_In. auto.
  - rewrite He. reflexivity.
Qed.

Lemma summary_sent_without_subscriptions_witness :
  store_healthy sample_env /\
  clock_frozen sample_env march_first /\
  In bob (users sample_env) /\
  User.monthly_summary bob = true /\
  subscriptions_of sample_env bob = [] /\
  exists st',
    send_all_monthly_summaries sample_env init_state = (Return tt, st') /\
    In (MonthlySummary "bob@example.com" march_first 0 0 [])
       (map fst (outbox st')).
Proof.
  split; [apply sample_env_healthy|]. split; [apply sample_env_frozen|].
  split; [right; left; reflexivity|]. split; [reflexivity|].
  split; [reflexivity|].
  destruct (summary_sent_without_subscriptions sample_env march_first
              init_state bob sample_env_healthy sample_env_frozen
              (or_intror (or_introl eq_refl)) eq_refl eq_refl)
    as (st' & E & I & _).
  exists st'. split; [exact E|exact I].
Defined.

(** * Further properties *)

(** ** The order of dates *)

Lemma month_start_following (y m : Z) :
  1 <= m <= 12 ->
  month_start (fst (following_month (y, m))) (snd (following_month (y, m))) =
  month_start y m + days_in_month y m.
Proof.
  intros Hm. pose proof (ymd2ord_next_month y m 0 0 Hm) as O.
  unfold ymd2ord in O. unfold month_start, following_month.
  destruct (m =? 12); cbn [fst snd]; lia.
Qed.

Lemma following_month_range (y m : Z) :
  1 <= m <= 12 ->
  1 <= snd (following_month (y, m)) <= 12 /\
  fst (following_month (y, m)) * 12 + snd (following_month (y, m)) =
  y * 12 + m + 1.
Proof.
  intros Hm. unfold following_month.
  destruct (Z.eqb_spec m 12); cbn [fst snd]; lia.
Qed.

(** After [n + 1] steps the start of the month has moved by the length of
    the first month and at least 28 days for each of the others. *)
Lemma month_start_iter (n : nat) (y m : Z) :
  1 <= m <= 12 ->
  let ym := Nat.iter (S n) following_month (y, m) in
  1 <= snd ym <= 12 /\
  fst ym * 12 + snd ym = y * 12 + m + 1 + Z.of_nat n /\
  month_start y m + days_in_month y m + 28 * Z.of_nat n
  <= month_start (fst ym) (snd ym).
Proof.
  intros Hm. induction n as [|n IH].
  - cbv zeta. change (Nat.iter 1 following_month (y, m)) with (following_month (y, m)). pose proof (following_month_range y m Hm).
    pose proof (month_start_following y m Hm). lia.
  - cbv zeta in IH |- *.
    change (Nat.iter (S (S n)) following_month (y, m))
      with (following_month (Nat.iter (S n) following_month (y, m))).
    destruct (Nat.iter (S n) following_month (y, m)) as [y1 m1].
    cbn [fst snd] in IH. destruct IH as (R & I & B).
    pose proof (following_month_range y1 m1 R).
    pose proof (month_start_following y1 m1 R).
    pose proof (days_in_month_bounds y1 m1 R). lia.
Qed.

(** A later month starts after the whole of an earlier one. *)
Lemma month_start_later (y m y' m' : Z) :
  1 <= m <= 12 -> 1 <= m' <= 12 ->
  y * 12 + m < y' * 12 + m' ->
  month_start y m + days_in_month y m
  + 28 * (y' * 12 + m' - (y * 12 + m) - 1)
  <= month_start y' m'.
Proof.
  intros Hm Hm' Lt.
  pose proof (month_start_iter (Z.to_nat (y' * 12 + m' - (y * 12 + m) - 1))
                y m Hm) as I.
  cbv zeta in I. destruct (Nat.iter _ _ _) as [y1 m1]. cbn [fst snd] in I.
  rewrite Z2Nat.id in I by lia. destruct I as (R & I & B).
  assert (y1 = y' /\ m1 = m') as [-> ->] by lia. lia.
Qed.

(** Dates are ordered as their ordinals are, month by month. *)
Lemma toordinal_month_lt (a b : datetime) :
  valid_datetime a = true -> valid_datetime b = true ->
  month_index a < month_index b ->
  toordinal a
  + 28 * (month_index b - month_index a - 1) < toordinal b.
Proof.
  intros Va Vb Lt.
  apply valid_datetime_fields in Va. apply valid_datetime_fields in Vb.
  destruct Va, Vb. unfold month_index in *.
  pose proof (month_start_later (year a) (month a) (year b) (month b)
                vf_month0 vf_month1 Lt).
  unfold toordinal, ymd2ord, month_start in *. lia.
Qed.

Lemma toordinal_same_month (a b : datetime) :
  month_index a = month_index b ->
  valid_datetime a = true -> valid_datetime b = true ->
  year a = year b /\ month a = month b /\
  toordinal b - toordinal a = day b - day a.
Proof.
  intros I Va Vb.
  apply valid_datetime_fields in Va. apply valid_datetime_fields in Vb.
  destruct Va, Vb. unfold month_index in I.
  assert (year a = year b /\ month a = month b) as [Ey Em] by lia.
  unfold toordinal, ymd2ord. rewrite Ey, Em. lia.
Qed.

(** Two valid dates with the same ordinal are the same date. *)
Lemma toordinal_injective (a b : datetime) :
  valid_datetime a = true -> valid_datetime b = true ->
  toordinal a = toordinal b ->
  year a = year b /\ month a = month b /\ day a = day b.
Proof.
  intros Va Vb E.
  destruct (Z.lt_trichotomy (month_index a) (month_index b)) as [L|[I|L]].
  - pose proof (toordinal_month_lt a b Va Vb L). lia.
  - destruct (toordinal_same_month a b I Va Vb) as (? & ? & ?). lia.
  - pose proof (toordinal_month_lt b a Vb Va L). lia.
Qed.

Lemma next_date_valid (d : Z) (now next_date : datetime) :
  next_date_at d now = Return next_date -> valid_datetime next_date = true.
Proof.
  unfold next_date_at. destruct (next_year_month d now) as [ny nm].
  destruct (monthrange ny nm) as [mr|e]; [|discriminate]. cbn [obind].
  unfold datetime_ymd.
  match goal with
  | |- context [valid_datetime ?t] => destruct (valid_datetime t) eqn:V
  end; [|discriminate].
  now intros [= <-].
Qed.

(** The month of a date that lies [n] days after another, for [n] below the
    length of a month: the same one or the one that follows. *)
Lemma month_of_later_day (a b : datetime) (n : Z) :
  valid_datetime a = true -> valid_datetime b = true ->
  0 <= n <= 28 ->
  toordinal b = toordinal a + n ->
  (year b = year a /\ month b = month a /\ day b = day a + n) \/
  (year b = (if month a =? 12 then year a + 1 else year a) /\
   month b = (if month a =? 12 then 1 else month a + 1) /\
   day b = day a + n - days_in_month (year a) (month a)).
Proof.
  intros Va Vb Hn E.
  destruct (Z.lt_trichotomy (month_index a) (month_index b)) as [L|[I|L]].
  - destruct (Z.eq_dec (month_index b) (month_index a + 1)) as [I1|N1].
    + right.
      pose proof Va as Fa. pose proof Vb as Fb.
      apply valid_datetime_fields in Fa. apply valid_datetime_fields in Fb.
      destruct Fa, Fb. unfold month_index in I1.
      pose proof (ymd2ord_next_month (year a) (month a) (day a) (day b)
                    vf_month0) as O.
      unfold toordinal in E.
      destruct (Z.eqb_spec (month a) 12).
      * assert (year b = year a + 1 /\ month b = 1) as [Ey Em] by lia.
        rewrite Ey, Em in E. lia.
      * assert (year b = year a /\ month b = month a + 1) as [Ey Em] by lia.
        rewrite Ey, Em in E. lia.
    + pose proof (toordinal_month_lt a b Va Vb L). lia.
  - left. destruct (toordinal_same_month a b I Va Vb) as (? & ? & ?). lia.
  - pose proof (toordinal_month_lt b a Vb Va L). lia.
Qed.

(** ** The day a reminder is sent *)

(** X2.  A run of the reminder check after midnight finds [days_until = 3]
    for a billing day exactly when the day four days after the run is the
    billing day of its month, clamped to the length of that month. *)
Theorem reminder_due_four_days_before (d : Z) (now t : datetime) :
  valid_datetime now = true ->
  1 <= d <= 31 ->
  last_month now = false ->
  0 < time_of_day now ->
  valid_datetime t = true ->
  toordinal t = toordinal now + 4 ->
  (days_until_at d now = Return 3 <->
   day t = Z.min d (days_in_month (year t) (month t))).
Proof.
  intros V D L P Vt Et.
  pose proof (time_of_day_bounds now V) as T.
  rewrite (days_until_at_eq d now V D L), floor_below by lia.
  assert (S : calendar_days_ahead d now = 4 <->
              day t = Z.min d (days_in_month (year t) (month t))).
  { destruct (month_of_later_day now t 4 V Vt ltac:(lia) Et)
      as [(Ey & Em & Ed)|(Ey & Em & Ed)].
    - pose proof V as F. apply valid_datetime_fields in F. destruct F.
      pose proof Vt as Ft. apply valid_datetime_fields in Ft.
      destruct Ft as [_ _ Dt _ _ _ _]. rewrite Ey, Em in Dt |- *.
      pose proof (days_in_month_bounds (year now) (month now) vf_month0).
      unfold calendar_days_ahead, next_year_month.
      destruct (Z.ltb_spec (day now) d); [lia|].
      destruct (Z.eqb_spec (month now) 12).
      + pose proof (days_in_month_bounds (year now + 1) 1 ltac:(lia)). lia.
      + pose proof (days_in_month_bounds (year now) (month now + 1) ltac:(lia)).
        lia.
    - pose proof V as F. apply valid_datetime_fields in F. destruct F.
      pose proof Vt as Ft. apply valid_datetime_fields in Ft.
      destruct Ft as [_ _ Dt _ _ _ _]. rewrite Ey, Em in Dt |- *.
      pose proof (days_in_month_bounds (year now) (month now) vf_month0).
      unfold calendar_days_ahead, next_year_month.
      destruct (Z.ltb_spec (day now) d);
        destruct (Z.eqb_spec (month now) 12);
        try (pose proof (days_in_month_bounds (year now + 1) 1 ltac:(lia)));
        try (pose proof (days_in_month_bounds (year now) (month now + 1)
                           ltac:(lia)));
        lia. }
  rewrite <- S. split.
  - intros [= R]. lia.
  - intros R. f_equal. lia.
Qed.

Lemma reminder_due_four_days_before_witness :
  valid_datetime (at_time 2023 2 24 9 0 0) = true /\
  1 <= 31 <= 31 /\
  last_month (at_time 2023 2 24 9 0 0) = false /\
  0 < time_of_day (at_time 2023 2 24 9 0 0) /\
  valid_datetime (at_time 2023 2 28 0 0 0) = true /\
  toordinal (at_time 2023 2 28 0 0 0) = toordinal (at_time 2023 2 24 9 0 0) + 4 /\
  days_until_at 31 (at_time 2023 2 24 9 0 0) = Return 3.
Proof.
  split; [reflexivity|]. split; [lia|]. split; [reflexivity|].
  split; [reflexivity|]. split; [reflexivity|]. split; [reflexivity|].
  apply (reminder_due_four_days_before 31 (at_time 2023 2 24 9 0 0)
           (at_time 2023 2 28 0 0 0)); try reflexivity; lia.
Defined.

(** X1.  [get_days_until_payment] for a billing day in 1..31 returns a
    number between -1 and 31, and a negative one exactly on the last day of
    a month that is shorter than the billing day, once midnight has
    passed; it reads the clock once and nothing else. *)
Theorem get_days_until_payment_range {A} `{Money A} (env : Env A)
    (st : State A) (d : Z) :
  let now := clock env (clock_reads st) in
  valid_datetime now = true ->
  1 <= d <= 31 ->
  last_month now = false ->
  exists n,
    get_days_until_payment d env st =
    (Return n,
     mkState (S (clock_reads st)) (store_reads st) (outbox st) (stdout st)) /\
    -1 <= n <= 31 /\
    (n < 0 <->
     day now = days_in_month (year now) (month now) /\ day now < d /\
     0 < time_of_day now).
Proof.
  intros now V D L.
  destruct (days_until_range d now V D L) as (n & E & B & N).
  exists n. split; [|split; [exact B|exact N]].
  unfold get_days_until_payment, bind, datetime_now, lift.
  fold now. now rewrite E.
Qed.

Lemma get_days_until_payment_range_witness :
  valid_datetime (at_time 2023 4 30 18 30 0) = true /\
  1 <= 31 <= 31 /\
  last_month (at_time 2023 4 30 18 30 0) = false /\
  fst (get_days_until_payment (A := Z) 31
         (quiet_env (at_time 2023 4 30 18 30 0) [] []) init_state)
  = Return (-1).
Proof.
  split; [reflexivity|]. split; [lia|]. split; [reflexivity|].
  destruct (get_days_until_payment_range
              (quiet_env (at_time 2023 4 30 18 30 0) [] []) init_state 31)
    as (n & E & B & N); [reflexivity|lia|reflexivity|].
  rewrite E. cbn [fst]. f_equal.
  assert (n < 0) by (apply N; cbn; lia). lia.
Defined.

(** ** The payment date within a cycle *)

Lemma to_micros_order (a b : datetime) :
  valid_datetime a = true -> valid_datetime b = true ->
  to_micros a <= to_micros b -> toordinal a <= toordinal b.
Proof.
  intros Va Vb. rewrite !to_micros_split.
  pose proof (time_of_day_bounds a Va). pose proof (time_of_day_bounds b Vb).
  lia.
Qed.

(** The computed payment date does not move until it is reached. *)
Lemma payment_date_unmoved (d : Z) (now1 now2 next_date : datetime) :
  valid_datetime now1 = true ->
  valid_datetime now2 = true ->
  1 <= d <= 31 ->
  last_month now1 = false ->
  last_month now2 = false ->
  next_date_at d now1 = Return next_date ->
  to_micros now1 <= to_micros now2 ->
  to_micros now2 < to_micros next_date ->
  next_date_at d now2 = Return next_date.
Proof.
  intros V1 V2 D L1 L2 E B1 B2.
  pose proof (next_date_valid d now1 next_date E) as Vn.
  pose proof (to_micros_order now1 now2 V1 V2 B1) as O1.
  assert (O2 : toordinal now2 < toordinal next_date).
  { destruct (next_date_ordinal d now1 next_date V1 D E) as [_ T0].
    rewrite (to_micros_split next_date), T0, to_micros_split in B2.
    pose proof (time_of_day_bounds now2 V2). lia. }
  rewrite (next_date_at_eq d now1 V1 D L1) in E.
  rewrite (next_date_at_eq d now2 V2 D L2).
  assert (N : next_year_month d now2 = next_year_month d now1);
    [|rewrite N; exact E].
  injection E as E. subst next_date.
  pose proof V1 as F1. apply valid_datetime_fields in F1.
  destruct F1 as [_ M1 D1 _ _ _ _].
  pose proof V2 as F2. apply valid_datetime_fields in F2.
  destruct F2 as [_ M2 D2 _ _ _ _].
  assert (I12 : month_index now1 <= month_index now2).
  { destruct (Z.le_gt_cases (month_index now1) (month_index now2)); [assumption|].
    pose proof (toordinal_month_lt now2 now1 V2 V1 ltac:(lia)). lia. }
  unfold next_year_month in *.
  destruct (Z.ltb_spec (day now1) d) as [Lt1|Ge1].
  - (* resolved to the month of [now1] *)
    cbn [year month day] in *.
    set (nd := mkDatetime (year now1) (month now1)
                 (Z.min d (days_in_month (year now1) (month now1))) 0 0 0 0)
      in *.
    assert (I2n : month_index now2 <= month_index nd).
    { destruct (Z.le_gt_cases (month_index now2) (month_index nd));
        [assumption|].
      pose proof (toordinal_month_lt nd now2 Vn V2 ltac:(lia)). lia. }
    assert (I : month_index now1 = month_index now2)
      by (unfold month_index in *; cbn [year month nd] in *; lia).
    destruct (toordinal_same_month now1 now2 I V1 V2) as (Ey & Em & Ed).
    unfold toordinal in O2. cbn [year month day nd] in O2.
    rewrite Ey, Em in O2. unfold ymd2ord in O2.
    rewrite <- Ey, <- Em.
    destruct (Z.ltb_spec (day now2) d); [reflexivity|lia].
  - (* resolved to the month after [now1] *)
    destruct (Z.eqb_spec (month now1) 12) as [M12|M12];
      cbn beta iota zeta in Vn, O2 |- *.
    all: set (nd := mkDatetime _ _ _ 0 0 0 0) in *.
    all: assert (In : month_index nd = month_index now1 + 1)
      by (unfold month_index, nd; cbn [year month]; lia).
    all: assert (I2n : month_index now2 <= month_index nd)
      by (destruct (Z.le_gt_cases (month_index now2) (month_index nd));
          [assumption|];
          pose proof (toordinal_month_lt nd now2 Vn V2 ltac:(lia)); lia).
    all: destruct (Z.eq_dec (month_index now1) (month_index now2)) as [I|NI].
    all: try (destruct (toordinal_same_month now1 now2 I V1 V2)
                as (Ey & Em & Ed);
              rewrite <- Ey, <- Em;
              destruct (Z.ltb_spec (day now2) d); [exfalso; lia|];
              destruct (Z.eqb_spec (month now1) 12);
              first [reflexivity | exfalso; lia]).
    all: assert (I : month_index now2 = month_index nd) by lia.
    all: destruct (toordinal_same_month now2 nd I V2 Vn) as (Ey & Em & Ed).
    all: assert (Dn : day nd <= d) by (unfold nd; cbn [day]; lia).
    all: destruct (Z.ltb_spec (day now2) d); [|exfalso; lia].
    all: rewrite Ey, Em; reflexivity.
Qed.

(** X3.  From one reading of the clock to a later one that is still before
    the computed payment date, the computed payment date is the same, and
    [days_until] has not gone up and is not negative. *)
Theorem next_date_stable (d : Z) (now1 now2 next_date : datetime) :
  valid_datetime now1 = true ->
  valid_datetime now2 = true ->
  1 <= d <= 31 ->
  last_month now1 = false ->
  last_month now2 = false ->
  next_date_at d now1 = Return next_date ->
  to_micros now1 <= to_micros now2 ->
  to_micros now2 < to_micros next_date ->
  next_date_at d now2 = Return next_date /\
  exists n1 n2,
    days_until_at d now1 = Return n1 /\
    days_until_at d now2 = Return n2 /\
    0 <= n2 <= n1.
Proof.
  intros V1 V2 D L1 L2 E B1 B2.
  pose proof (payment_date_unmoved d now1 now2 next_date V1 V2 D L1 L2 E B1 B2)
    as E2.
  split; [exact E2|].
  unfold days_until_at. rewrite E, E2. cbn [obind].
  do 2 eexists. split; [reflexivity|]. split; [reflexivity|].
  rewrite !datetime_sub_days. split.
  - apply Z.div_pos; lia.
  - apply Z.div_le_mono; lia.
Qed.

Lemma next_date_stable_witness :
  valid_datetime (at_time 2024 1 31 9 0 0) = true /\
  valid_datetime (at_time 2024 2 20 9 0 0) = true /\
  1 <= 31 <= 31 /\
  last_month (at_time 2024 1 31 9 0 0) = false /\
  last_month (at_time 2024 2 20 9 0 0) = false /\
  next_date_at 31 (at_time 2024 1 31 9 0 0) = Return (at_time 2024 2 29 0 0 0) /\
  to_micros (at_time 2024 1 31 9 0 0) <= to_micros (at_time 2024 2 20 9 0 0) /\
  to_micros (at_time 2024 2 20 9 0 0) < to_micros (at_time 2024 2 29 0 0 0) /\
  next_date_at 31 (at_time 2024 2 20 9 0 0) = Return (at_time 2024 2 29 0 0 0).
Proof.
  split; [reflexivity|]. split; [reflexivity|]. split; [lia|].
  split; [reflexivity|]. split; [reflexivity|]. split; [reflexivity|].
  split; [vm_compute; discriminate|]. split; [reflexivity|].
  apply (next_date_stable 31 (at_time 2024 1 31 9 0 0));
    try reflexivity; try lia; vm_compute; discriminate.
Defined.

(** X4.  From one day to the next at the same time of day, as long as the
    computed payment date is still ahead, [days_until] goes down by exactly
    one: the countdown skips no value. *)
Theorem days_until_counts_down (d : Z) (now1 now2 next_date : datetime) :
  valid_datetime now1 = true ->
  valid_datetime now2 = true ->
  1 <= d <= 31 ->
  last_month now1 = false ->
  last_month now2 = false ->
  next_date_at d now1 = Return next_date ->
  to_micros now2 = to_micros now1 + 86400000000 ->
  to_micros now2 < to_micros next_date ->
  exists n,
    days_until_at d now1 = Return n /\
    days_until_at d now2 = Return (n - 1).
Proof.
  intros V1 V2 D L1 L2 E S B.
  assert (E2 : next_date_at d now2 = Return next_date).
  { apply (payment_date_unmoved d now1 now2 next_date); auto. lia. }
  unfold days_until_at. rewrite E, E2. cbn [obind].
  eexists. split; [reflexivity|]. f_equal.
  rewrite !datetime_sub_days, S.
  Z.to_euclidean_division_equations. lia.
Qed.

Lemma days_until_counts_down_witness :
  valid_datetime (at_time 2024 1 31 9 0 0) = true /\
  valid_datetime (at_time 2024 2 1 9 0 0) = true /\
  1 <= 31 <= 31 /\
  last_month (at_time 2024 1 31 9 0 0) = false /\
  last_month (at_time 2024 2 1 9 0 0) = false /\
  next_date_at 31 (at_time 2024 1 31 9 0 0) = Return (at_time 2024 2 29 0 0 0) /\
  to_micros (at_time 2024 2 1 9 0 0)
  = to_micros (at_time 2024 1 31 9 0 0) + 86400000000 /\
  to_micros (at_time 2024 2 1 9 0 0) < to_micros (at_time 2024 2 29 0 0 0) /\
  exists n,
    days_until_at 31 (at_time 2024 1 31 9 0 0) = Return n /\
    days_until_at 31 (at_time 2024 2 1 9 0 0) = Return (n - 1).
Proof.
  split; [reflexivity|]. split; [reflexivity|]. split; [lia|].
  split; [reflexivity|]. split; [reflexivity|]. split; [reflexivity|].
  split; [reflexivity|]. split; [reflexivity|].
  apply (days_until_counts_down 31 (at_time 2024 1 31 9 0 0)
           (at_time 2024 2 1 9 0 0) (at_time 2024 2 29 0 0 0));
    try reflexivity; lia.
Defined.

(** * The routes *)

Section RouteFacts.
Context {A : Type} `{Money A}.

(** Case analysis on every test a handler makes. *)
Ltac split_handler :=
  repeat match goal with
         | |- context [match ?x with _ => _ end] =>
             lazymatch x with
             | context [match _ with _ => _ end] => fail
             | _ => destruct x eqn:?
             end
         end.

Lemma is_empty_false (s : string) : is_empty s = false -> s <> EmptyString.
Proof. destruct s; [discriminate|]. intros _. discriminate. Qed.

Lemma day_in_range (day : Z) :
  (day <? 1) || (day >? 31) = false -> 1 <= day <= 31.
Proof.
  rewrite orb_false_iff, Z.gtb_ltb, !Z.ltb_ge. lia.
Qed.

(** What [add_subscription] does to the tables: nothing, or one row more,
    accepted by its tests and owned by the user of the session. *)
Lemma add_subscription_tables (form : string -> option string)
    (wenv : WebEnv A) (wst : WebState A) :
  let wst' := snd (add_subscription form wenv wst) in
  db_users wst' = db_users wst /\
  session_user_id wst' = session_user_id wst /\
  (db_subscriptions wst' = db_subscriptions wst \/
   exists s,
     db_subscriptions wst' = db_subscriptions wst ++ [s] /\
     1 <= Subscription.billing_date s <= 31 /\
     leb (Subscription.monthly_price s) zero = false /\
     Subscription.name s <> EmptyString /\
     Subscription.name s = py_strip wenv (form_get form "name") /\
     session_user_id wst = Some (Subscription.user_id s) /\
     Subscription.id s = new_subscription_id wenv (db_subscriptions wst)).
Proof.
  unfold add_subscription, login_required, wtry, wbind, py_call, flash,
    wprint, wret, wraise, session_get_user_id, db_commit, run_core, with_core,
    with_tables.
  cbv zeta. split_handler; cbn.
  all: split; [reflexivity|]; split; [congruence|].
  all: try (left; reflexivity).
  all: right; eexists; split; [reflexivity|]; cbn.
  all: repeat match goal with
              | E : _ || _ = false |- _ =>
                  first [ apply day_in_range in E
                        | apply orb_false_iff in E; destruct E ]
              | E : is_empty _ = false |- _ => apply is_empty_false in E
              end.
  all: repeat split; try assumption; try congruence; try lia.
Qed.

Ltac unfold_web :=
  unfold login_required, get_subscription_or_404, first_user_by_email,
    session_clear, wtry, wbind, py_call, flash, wprint, wret, wraise,
    session_get_user_id, db_commit, run_core, with_core, with_tables,
    get_user, store_read;
  cbv zeta.

(** What [delete_subscription] does to the tables: nothing, or the row it
    looked up, which the user of the session owns, is removed. *)
Lemma delete_subscription_tables (subscription_id : Z)
    (wenv : WebEnv A) (wst : WebState A) :
  let wst' := snd (delete_subscription subscription_id wenv wst) in
  db_users wst' = db_users wst /\
  session_user_id wst' = session_user_id wst /\
  (db_subscriptions wst' = db_subscriptions wst \/
   exists s,
     find (fun s => Subscription.id s =? subscription_id)
       (db_subscriptions wst) = Some s /\
     session_user_id wst = Some (Subscription.user_id s) /\
     db_subscriptions wst' =
     delete_row (Subscription.id s) (db_subscriptions wst)).
Proof.
  unfold delete_subscription. unfold_web. split_handler;
    cbn -[delete_row] in *.
  all: split; [reflexivity|]; split; [congruence|].
  all: try (left; reflexivity).
  all: right; eexists; split; [eassumption|]; split; [|reflexivity].
  all: repeat match goal with
              | E : negb _ = false |- _ => apply negb_false_iff in E
              | E : (_ =? _) = true |- _ => apply Z.eqb_eq in E
              end.
  all: congruence.
Qed.

(** What [update_profile] does to the tables: nothing, or the row of the
    user of the session is replaced by one with the same key and email and
    a budget that is not below 0. *)
Lemma update_profile_tables (form : string -> option string)
    (wenv : WebEnv A) (wst : WebState A) :
  let wst' := snd (update_profile form wenv wst) in
  db_subscriptions wst' = db_subscriptions wst /\
  session_user_id wst' = session_user_id wst /\
  (db_users wst' = db_users wst \/
   exists uid user user',
     session_user_id wst = Some uid /\
     find (fun u => User.id u =? uid) (db_users wst) = Some user /\
     User.id user' = User.id user /\
     User.email user' = User.email user /\
     gtb zero (User.monthly_budget user') = false /\
     User.payment_reminders user' = form_has form "payment_reminders" /\
     User.budget_alerts user' = form_has form "budget_alerts" /\
     User.monthly_summary user' = form_has form "monthly_summary" /\
     db_users wst' = update_user user' (db_users wst)).
Proof.
  unfold update_profile. unfold_web. split_handler; cbn -[update_user] in *.
  all: split; [reflexivity|]; split; [congruence|].
  all: try (left; reflexivity).
  all: right;
    match goal with
    | S : session_user_id _ = Some ?uid, F : find _ _ = Some ?user
      |- context [update_user ?u' _] => exists uid, user, u'
    end.
  all: cbn -[update_user]; repeat split; first [assumption | reflexivity].
Qed.

(** What [login] does: the tables stay, and the session gets a user only
    from a POST, for a row found under the stripped email whose password
    check passed. *)
Lemma login_session (post : bool) (form : string -> option string)
    (wenv : WebEnv A) (wst : WebState A) :
  let wst' := snd (login post form wenv wst) in
  db_users wst' = db_users wst /\
  db_subscriptions wst' = db_subscriptions wst /\
  (session_user_id wst' = session_user_id wst \/
   exists user,
     post = true /\
     session_user_id wst = None /\
     In user (db_users wst) /\
     User.email user = py_strip wenv (form_get form "email") /\
     check_password wenv user (form_get form "password") = true /\
     session_user_id wst' = Some (User.id user) /\
     session_user_email wst' = Some (User.email user)).
Proof.
  unfold login. unfold_web. split_handler; cbn in *.
  all: split; [reflexivity|]; split; [reflexivity|].
  all: try (left; first [reflexivity | assumption]).
  all: right; eexists; split; [reflexivity|]; split; [reflexivity|].
  all: match goal with
       | E : find _ _ = Some _ |- _ =>
           apply find_some in E; destruct E as [I E];
           apply String.eqb_eq in E
       end.
  all: repeat split; try assumption.
  all: match goal with
       | E : Some _ = Some _ |- _ => injection E as <-
       end; try assumption.
Qed.

Lemma keeps_tables_wret {X} (x : X) : keeps_tables (A := A) (wret x).
Proof. intros wenv wst. now split. Qed.

Lemma keeps_tables_wraise {X} (e : WebExn) :
  keeps_tables (A := A) (X := X) (wraise e).
Proof. intros wenv wst. now split. Qed.

Lemma keeps_tables_flash (t : FlashText) (c : Category) :
  keeps_tables (A := A) (flash t c).
Proof. intros wenv wst. now split. Qed.

Lemma keeps_tables_wprint (e : WebExn) : keeps_tables (A := A) (wprint e).
Proof. intros wenv wst. now split. Qed.

Lemma keeps_tables_session_get : keeps_tables (A := A) session_get_user_id.
Proof.
  intros wenv wst. unfold session_get_user_id.
  now destruct (session_user_id wst).
Qed.

Lemma keeps_tables_session_clear : keeps_tables (A := A) session_clear.
Proof. intros wenv wst. now split. Qed.

Lemma keeps_tables_run_core {X} (c : M A X) : keeps_tables (run_core c).
Proof.
  intros wenv wst. unfold run_core.
  now destruct (c (core_env wenv wst) (core wst)) as [[x|e] st'].
Qed.

Lemma keeps_tables_wbind {X Y} (c : W A X) (k : X -> W A Y) :
  keeps_tables c -> (forall x, keeps_tables (k x)) -> keeps_tables (wbind c k).
Proof.
  intros Hc Hk wenv wst. unfold wbind.
  destruct (Hc wenv wst) as [U S].
  destruct (c wenv wst) as [[x|e] wst1]; cbn [snd] in *.
  - destruct (Hk x wenv wst1) as [U1 S1]. split; congruence.
  - now split.
Qed.

Lemma keeps_tables_wtry {X} (c : W A X) (h : WebExn -> W A X) :
  keeps_tables c -> (forall e, keeps_tables (h e)) -> keeps_tables (wtry c h).
Proof.
  intros Hc Hh wenv wst. unfold wtry.
  destruct (Hc wenv wst) as [U S].
  destruct (c wenv wst) as [[x|e] wst1]; cbn [snd] in *.
  - now split.
  - destruct (Hh e wenv wst1) as [U1 S1]. split; congruence.
Qed.

Lemma keeps_tables_login_required (f : W A (Response A)) :
  keeps_tables f -> keeps_tables (login_required f).
Proof.
  intros Hf wenv wst. unfold login_required.
  destruct (session_user_id wst); [apply Hf|now split].
Qed.

Create HintDb tables discriminated.
#[local] Hint Resolve keeps_tables_wret keeps_tables_wraise keeps_tables_flash
  keeps_tables_wprint keeps_tables_session_get keeps_tables_session_clear
  keeps_tables_run_core : tables.

Ltac keeps_tables_tac :=
  repeat first
    [ apply keeps_tables_login_required
    | apply keeps_tables_wbind; intros
    | apply keeps_tables_wtry; intros
    | solve [auto with tables]
    | match goal with
      | |- keeps_tables (match ?x with _ => _ end) => destruct x
      end ].

Lemma keeps_tables_dashboard : keeps_tables (A := A) dashboard.
Proof. unfold dashboard. keeps_tables_tac. Qed.

Lemma keeps_tables_logout : keeps_tables (A := A) logout.
Proof. unfold logout. keeps_tables_tac. Qed.

Lemma keeps_tables_index : keeps_tables (A := A) index.
Proof.
  intros wenv wst. unfold index. now destruct (session_user_id wst).
Qed.

Lemma keeps_tables_login (post : bool) (form : string -> option string) :
  keeps_tables (A := A) (login post form).
Proof.
  intros wenv wst. destruct (login_session post form wenv wst) as (U & S & _).
  now split.
Qed.

(** What [register] does to the tables: nothing, or one user more, from a
    POST without a session, under an email no row had, with the defaults
    of the columns. *)
Lemma register_tables (post : bool) (form : string -> option string)
    (wenv : WebEnv A) (wst : WebState A) :
  let wst' := snd (register post form wenv wst) in
  db_subscriptions wst' = db_subscriptions wst /\
  session_user_id wst' = session_user_id wst /\
  (db_users wst' = db_users wst \/
   exists u,
     db_users wst' = db_users wst ++ [u] /\
     post = true /\
     session_user_id wst = None /\
     User.id u = new_user_id wenv (db_users wst) /\
     User.email u = py_strip wenv (form_get form "email") /\
     User.email u <> EmptyString /\
     6 <= Z.of_nat (String.length (form_get form "password")) /\
     (forall u0, In u0 (db_users wst) -> User.email u0 <> User.email u) /\
     User.payment_reminders u = true /\
     User.budget_alerts u = true /\
     User.monthly_summary u = false /\
     User.new_subscription u = true).
Proof.
  unfold register. unfold_web. split_handler; cbn in *.
  all: split; [reflexivity|]; split; [congruence|].
  all: try (left; reflexivity).
  all: right; eexists; split; [reflexivity|]; cbn.
  all: repeat match goal with
              | E : _ || _ = false |- _ =>
                  apply orb_false_iff in E; destruct E
              | E : is_empty _ = false |- _ => apply is_empty_false in E
              | E : (_ <? _) = false |- _ => apply Z.ltb_ge in E
              end.
  all: repeat split; try assumption; try reflexivity.
  all: intros u0 I0 E0;
    match goal with
    | F : find _ _ = None |- _ =>
        apply (find_none _ _ F) in I0; apply String.eqb_neq in I0
    end; congruence.
Qed.

Lemma delete_row_incl (id : Z) (rows : list (Subscription.t A)) :
  incl (delete_row id rows) rows.
Proof.
  induction rows as [|s rows IH]; cbn; [apply incl_refl|].
  destruct (Subscription.id s =? id).
  - apply incl_tl, incl_refl.
  - apply incl_cons; [now left|]. now apply incl_tl.
Qed.

(** One request keeps the rows of the subscriptions valid. *)
Lemma handle_rows_valid (r : Request) (wenv : WebEnv A) (wst : WebState A) :
  subscription_rows_valid wst ->
  subscription_rows_valid (snd (handle r wenv wst)).
Proof.
  intros V.
  assert (K : forall c : W A (Response A), keeps_tables c ->
                subscription_rows_valid (snd (c wenv wst))).
  { intros c Kc s. destruct (Kc wenv wst) as [_ ->]. apply V. }
  destruct r; cbn [handle].
  - apply K, keeps_tables_index.
  - apply K, keeps_tables_login.
  - apply K, keeps_tables_login.
  - destruct (register_tables false (fun _ => None) wenv wst) as (E & _).
    intros s'. rewrite E. apply V.
  - destruct (register_tables true form wenv wst) as (E & _).
    intros s'. rewrite E. apply V.
  - apply K, keeps_tables_logout.
  - apply K, keeps_tables_dashboard.
  - destruct (add_subscription_tables form wenv wst)
      as (_ & _ & [E|(s & E & B & P & N & _)]);
      intros s'; rewrite E; [apply V|].
    intros I. apply in_app_or in I. destruct I as [I|[<-|[]]]; auto.
  - destruct (delete_subscription_tables subscription_id wenv wst)
      as (_ & _ & [E|(s & _ & _ & E)]);
      intros s'; rewrite E; [apply V|].
    intros I. apply V. now apply (delete_row_incl _ _ _ I).
  - destruct (update_profile_tables form wenv wst) as (E & _).
    intros s'. rewrite E. apply V.
Qed.

End RouteFacts.

(** ** The routes: properties *)

(** X5.  A request to a route behind [login_required] from a session with
    no user changes nothing: no table, no mail, no store read; it flashes
    the invitation to log in and is redirected to the login page. *)
Theorem unauthenticated_request_redirected {A} `{Money A} (r : Request)
    (wenv : WebEnv A) (wst : WebState A) :
  protected r = true ->
  session_user_id wst = None ->
  handle r wenv wst =
  (WReturn (Redirect EpLogin),
   mkWebState (db_users wst) (db_subscriptions wst) None
     (session_user_email wst) (flashes wst ++ [(PleaseLogIn, warning)])
     (commits wst) (printed wst) (core wst)).
Proof.
  intros P S.
  destruct r; try discriminate P; cbn [handle];
    unfold logout, dashboard, add_subscription, delete_subscription,
      update_profile, login_required;
    rewrite S; cbn; rewrite S; reflexivity.
Qed.

Lemma unauthenticated_request_redirected_witness :
  protected (PostDeleteSubscription 1) = true /\
  session_user_id anonymous_wst = None /\
  fst (handle (PostDeleteSubscription 1) sample_wenv anonymous_wst)
  = WReturn (Redirect EpLogin) /\
  db_subscriptions (snd (handle (PostDeleteSubscription 1) sample_wenv
                           anonymous_wst))
  = [netflix; gym; music].
Proof.
  split; [reflexivity|]. split; [reflexivity|].
  rewrite (unauthenticated_request_redirected (PostDeleteSubscription 1)
             sample_wenv anonymous_wst eq_refl eq_refl).
  split; reflexivity.
Defined.

(** X6.  Whatever requests are served, and whatever fails meanwhile, the
    rows of the subscriptions stay as [add_subscription] accepts them: a
    billing day in 1..31, a price that is not [<= 0] and a name that is not
    empty.  In particular the reminder job always finds billing days in
    1..31. *)
Theorem subscription_rows_stay_valid {A} `{Money A} (rs : list Request)
    (wenv : WebEnv A) (wst : WebState A) :
  subscription_rows_valid wst ->
  subscription_rows_valid (serve rs wenv wst) /\
  billing_dates_valid (core_env wenv (serve rs wenv wst)).
Proof.
  intros V.
  assert (S : subscription_rows_valid (serve rs wenv wst)).
  { revert wst V. induction rs as [|r rs IH]; intros wst V; cbn [serve].
    - exact V.
    - apply IH. now apply handle_rows_valid. }
  split; [exact S|].
  intros s I. now apply S.
Qed.

Lemma subscription_rows_stay_valid_witness :
  subscription_rows_valid sample_wst /\
  billing_dates_valid
    (core_env sample_wenv
       (serve [PostAddSubscription cloud_form; PostDeleteSubscription 2;
               GetLogout]
          sample_wenv sample_wst)) /\
  map Subscription.name
    (db_subscriptions
       (serve [PostAddSubscription cloud_form; PostDeleteSubscription 2;
               GetLogout]
          sample_wenv sample_wst))
  = ["Netflix"; "Music"; "Cloud"].
Proof.
  assert (V : subscription_rows_valid sample_wst).
  { intros s [<-|[<-|[<-|[]]]]; cbn; repeat split; try lia; discriminate. }
  split; [exact V|]. split; [|reflexivity].
  exact (proj2 (subscription_rows_stay_valid _ sample_wenv sample_wst V)).
Defined.

(** X7.  [add_subscription] never raises: every path ends in a redirect,
    to the login page without a session and to the subscriptions otherwise.
    It leaves the users alone and adds at most one row, which has passed
    the tests of the route (billing day in 1..31, price not [<= 0], name not
    empty after [strip]) and belongs to the user of the session. *)
Theorem add_subscription_adds_checked_row {A} `{Money A}
    (form : string -> option string) (wenv : WebEnv A) (wst : WebState A) :
  let out := fst (add_subscription form wenv wst) in
  let wst' := snd (add_subscription form wenv wst) in
  out = WReturn (Redirect (match session_user_id wst with
                           | Some _ => EpSubscriptions
                           | None => EpLogin
                           end)) /\
  db_users wst' = db_users wst /\
  (db_subscriptions wst' = db_subscriptions wst \/
   exists s,
     db_subscriptions wst' = db_subscriptions wst ++ [s] /\
     1 <= Subscription.billing_date s <= 31 /\
     leb (Subscription.monthly_price s) zero = false /\
     Subscription.name s <> EmptyString /\
     Subscription.name s = py_strip wenv (form_get form "name") /\
     session_user_id wst = Some (Subscription.user_id s)).
Proof.
  cbv zeta. split.
  - unfold add_subscription, login_required, wtry, wbind, py_call, flash,
      wprint, wret, wraise, session_get_user_id, db_commit, run_core,
      with_core, with_tables.
    cbv zeta.
    repeat match goal with
           | |- context [match ?x with _ => _ end] =>
               lazymatch x with
               | context [match _ with _ => _ end] => fail
               | _ => destruct x eqn:?
               end
           end; cbn; reflexivity.
  - destruct (add_subscription_tables form wenv wst)
      as (U & _ & [E|(s & E & B & P & N & Nm & O & _)]).
    + split; [exact U|]. now left.
    + split; [exact U|]. right. exists s. repeat split; first [assumption | lia].
Qed.

(** X8.  When the form is accepted and the store and the commit answer,
    [add_subscription] stores the row, hands one confirmation to the
    transport and flashes the success, and it does so whatever the user's
    [new_subscription] preference is and whether or not the transport
    delivers. *)
Theorem add_subscription_confirms {A} `{Money A}
    (form : string -> option string) (wenv : WebEnv A) (wst : WebState A)
    (uid : Z) (user : User.t A) (price : A) (day : Z) :
  session_user_id wst = Some uid ->
  is_empty (py_strip wenv (form_get form "name")) = false ->
  is_empty (form_get form "monthly_price") = false ->
  is_empty (form_get form "billing_date") = false ->
  py_float wenv (form_get form "monthly_price") = Some price ->
  py_int wenv (form_get form "billing_date") = Some day ->
  leb price zero = false ->
  1 <= day <= 31 ->
  w_commit_fault wenv (commits wst) = None ->
  w_store_fault wenv (store_reads (core wst)) = None ->
  find (fun u => User.id u =? uid) (db_users wst) = Some user ->
  let name := py_strip wenv (form_get form "name") in
  let out := fst (add_subscription form wenv wst) in
  let wst' := snd (add_subscription form wenv wst) in
  out = WReturn (Redirect EpSubscriptions) /\
  db_subscriptions wst' =
    db_subscriptions wst ++
    [Subscription.mk (new_subscription_id wenv (db_subscriptions wst)) name
       price day uid] /\
  map fst (outbox (core wst')) =
    map fst (outbox (core wst)) ++
    [SubscriptionEmail (User.email user) name price] /\
  flashes wst' = flashes wst ++ [(SubscriptionAdded name, success)].
Proof.
  intros S N P B F I L D C R U. cbv zeta.
  assert (D' : (day <? 1) || (day >? 31) = false).
  { rewrite orb_false_iff, Z.gtb_ltb, !Z.ltb_ge. lia. }
  unfold add_subscription, login_required, wtry, wbind, py_call, flash,
    wprint, wret, wraise, session_get_user_id, db_commit, run_core, with_core,
    with_tables, get_user, store_read, core_env, send_subscription_email,
    try_except, bind, mail_send, print, ret.
  cbv zeta.
  repeat (progress (cbn; rewrite ?S, ?N, ?P, ?B, ?F, ?I, ?L, ?D', ?C, ?R, ?U)).
  destruct (w_mail_fault wenv _); cbn;
    rewrite map_app; repeat split; reflexivity.
Qed.

Lemma add_subscription_confirms_witness :
  session_user_id sample_wst = Some 1 /\
  fst (add_subscription cloud_form sample_wenv sample_wst)
  = WReturn (Redirect EpSubscriptions) /\
  db_subscriptions (snd (add_subscription cloud_form sample_wenv sample_wst))
  = [netflix; gym; music; Subscription.mk 4 "Cloud" 12 7 1] /\
  map fst (outbox (core (snd (add_subscription cloud_form sample_wenv
                                sample_wst))))
  = [SubscriptionEmail "alice@example.com" "Cloud" 12].
Proof.
  split; [reflexivity|].
  destruct (add_subscription_confirms cloud_form sample_wenv sample_wst 1
              alice 12 7) as (O & T & M & _);
    try reflexivity; try lia.
  split; [exact O|]. split; [exact T|exact M].
Defined.

Lemma delete_row_keeps {A} (id : Z) (rows : list (Subscription.t A))
    (s0 s : Subscription.t A) :
  find (fun s => Subscription.id s =? id) rows = Some s0 ->
  In s rows -> s <> s0 -> In s (delete_row id rows).
Proof.
  induction rows as [|r rows IH]; cbn; [discriminate|].
  destruct (Subscription.id r =? id).
  - intros [= <-] [<-|I] N; [contradiction|exact I].
  - intros F [<-|I] N; [now left|right; auto].
Qed.

(** X9.  [delete_subscription] removes nothing that the user of the session
    does not own: the rows of the other users are all still there, the
    users are untouched, and no row appears.  Only a row with the key of
    the request can go. *)
Theorem delete_subscription_only_own {A} `{Money A} (subscription_id : Z)
    (wenv : WebEnv A) (wst : WebState A) :
  let wst' := snd (delete_subscription subscription_id wenv wst) in
  db_users wst' = db_users wst /\
  (forall s, In s (db_subscriptions wst') -> In s (db_subscriptions wst)) /\
  (forall s, In s (db_subscriptions wst) ->
             session_user_id wst <> Some (Subscription.user_id s) ->
             In s (db_subscriptions wst')) /\
  (forall s, In s (db_subscriptions wst) ->
             Subscription.id s <> subscription_id ->
             In s (db_subscriptions wst')).
Proof.
  cbv zeta.
  destruct (delete_subscription_tables subscription_id wenv wst)
    as (U & _ & [E|(s0 & F & O & E)]); rewrite E; split; try exact U.
  - repeat split; auto.
  - pose proof (find_some _ _ F) as [_ I0]. apply Z.eqb_eq in I0.
    repeat split.
    + intros s I. now apply (delete_row_incl _ _ _ I).
    + intros s I N. rewrite I0. apply (delete_row_keeps _ _ s0); auto.
      intros ->. now apply N.
    + intros s I N. rewrite I0. apply (delete_row_keeps _ _ s0); auto.
      intros ->. now apply N.
Qed.

Lemma update_user_ids {A} (user : User.t A) (rows : list (User.t A)) :
  map User.id (update_user user rows) = map User.id rows.
Proof.
  unfold update_user. rewrite map_map. apply map_ext_in. intros u _.
  destruct (Z.eqb_spec (User.id u) (User.id user)); congruence.
Qed.

(** X10.  [update_profile] never stores a budget below 0: a row of the
    users after the request is a row from before or the row of the user of
    the session with a budget that is not [< 0].  The keys of the users,
    the rows of the other users and the subscriptions are as before. *)
Theorem update_profile_budget_not_negative {A} `{Money A}
    (form : string -> option string) (wenv : WebEnv A) (wst : WebState A) :
  let wst' := snd (update_profile form wenv wst) in
  db_subscriptions wst' = db_subscriptions wst /\
  map User.id (db_users wst') = map User.id (db_users wst) /\
  (forall u, In u (db_users wst') ->
             In u (db_users wst) \/
             (session_user_id wst = Some (User.id u) /\
              gtb zero (User.monthly_budget u) = false)) /\
  (forall u, In u (db_users wst) ->
             session_user_id wst <> Some (User.id u) ->
             In u (db_users wst')).
Proof.
  cbv zeta.
  destruct (update_profile_tables form wenv wst)
    as (S & _ & [E|(uid & user & user' & Su & F & Ei & _ & G & _ & _ & _ & E)]);
    rewrite E; split; try exact S.
  - repeat split; auto.
  - pose proof (find_some _ _ F) as [_ I0]. apply Z.eqb_eq in I0.
    split; [apply update_user_ids|]. split.
    + intros u I. unfold update_user in I. apply in_map_iff in I.
      destruct I as (u0 & <- & I).
      destruct (User.id u0 =? User.id user'); [right|now left].
      split; [congruence|exact G].
    + intros u I N. unfold update_user. apply in_map_iff. exists u.
      split; [|exact I].
      destruct (Z.eqb_spec (User.id u) (User.id user')); [|reflexivity].
      exfalso. apply N. congruence.
Qed.

(** X11.  [login] puts a user into the session only for a POST whose
    stripped email is that of a row of the users and whose password passes
    that row's [check_password]; the session then holds the key and the
    email of that row.  The tables are not touched. *)
Theorem login_requires_password {A} `{Money A} (post : bool)
    (form : string -> option string) (wenv : WebEnv A) (wst : WebState A)
    (uid : Z) :
  session_user_id wst = None ->
  session_user_id (snd (login post form wenv wst)) = Some uid ->
  post = true /\
  exists user,
    In user (db_users wst) /\
    User.id user = uid /\
    User.email user = py_strip wenv (form_get form "email") /\
    check_password wenv user (form_get form "password") = true /\
    session_user_email (snd (login post form wenv wst))
    = Some (User.email user) /\
    db_users (snd (login post form wenv wst)) = db_users wst /\
    db_subscriptions (snd (login post form wenv wst)) = db_subscriptions wst.
Proof.
  intros S0 S1.
  destruct (login_session post form wenv wst)
    as (U & T & [E|(user & P & _ & I & Em & C & Si & Se)]).
  - congruence.
  - split; [exact P|]. exists user. repeat split; try assumption. congruence.
Qed.

Lemma login_requires_password_witness :
  session_user_id anonymous_wst = None /\
  session_user_id (snd (login true login_form sample_wenv anonymous_wst))
  = Some 1 /\
  exists user,
    In user (db_users anonymous_wst) /\
    User.id user = 1 /\
    check_password sample_wenv user (form_get login_form "password") = true.
Proof.
  split; [reflexivity|]. split; [reflexivity|].
  destruct (login_requires_password true login_form sample_wenv anonymous_wst 1
              eq_refl eq_refl) as (_ & user & I & Ei & _ & C & _).
  exists user. repeat split; assumption.
Defined.

(** X12.  After [logout] the session holds no user, whoever was logged in
    and whatever had been flashed, and the next request to a route behind
    [login_required] is redirected to the login page; the tables are as
    they were. *)
Theorem logout_ends_session {A} `{Money A} (r : Request) (wenv : WebEnv A)
    (wst : WebState A) :
  protected r = true ->
  let wst' := snd (logout wenv wst) in
  session_user_id wst' = None /\
  db_users wst' = db_users wst /\
  db_subscriptions wst' = db_subscriptions wst /\
  fst (handle r wenv wst') = WReturn (Redirect EpLogin) /\
  db_users (snd (handle r wenv wst')) = db_users wst /\
  db_subscriptions (snd (handle r wenv wst')) = db_subscriptions wst.
Proof.
  intros P. cbv zeta.
  assert (S : session_user_id (snd (logout wenv wst)) = None).
  { unfold logout, login_required, wbind, session_clear, flash, wret.
    destruct (session_user_id wst) eqn:E; cbn; first [reflexivity|exact E]. }
  destruct (keeps_tables_logout wenv wst) as [U T].
  split; [exact S|]. split; [exact U|]. split; [exact T|].
  destruct r; try discriminate P; cbn [handle];
    unfold dashboard, add_subscription, delete_subscription,
      update_profile, login_required;
    try (rewrite S; cbn; repeat split; assumption).
  unfold logout at 1 3 5, login_required. rewrite S. cbn.
  repeat split; assumption.
Qed.

Lemma logout_ends_session_witness :
  protected GetDashboard = true /\
  session_user_id sample_wst = Some 1 /\
  session_user_id (snd (logout sample_wenv sample_wst)) = None /\
  fst (handle GetDashboard sample_wenv (snd (logout sample_wenv sample_wst)))
  = WReturn (Redirect EpLogin).
Proof.
  split; [reflexivity|]. split; [reflexivity|].
  destruct (logout_ends_session GetDashboard sample_wenv sample_wst eq_refl)
    as (S & _ & _ & R & _).
  split; [exact S|exact R].
Defined.

(** ** The dashboard *)

Section Sorting.
Context {X : Type} (key : X -> Z).

Lemma insert_by_perm (x : X) (l : list X) :
  Permutation (insert_by key x l) (x :: l).
Proof.
  induction l as [|y l IH]; cbn; [reflexivity|].
  destruct (key x <=? key y); [reflexivity|].
  rewrite IH. apply perm_swap.
Qed.

Lemma sort_by_perm (l : list X) : Permutation (sort_by key l) l.
Proof.
  induction l as [|x l IH]; cbn; [reflexivity|].
  rewrite insert_by_perm. now constructor.
Qed.

Lemma insert_by_sorted (x : X) (l : list X) :
  Sorted (fun a b => key a <= key b) l ->
  Sorted (fun a b => key a <= key b) (insert_by key x l).
Proof.
  induction l as [|y l IH]; intros S; cbn.
  - repeat constructor.
  - destruct (Z.leb_spec (key x) (key y)).
    + constructor; [exact S|]. now constructor.
    + inversion S as [|? ? S' Hd]; subst. constructor; [now apply IH|].
      destruct l as [|z l]; cbn.
      * constructor. lia.
      * inversion Hd; subst.
        destruct (Z.leb_spec (key x) (key z)); constructor; lia.
Qed.

Lemma sort_by_sorted (l : list X) :
  Sorted (fun a b => key a <= key b) (sort_by key l).
Proof.
  induction l as [|x l IH]; cbn; [constructor|]. now apply insert_by_sorted.
Qed.

(** The sort is stable: the elements of one key keep their order. *)
Lemma insert_by_stable (k : Z) (x : X) (l : list X) :
  Sorted (fun a b => key a <= key b) l ->
  filter (fun e => key e =? k) (insert_by key x l) =
  filter (fun e => key e =? k) (x :: l).
Proof.
  induction l as [|y l IH]; intros S; [reflexivity|].
  cbn [insert_by]. destruct (Z.leb_spec (key x) (key y)); [reflexivity|].
  inversion S as [|? ? S' Hd]; subst.
  cbn [filter] in *. rewrite (IH S'). cbn [filter].
  destruct (Z.eqb_spec (key x) k), (Z.eqb_spec (key y) k);
    try reflexivity. lia.
Qed.

Lemma sort_by_stable (k : Z) (l : list X) :
  filter (fun e => key e =? k) (sort_by key l) =
  filter (fun e => key e =? k) l.
Proof.
  induction l as [|x l IH]; [reflexivity|].
  cbn [sort_by]. rewrite insert_by_stable by apply sort_by_sorted.
  cbn [filter]. now rewrite IH.
Qed.

End Sorting.

Section DashboardRun.
Context {A : Type} `{Money A}.
Variable wenv : WebEnv A.
Variable now : datetime.
Hypothesis healthy : forall n, w_store_fault wenv n = None.
Hypothesis frozen : forall n, w_clock wenv n = now.
Hypothesis now_valid : valid_datetime now = true.
Hypothesis now_not_last : last_month now = false.

Lemma wbind_return {X Y} (c : W A X) (k : X -> W A Y) (wst wst1 : WebState A)
    (x : X) :
  c wenv wst = (WReturn x, wst1) -> wbind c k wenv wst = k x wenv wst1.
Proof. intros E. unfold wbind. now rewrite E. Qed.

Lemma run_core_return {X} (c : M A X) (wst : WebState A) (x : X)
    (st' : State A) :
  c (core_env wenv wst) (core wst) = (Return x, st') ->
  run_core c wenv wst = (WReturn x, with_core wst st').
Proof. intros E. unfold run_core. now rewrite E. Qed.

Lemma core_env_healthy (wst : WebState A) : store_healthy (core_env wenv wst).
Proof. intros n. apply healthy. Qed.

(** One turn of the loop of the dashboard. *)
Lemma upcoming_step_run (env : Env A) (s : Subscription.t A)
    (acc : list (Upcoming A)) (st : State A) :
  clock_frozen env now ->
  1 <= Subscription.billing_date s <= 31 ->
  exists st',
    (days_until <- get_days_until_payment (Subscription.billing_date s) ;;
     if days_until <=? 30 then
       next_date <- get_next_payment_date s ;;
       ret (acc ++ [mkUpcoming s days_until next_date])
     else ret acc)%job env st =
    (Return (acc ++ upcoming_entry now s), st').
Proof.
  intros Hc D.
  pose proof (next_date_at_eq _ _ now_valid D now_not_last) as E.
  remember (let '(ny, nm) := next_year_month _ now in _) as nd eqn:Hnd.
  clear Hnd.
  assert (U : days_until_at (Subscription.billing_date s) now =
              Return (days (datetime_sub nd now))).
  { unfold days_until_at. now rewrite E. }
  unfold upcoming_entry. rewrite U, E.
  unfold get_days_until_payment, get_next_payment_date, bind, datetime_now,
    lift, ret.
  cbn [clock_reads]. rewrite !Hc, U.
  destruct (days (datetime_sub nd now) <=? 30).
  - rewrite Hc, E. eexists. reflexivity.
  - eexists. now rewrite app_nil_r.
Qed.

(** The loop of the dashboard over the subscriptions. *)
Lemma upcoming_loop_run (env : Env A) (subs : list (Subscription.t A))
    (acc : list (Upcoming A)) (st : State A) :
  clock_frozen env now ->
  (forall s, In s subs -> 1 <= Subscription.billing_date s <= 31) ->
  exists st',
    for_each subs acc (fun sub upcoming =>
      days_until <- get_days_until_payment (Subscription.billing_date sub) ;;
      if days_until <=? 30 then
        next_date <- get_next_payment_date sub ;;
        ret (upcoming ++ [mkUpcoming sub days_until next_date])
      else ret upcoming)%job env st =
    (Return (acc ++ flat_map (upcoming_entry now) subs), st').
Proof.
  intros Hc. revert acc st.
  induction subs as [|s subs IH]; intros acc st B; cbn [for_each flat_map].
  - exists st. unfold ret. now rewrite app_nil_r.
  - destruct (upcoming_step_run env s acc st Hc) as (st1 & E1);
      [apply B; now left|].
    rewrite (bind_return _ _ _ _ _ _ E1).
    destruct (IH (acc ++ upcoming_entry now s) st1) as (st' & R);
      [intros; apply B; now right|].
    exists st'. rewrite R. now rewrite <- app_assoc.
Qed.

(** What the dashboard renders for a user who is logged in. *)
Lemma dashboard_run (wst : WebState A) (uid : Z) (user : User.t A) :
  session_user_id wst = Some uid ->
  find (fun u => User.id u =? uid) (db_users wst) = Some user ->
  (forall s, In s (db_subscriptions wst) ->
             1 <= Subscription.billing_date s <= 31) ->
  let subs := filter (fun s => Subscription.user_id s =? User.id user)
                (db_subscriptions wst) in
  let monthly := sum (map Subscription.monthly_price subs) in
  fst (dashboard wenv wst) =
  WReturn (RenderDashboard user
             (sort_by up_days_until (flat_map (upcoming_entry now) subs))
             monthly (mul_int monthly 12) (Z.of_nat (List.length subs))
             (dashboard_budget_alert wst user)).
Proof.
  intros S F B subs monthly.
  unfold dashboard, login_required. rewrite S.
  erewrite wbind_return
    by (unfold session_get_user_id; rewrite S; reflexivity).
  erewrite wbind_return
    by (apply run_core_return; unfold get_user;
        apply store_read_run, core_env_healthy).
  cbn [core_env users]. rewrite F.
  erewrite wbind_return
    by (apply run_core_return; unfold query_subscriptions;
        apply store_read_run, core_env_healthy).
  cbn [core_env subscriptions with_core db_subscriptions db_users core].
  fold subs.
  match goal with
  | |- context [run_core (for_each subs [] ?body) ] =>
      match goal with
      | |- context [wbind (run_core (for_each subs [] body)) _ wenv ?w] =>
          destruct (upcoming_loop_run (core_env wenv w) subs [] (core w))
            as (st3 & L)
      end
  end.
  { intros n. apply frozen. }
  { intros s I. apply B. unfold subs in I. apply filter_In in I. tauto. }
  erewrite wbind_return by (apply run_core_return; exact L).
  cbn [app].
  erewrite wbind_return.
  2:{ apply run_core_return. unfold get_monthly_summary, get_user,
        query_subscriptions.
      erewrite bind_return by (apply store_read_run, core_env_healthy).
      erewrite bind_return by (apply store_read_run, core_env_healthy).
      reflexivity. }
  cbn. reflexivity.
Qed.

End DashboardRun.

Section DashboardFacts.
Context {A : Type}.
Variable now : datetime.
Hypothesis now_valid : valid_datetime now = true.
Hypothesis now_not_last : last_month now = false.

Lemma upcoming_entry_cases (s : Subscription.t A) :
  1 <= Subscription.billing_date s <= 31 ->
  exists n next_date,
    days_until_at (Subscription.billing_date s) now = Return n /\
    next_date_at (Subscription.billing_date s) now = Return next_date /\
    -1 <= n <= 31 /\
    (0 < time_of_day now -> n <= 30) /\
    upcoming_entry now s =
    (if n <=? 30 then [mkUpcoming s n next_date] else []).
Proof.
  intros D.
  pose proof (next_date_at_eq _ _ now_valid D now_not_last) as E.
  pose proof (days_until_at_eq _ _ now_valid D now_not_last) as U.
  pose proof (calendar_days_ahead_bounds _ _ now_valid D now_not_last) as B.
  pose proof (time_of_day_bounds now now_valid) as T.
  do 2 eexists. split; [exact U|]. split; [exact E|].
  split; [|split].
  - destruct (Z.eq_dec (time_of_day now) 0) as [T0|T0].
    + rewrite T0, floor_exact. lia.
    + rewrite floor_below by lia. lia.
  - intros P. rewrite floor_below by lia. lia.
  - unfold upcoming_entry. now rewrite U, E.
Qed.

Lemma upcoming_subscriptions (subs : list (Subscription.t A)) :
  (forall s, In s subs -> 1 <= Subscription.billing_date s <= 31) ->
  map up_subscription (flat_map (upcoming_entry now) subs) =
  filter (listed_on_dashboard now) subs.
Proof.
  induction subs as [|s subs IH]; intros B; [reflexivity|].
  cbn [flat_map filter]. rewrite map_app, IH by (intros; apply B; now right).
  destruct (upcoming_entry_cases s) as (n & nd & U & _ & _ & _ & ->);
    [apply B; now left|].
  assert (Ld : listed_on_dashboard now s = (n <=? 30))
    by (unfold listed_on_dashboard; now rewrite U).
  rewrite Ld. now destruct (n <=? 30).
Qed.

Lemma upcoming_all_listed (subs : list (Subscription.t A)) :
  (forall s, In s subs -> 1 <= Subscription.billing_date s <= 31) ->
  0 < time_of_day now ->
  filter (listed_on_dashboard now) subs = subs.
Proof.
  intros B P. induction subs as [|s subs IH]; [reflexivity|].
  cbn [filter].
  destruct (upcoming_entry_cases s) as (n & nd & U & _ & _ & L & _);
    [apply B; now left|].
  assert (Ld : listed_on_dashboard now s = true)
    by (unfold listed_on_dashboard; rewrite U; apply Z.leb_le; auto).
  rewrite Ld. f_equal. apply IH. intros; apply B; now right.
Qed.

Lemma upcoming_entry_sound (subs : list (Subscription.t A)) (e : Upcoming A) :
  (forall s, In s subs -> 1 <= Subscription.billing_date s <= 31) ->
  In e (flat_map (upcoming_entry now) subs) ->
  In (up_subscription e) subs /\
  days_until_at (Subscription.billing_date (up_subscription e)) now
  = Return (up_days_until e) /\
  next_date_at (Subscription.billing_date (up_subscription e)) now
  = Return (up_next_date e) /\
  -1 <= up_days_until e <= 30.
Proof.
  intros B I. apply in_flat_map in I. destruct I as (s & Is & I).
  destruct (upcoming_entry_cases s (B s Is))
    as (n & nd & U & E & R & _ & Eq).
  rewrite Eq in I. destruct (Z.leb_spec n 30); [|contradiction].
  destruct I as [<-|[]]. cbn. repeat split; auto; lia.
Qed.

End DashboardFacts.

(** X13.  For a user who is logged in, the dashboard lists the user's
    subscriptions whose [days_until] is at most 30, each once, with the
    [days_until] and the payment date computed for it, in increasing order
    of [days_until] and, for equal values, in the order of the query.  When
    the clock is not exactly at midnight none of the user's subscriptions
    is left out. *)
Theorem dashboard_lists_upcoming {A} `{Money A} (wenv : WebEnv A)
    (now : datetime) (wst : WebState A) (uid : Z) (user : User.t A) :
  (forall n, w_store_fault wenv n = None) ->
  (forall n, w_clock wenv n = now) ->
  valid_datetime now = true ->
  last_month now = false ->
  session_user_id wst = Some uid ->
  find (fun u => User.id u =? uid) (db_users wst) = Some user ->
  (forall s, In s (db_subscriptions wst) ->
             1 <= Subscription.billing_date s <= 31) ->
  let subs := filter (fun s => Subscription.user_id s =? User.id user)
                (db_subscriptions wst) in
  exists upcoming monthly yearly count budget_alert,
    fst (dashboard wenv wst) =
    WReturn (RenderDashboard user upcoming monthly yearly count budget_alert) /\
    Sorted (fun a b => up_days_until a <= up_days_until b) upcoming /\
    Permutation (map up_subscription upcoming)
      (filter (listed_on_dashboard now) subs) /\
    (forall k,
       map up_subscription
         (filter (fun e => up_days_until e =? k) upcoming) =
       filter (fun s => match days_until_at (Subscription.billing_date s) now
                        with
                        | Return n => (n <=? 30) && (n =? k)
                        | Raise _ => false
                        end) subs) /\
    (forall e, In e upcoming ->
       In (up_subscription e) subs /\
       days_until_at (Subscription.billing_date (up_subscription e)) now
       = Return (up_days_until e) /\
       next_date_at (Subscription.billing_date (up_subscription e)) now
       = Return (up_next_date e) /\
       -1 <= up_days_until e <= 30) /\
    (0 < time_of_day now ->
     Permutation (map up_subscription upcoming) subs).
Proof.
  intros Hs Hc V L S F B subs.
  assert (Bs : forall s, In s subs -> 1 <= Subscription.billing_date s <= 31).
  { intros s I. apply B. unfold subs in I. apply filter_In in I. tauto. }
  do 5 eexists. split; [apply (dashboard_run wenv now Hs Hc V L wst uid user S F B)|].
  fold subs. split; [apply sort_by_sorted|]. split; [|split; [|split]].
  - rewrite sort_by_perm. now rewrite (upcoming_subscriptions now V L subs Bs).
  - intros k. rewrite sort_by_stable. clear -V L Bs.
    induction subs as [|s subs IH]; [reflexivity|].
    cbn [flat_map filter]. rewrite filter_app, map_app, IH
      by (intros; apply Bs; now right).
    destruct (upcoming_entry_cases now V L s) as (n & nd & U & _ & _ & _ & ->);
      [apply Bs; now left|].
    rewrite U. destruct (n <=? 30); cbn; [|reflexivity].
    now destruct (n =? k).
  - intros e I. apply (upcoming_entry_sound now V L subs e Bs).
    eapply Permutation_in; [apply sort_by_perm|exact I].
  - intros P. rewrite sort_by_perm.
    rewrite (upcoming_subscriptions now V L subs Bs).
    now rewrite (upcoming_all_listed now V L subs Bs P).
Qed.

Lemma dashboard_lists_upcoming_witness :
  (forall n, w_store_fault sample_wenv n = None) /\
  (forall n, w_clock sample_wenv n = march_first) /\
  valid_datetime march_first = true /\
  last_month march_first = false /\
  session_user_id sample_wst = Some 1 /\
  find (fun u => User.id u =? 1) (db_users sample_wst) = Some alice /\
  (forall s, In s (db_subscriptions sample_wst) ->
             1 <= Subscription.billing_date s <= 31) /\
  exists upcoming monthly yearly count budget_alert,
    fst (dashboard sample_wenv sample_wst) =
    WReturn (RenderDashboard alice upcoming monthly yearly count budget_alert) /\
    Permutation (map up_subscription upcoming) [netflix; gym].
Proof.
  assert (B : forall s, In s (db_subscriptions sample_wst) ->
                        1 <= Subscription.billing_date s <= 31).
  { intros s [<-|[<-|[<-|[]]]]; cbn; lia. }
  split; [reflexivity|]. split; [reflexivity|]. split; [reflexivity|].
  split; [reflexivity|]. split; [reflexivity|]. split; [reflexivity|].
  split; [exact B|].
  destruct (dashboard_lists_upcoming sample_wenv march_first sample_wst 1
              alice (fun _ => eq_refl) (fun _ => eq_refl) eq_refl eq_refl
              eq_refl eq_refl B)
    as (up & m & y & c & b & E & _ & _ & _ & _ & P).
  exists up, m, y, c, b. split; [exact E|]. apply P. reflexivity.
Defined.

(** X14.  The budget flag of the dashboard is set exactly when the budget
    is above 0 and the total of the user's subscriptions is above the
    budget: for a user with [budget_alerts] set, exactly when the daily
    budget check sends that user an alert; when the flag is not set the
    check sends nothing. *)
Theorem dashboard_flag_matches_job {A} `{Money A} (wenv : WebEnv A)
    (now : datetime) (wst : WebState A) (uid : Z) (user : User.t A) :
  (forall n, w_store_fault wenv n = None) ->
  (forall n, w_clock wenv n = now) ->
  valid_datetime now = true ->
  last_month now = false ->
  session_user_id wst = Some uid ->
  find (fun u => User.id u =? uid) (db_users wst) = Some user ->
  (forall s, In s (db_subscriptions wst) ->
             1 <= Subscription.billing_date s <= 31) ->
  let env := core_env wenv wst in
  exists upcoming monthly yearly count budget_alert,
    fst (dashboard wenv wst) =
    WReturn (RenderDashboard user upcoming monthly yearly count budget_alert) /\
    monthly = total_of env user /\
    yearly = mul_int monthly 12 /\
    count = Z.of_nat (List.length (subscriptions_of env user)) /\
    budget_alert =
      gtb (User.monthly_budget user) zero
      && gtb (total_of env user) (User.monthly_budget user) /\
    (User.budget_alerts user = true ->
     (budget_alert = true <->
      budget_alert_for env user = [budget_alert_message env user])) /\
    (budget_alert = false -> budget_alert_for env user = []).
Proof.
  intros Hs Hc V L S F B env.
  do 5 eexists. split; [apply (dashboard_run wenv now Hs Hc V L wst uid user S F B)|].
  split; [reflexivity|]. split; [reflexivity|]. split; [reflexivity|].
  assert (E : dashboard_budget_alert wst user =
              gtb (User.monthly_budget user) zero
              && gtb (total_of env user) (User.monthly_budget user)).
  { unfold dashboard_budget_alert, total_of, subscriptions_of. cbn.
    now destruct (gtb (User.monthly_budget user) zero). }
  split; [exact E|]. rewrite E. unfold budget_alert_for. split.
  - intros ->. cbn [andb].
    destruct (gtb (User.monthly_budget user) zero),
      (gtb (total_of env user) (User.monthly_budget user)); cbn;
      split; first [reflexivity | discriminate].
  - destruct (User.budget_alerts user),
      (gtb (User.monthly_budget user) zero),
      (gtb (total_of env user) (User.monthly_budget user)); cbn;
      first [reflexivity | discriminate].
Qed.

Lemma dashboard_flag_matches_job_witness :
  (forall n, w_store_fault sample_wenv n = None) /\
  (forall n, w_clock sample_wenv n = march_first) /\
  valid_datetime march_first = true /\
  last_month march_first = false /\
  session_user_id sample_wst = Some 1 /\
  find (fun u => User.id u =? 1) (db_users sample_wst) = Some alice /\
  (forall s, In s (db_subscriptions sample_wst) ->
             1 <= Subscription.billing_date s <= 31) /\
  exists upcoming,
    fst (dashboard sample_wenv sample_wst) =
    WReturn (RenderDashboard alice upcoming 120 1440 2 true).
Proof.
  assert (B : forall s, In s (db_subscriptions sample_wst) ->
                        1 <= Subscription.billing_date s <= 31).
  { intros s [<-|[<-|[<-|[]]]]; cbn; lia. }
  split; [reflexivity|]. split; [reflexivity|]. split; [reflexivity|].
  split; [reflexivity|]. split; [reflexivity|]. split; [reflexivity|].
  split; [exact B|].
  destruct (dashboard_flag_matches_job sample_wenv march_first sample_wst 1
              alice (fun _ => eq_refl) (fun _ => eq_refl) eq_refl eq_refl
              eq_refl eq_refl B)
    as (up & m & y & c & b & E & -> & -> & -> & -> & _).
  exists up. exact E.
Defined.

(** ** Accounts *)

Section Distinct.
Context {A : Type} `{Money A}.

Lemma NoDup_map_snoc {X Y} (f : X -> Y) (l : list X) (x : X) :
  NoDup (map f l) -> ~ In (f x) (map f l) -> NoDup (map f (l ++ [x])).
Proof.
  intros N I. rewrite map_app. cbn [map].
  apply NoDup_app; [exact N| |].
  - constructor; [intros []|constructor].
  - intros a Ia [<-|[]]. contradiction.
Qed.

Lemma NoDup_map_injective {X Y} (f : X -> Y) (l : list X) (a b : X) :
  NoDup (map f l) -> In a l -> In b l -> f a = f b -> a = b.
Proof.
  induction l as [|x l IH]; cbn; [contradiction|].
  intros N. inversion N as [|? ? Nx Nl]; subst.
  intros [<-|Ia] [<-|Ib] E; auto.
  - exfalso. apply Nx. rewrite E. now apply in_map.
  - exfalso. apply Nx. rewrite <- E. now apply in_map.
Qed.

Lemma delete_row_NoDup (id : Z) (rows : list (Subscription.t A)) :
  NoDup (map Subscription.id rows) ->
  NoDup (map Subscription.id (delete_row id rows)).
Proof.
  induction rows as [|s rows IH]; cbn; [auto|].
  intros N. inversion N as [|? ? Ns Nr]; subst.
  destruct (Subscription.id s =? id); [exact Nr|].
  cbn. constructor; [|auto].
  intros I. apply Ns. apply in_map_iff in I. destruct I as (s' & E & I).
  apply in_map_iff. exists s'. split; [exact E|].
  now apply (delete_row_incl _ _ _ I).
Qed.

Lemma update_user_emails (user user' : User.t A) (rows : list (User.t A)) :
  NoDup (map User.id rows) ->
  In user rows ->
  User.id user' = User.id user ->
  User.email user' = User.email user ->
  map User.email (update_user user' rows) = map User.email rows.
Proof.
  intros N I Ei Ee. unfold update_user. rewrite map_map.
  apply map_ext_in. intros u Iu.
  destruct (Z.eqb_spec (User.id u) (User.id user')); [|reflexivity].
  assert (u = user) by (apply (NoDup_map_injective User.id rows); congruence).
  congruence.
Qed.

Lemma handle_distinct (r : Request) (wenv : WebEnv A) (wst : WebState A) :
  fresh_keys wenv ->
  accounts_distinct wst ->
  accounts_distinct (snd (handle r wenv wst)).
Proof.
  intros [Fu Fs] (Ni & Ne & Ns).
  assert (K : forall c : W A (Response A), keeps_tables c ->
                accounts_distinct (snd (c wenv wst))).
  { intros c Kc. destruct (Kc wenv wst) as [Eu Es].
    unfold accounts_distinct. now rewrite Eu, Es. }
  assert (R : forall post form,
                accounts_distinct (snd (register post form wenv wst))).
  { intros post form.
    destruct (register_tables post form wenv wst)
      as (Es & _ & [Eu|(u & Eu & _ & _ & Ei & _ & _ & _ & Fe & _)]);
      unfold accounts_distinct; rewrite Es, Eu; [auto|].
    repeat split; [| |exact Ns].
    - apply NoDup_map_snoc; [exact Ni|]. rewrite Ei. apply Fu.
    - apply NoDup_map_snoc; [exact Ne|]. intros I.
      apply in_map_iff in I. destruct I as (u0 & E0 & I0).
      now apply (Fe u0 I0). }
  destruct r; cbn [handle].
  - apply K, keeps_tables_index.
  - apply K, keeps_tables_login.
  - apply K, keeps_tables_login.
  - apply R.
  - apply R.
  - apply K, keeps_tables_logout.
  - apply K, keeps_tables_dashboard.
  - destruct (add_subscription_tables form wenv wst)
      as (Eu & _ & [Es|(s & Es & _ & _ & _ & _ & _ & Ei)]);
      unfold accounts_distinct; rewrite Eu, Es; [auto|].
    repeat split; [exact Ni|exact Ne|].
    apply NoDup_map_snoc; [exact Ns|]. rewrite Ei. apply Fs.
  - destruct (delete_subscription_tables subscription_id wenv wst)
      as (Eu & _ & [Es|(s & _ & _ & Es)]);
      unfold accounts_distinct; rewrite Eu, Es; [auto|].
    repeat split; [exact Ni|exact Ne|]. now apply delete_row_NoDup.
  - destruct (update_profile_tables form wenv wst)
      as (Es & _ & [Eu|(uid & user & user' & _ & F & Ei & Ee & _ & _ & _ & _
                        & Eu)]);
      unfold accounts_distinct; rewrite Es, Eu; [auto|].
    apply find_some in F. destruct F as [I _].
    rewrite update_user_ids, (update_user_emails user user'); auto.
Qed.

End Distinct.

(** X15.  As long as the database gives new rows keys that are new,
    whatever requests are served, and whatever fails meanwhile, no two
    users share a key or an email and no two subscriptions share a key. *)
Theorem accounts_stay_distinct {A} `{Money A} (rs : list Request)
    (wenv : WebEnv A) (wst : WebState A) :
  fresh_keys wenv ->
  accounts_distinct wst ->
  accounts_distinct (serve rs wenv wst).
Proof.
  intros F. revert wst. induction rs as [|r rs IH]; intros wst D; cbn [serve].
  - exact D.
  - apply IH. now apply handle_distinct.
Qed.

Lemma next_key_fresh (keys : list Z) : ~ In (next_key keys) keys.
Proof.
  assert (B : forall x, In x keys -> x <= fold_right Z.max 0 keys).
  { induction keys as [|k keys IH]; cbn; [contradiction|].
    intros x [<-|I]; [lia|]. specialize (IH x I). lia. }
  intros I. apply B in I. unfold next_key in I. lia.
Qed.

Lemma accounts_stay_distinct_witness :
  fresh_keys sample_wenv /\
  accounts_distinct anonymous_wst /\
  accounts_distinct
    (serve [PostRegister register_form; PostRegister register_form;
            PostLogin login_form; PostAddSubscription cloud_form]
       sample_wenv anonymous_wst) /\
  map User.email
    (db_users
       (serve [PostRegister register_form; PostRegister register_form;
               PostLogin login_form; PostAddSubscription cloud_form]
          sample_wenv anonymous_wst))
  = ["alice@example.com"; "bob@example.com"; "carol@example.com";
     "dave@example.com"].
Proof.
  assert (F : fresh_keys sample_wenv).
  { split; intros l; apply next_key_fresh. }
  assert (D : accounts_distinct anonymous_wst).
  { repeat split; cbn; repeat constructor; cbn; intuition discriminate. }
  split; [exact F|]. split; [exact D|]. split; [|reflexivity].
  exact (accounts_stay_distinct _ sample_wenv anonymous_wst F D).
Defined.


(** ** More on the jobs *)

(** X17.  No job keeps a record of what it has sent: a second run under the
    same conditions hands the same messages to the transport again, so a
    user who stays over budget gets the alert at every run. *)
Theorem job_repeats_its_messages {A} `{Money A} (env : Env A) (j : Job)
    (now : datetime) (st : State A) :
  store_healthy env ->
  clock_frozen env now ->
  (j = JobPaymentReminders ->
   valid_datetime now = true /\ last_month now = false /\
   billing_dates_valid env) ->
  exists st1 st2,
    job_function j env st = (Return tt, st1) /\
    job_function j env st1 = (Return tt, st2) /\
    map fst (outbox st1) = map fst (outbox st) ++ job_decisions env now j /\
    map fst (outbox st2) =
      map fst (outbox st) ++ job_decisions env now j ++ job_decisions env now j.
Proof.
  intros Hs Hc Hd.
  destruct (job_function_run env j now st Hs Hc Hd) as (st1 & E1 & O1 & _).
  destruct (job_function_run env j now st1 Hs Hc Hd) as (st2 & E2 & O2 & _).
  exists st1, st2. split; [exact E1|]. split; [exact E2|].
  rewrite O2, O1, !map_app, !deliver_fst. split; [reflexivity|].
  now rewrite <- app_assoc.
Qed.

Lemma job_repeats_its_messages_witness :
  store_healthy sample_env /\
  clock_frozen sample_env march_first /\
  exists st1 st2,
    check_budget_alerts sample_env init_state = (Return tt, st1) /\
    check_budget_alerts sample_env st1 = (Return tt, st2) /\
    map fst (outbox st2) =
    [BudgetAlert "alice@example.com" 100 120 20;
     BudgetAlert "carol@example.com" 10 15 5;
     BudgetAlert "alice@example.com" 100 120 20;
     BudgetAlert "carol@example.com" 10 15 5].
Proof.
  split; [apply sample_env_healthy|]. split; [apply sample_env_frozen|].
  destruct (job_repeats_its_messages sample_env JobBudgetAlerts march_first
              init_state sample_env_healthy sample_env_frozen)
    as (st1 & st2 & E1 & E2 & _ & O); [discriminate|].
  exists st1, st2. split; [exact E1|]. split; [exact E2|].
  rewrite O. reflexivity.
Defined.

Section InvalidBillingDay.
Context {A : Type} `{Money A}.
Variable env : Env A.
Variable now : datetime.
Hypothesis healthy : store_healthy env.
Hypothesis frozen : clock_frozen env now.
Hypothesis now_valid : valid_datetime now = true.
Hypothesis now_not_last : last_month now = false.

Lemma next_date_at_nonpositive (d : Z) :
  d <= 0 -> next_date_at d now = Raise ValueError.
Proof.
  intros D.
  destruct (next_year_month_range d now now_valid now_not_last) as [_ Hm].
  unfold next_date_at.
  destruct (next_year_month d now) as [ny nm]. cbn [snd] in Hm.
  destruct (monthrange_days ny nm Hm) as [day1 ->]. cbn [obind snd].
  unfold datetime_ymd.
  match goal with
  | |- context [valid_datetime ?t] => destruct (valid_datetime t) eqn:V
  end; [|reflexivity].
  apply valid_datetime_fields in V. destruct V as [_ _ Dd _ _ _ _].
  cbn [year month day] in Dd. lia.
Qed.

(** A loop raises when one of its steps always does and the others return
    or raise the same exception. *)
Lemma for_each_raises {X} (body : X -> Z -> M A Z) (xs : list X) (e : Exn) :
  (forall x acc st, In x xs ->
     (exists acc' st', body x acc env st = (Return acc', st')) \/
     (exists st', body x acc env st = (Raise e, st'))) ->
  (exists x, In x xs /\
     forall acc st, exists st', body x acc env st = (Raise e, st')) ->
  forall acc st, exists st', for_each xs acc body env st = (Raise e, st').
Proof.
  induction xs as [|x xs IH]; intros Hs (b & Ib & Hb) acc st.
  - contradiction.
  - cbn [for_each].
    destruct (Hs x acc st (or_introl eq_refl)) as [(acc' & st1 & E)|(st1 & E)].
    + rewrite (bind_return _ _ _ _ _ _ E).
      destruct Ib as [<-|Ib].
      * destruct (Hb acc st) as (st2 & E2). congruence.
      * apply IH; [intros; apply Hs; now right|]. exists b. auto.
    + exists st1. now apply bind_raise.
Qed.

Lemma reminder_step_outcome (u : User.t A) (s : Subscription.t A) (acc : Z)
    (st : State A) :
  Subscription.billing_date s <= 31 ->
  let step :=
    (now <- datetime_now ;;
     let billing_date := Subscription.billing_date s in
     next_date <- lift (next_date_at billing_date now) ;;
     let days_until := days (datetime_sub next_date now) in
     if days_until =? 3 then
       ok <- send_payment_reminder u s days_until ;;
       ret (if ok : bool then acc + 1 else acc)
     else ret acc)%job in
  (1 <= Subscription.billing_date s ->
   exists acc' st', step env st = (Return acc', st')) /\
  (Subscription.billing_date s <= 0 ->
   exists st', step env st = (Raise ValueError, st')).
Proof.
  intros D step. split.
  - intros D1.
    destruct (reminder_step_run env now u s acc st frozen now_valid
                now_not_last (conj D1 D)) as (st' & E & _).
    do 2 eexists. exact E.
  - intros D0. unfold step.
    rewrite (bind_return _ _ _ _ _ _ (datetime_now_run env st)).
    cbn beta zeta. rewrite frozen, (next_date_at_nonpositive _ D0).
    eexists. apply bind_raise. reflexivity.
Qed.

Lemma reminder_user_outcome (u : User.t A) (acc : Z) (st : State A) :
  (forall s, In s (subscriptions env) -> Subscription.billing_date s <= 31) ->
  let step :=
    (subs <- user_subscriptions u ;;
     for_each subs acc (fun subscription reminders_sent =>
       now <- datetime_now ;;
       let billing_date := Subscription.billing_date subscription in
       next_date <- lift (next_date_at billing_date now) ;;
       let days_until := days (datetime_sub next_date now) in
       if days_until =? 3 then
         ok <- send_payment_reminder u subscription days_until ;;
         ret (if ok : bool then reminders_sent + 1 else reminders_sent)
       else ret reminders_sent))%job in
  ((exists acc' st', step env st = (Return acc', st')) \/
   (exists st', step env st = (Raise ValueError, st'))) /\
  ((exists s, In s (subscriptions_of env u) /\
              Subscription.billing_date s <= 0) ->
   exists st', step env st = (Raise ValueError, st')).
Proof.
  intros B step. unfold step, user_subscriptions, query_subscriptions.
  rewrite (bind_return _ _ _ _ _ _ (store_read_run env _ st healthy)).
  fold (subscriptions_of env u).
  assert (Bs : forall s, In s (subscriptions_of env u) ->
                         Subscription.billing_date s <= 31).
  { intros s I. apply B. unfold subscriptions_of in I.
    apply filter_In in I. tauto. }
  set (st1 := mkState _ _ _ _).
  assert (G : forall subs acc0 st0,
            (forall s, In s subs -> Subscription.billing_date s <= 31) ->
            (exists acc' st', for_each subs acc0 (fun subscription reminders_sent =>
               now <- datetime_now ;;
               let billing_date := Subscription.billing_date subscription in
               next_date <- lift (next_date_at billing_date now) ;;
               let days_until := days (datetime_sub next_date now) in
               if days_until =? 3 then
                 ok <- send_payment_reminder u subscription days_until ;;
                 ret (if ok : bool then reminders_sent + 1 else reminders_sent)
               else ret reminders_sent)%job env st0 = (Return acc', st')) \/
            (exists st', for_each subs acc0 (fun subscription reminders_sent =>
               now <- datetime_now ;;
               let billing_date := Subscription.billing_date subscription in
               next_date <- lift (next_date_at billing_date now) ;;
               let days_until := days (datetime_sub next_date now) in
               if days_until =? 3 then
                 ok <- send_payment_reminder u subscription days_until ;;
                 ret (if ok : bool then reminders_sent + 1 else reminders_sent)
               else ret reminders_sent)%job env st0 = (Raise ValueError, st'))).
  { induction subs as [|s subs IH]; intros acc0 st0 Bd; cbn [for_each].
    - left. do 2 eexists. reflexivity.
    - destruct (reminder_step_outcome u s acc0 st0 (Bd s (or_introl eq_refl)))
        as [Ok Bad].
      destruct (Z.le_gt_cases (Subscription.billing_date s) 0) as [L|G].
      + right. destruct (Bad L) as (st' & E). exists st'.
        now apply bind_raise.
      + destruct Ok as (acc' & st' & E); [lia|].
        rewrite (bind_return _ _ _ _ _ _ E).
        apply IH. intros; apply Bd; now right. }
  split; [apply G, Bs|].
  intros (s & Is & D0). apply for_each_raises.
  - intros x acc0 st0 Ix.
    destruct (reminder_step_outcome u x acc0 st0 (Bs x Ix)) as [Ok Bad].
    destruct (Z.le_gt_cases (Subscription.billing_date x) 0) as [L|G'].
    + right. now apply Bad.
    + left. apply Ok. lia.
  - exists s. split; [exact Is|]. intros acc0 st0.
    destruct (reminder_step_outcome u s acc0 st0 (Bs s Is)) as [_ Bad].
    now apply Bad.
Qed.

Lemma reminder_job_raises (st : State A) (u : User.t A) (s : Subscription.t A) :
  (forall s', In s' (subscriptions env) ->
              Subscription.billing_date s' <= 31) ->
  In u (users env) ->
  User.payment_reminders u = true ->
  In s (subscriptions_of env u) ->
  Subscription.billing_date s <= 0 ->
  exists st', check_payment_reminders env st = (Raise ValueError, st').
Proof.
  intros B Iu Pu Is D0. unfold check_payment_reminders.
  rewrite (bind_return _ _ _ _ _ _ (datetime_now_run env st)).
  rewrite (bind_return _ _ _ _ _ _ (print_run env _ _)).
  unfold query_users.
  rewrite (bind_return _ _ _ _ _ _ (store_read_run env _ _ healthy)).
  match goal with
  | |- context [bind (for_each ?xs 0 ?body) _ env ?s0] =>
      destruct (for_each_raises body xs ValueError) with (acc := 0) (st := s0)
        as (st' & E)
  end.
  - intros x acc st0 _. apply (reminder_user_outcome x acc st0 B).
  - exists u. split; [apply filter_In; auto|].
    intros acc st0. apply (reminder_user_outcome u acc st0 B). eauto.
  - exists st'. now apply bind_raise.
Qed.

End InvalidBillingDay.

(** X18.  The reminder job has no guard around a subscription: when a user
    with reminders on has a row whose billing day is 0 or less,
    [datetime(...)] raises [ValueError] for it and the run ends with that
    exception instead of returning. *)
Theorem reminder_job_aborts_on_invalid_day {A} `{Money A} (env : Env A)
    (now : datetime) (st : State A) (u : User.t A) (s : Subscription.t A) :
  store_healthy env ->
  clock_frozen env now ->
  valid_datetime now = true ->
  last_month now = false ->
  (forall s', In s' (subscriptions env) ->
              Subscription.billing_date s' <= 31) ->
  In u (users env) ->
  User.payment_reminders u = true ->
  In s (subscriptions_of env u) ->
  Subscription.billing_date s <= 0 ->
  exists st',
    check_payment_reminders env st = (Raise ValueError, st') /\
    (forall st'', check_payment_reminders env st <> (Return tt, st'')).
Proof.
  intros Hs Hc V L B Iu Pu Is D0.
  destruct (reminder_job_raises env now Hs Hc V L st u s B Iu Pu Is D0)
    as (st' & E).
  exists st'. split; [exact E|]. intros st''. rewrite E. discriminate.
Qed.

Lemma reminder_job_aborts_on_invalid_day_witness :
  store_healthy stale_env /\
  clock_frozen stale_env march_first /\
  In alice (users stale_env) /\
  In stale (subscriptions_of stale_env alice) /\
  Subscription.billing_date stale <= 0 /\
  exists st',
    check_payment_reminders stale_env init_state = (Raise ValueError, st').
Proof.
  assert (Hs : store_healthy stale_env) by (intros n; reflexivity).
  assert (Hc : clock_frozen stale_env march_first) by (intros n; reflexivity).
  split; [exact Hs|]. split; [exact Hc|]. split; [now left|].
  split; [right; left; reflexivity|]. split; [cbn; lia|].
  destruct (reminder_job_aborts_on_invalid_day stale_env march_first init_state
              alice stale Hs Hc eq_refl eq_refl) as (st' & E & _).
  - intros s' [<-|[<-|[<-|[]]]]; cbn; lia.
  - now left.
  - reflexivity.
  - right; left; reflexivity.
  - cbn; lia.
  - exists st'. exact E.
Defined.

(** ** More on the routes *)

(** X19.  [add_subscription] sends no confirmation for a row it did not
    store: the outbox is as before, or the row is in the table and exactly
    one confirmation, for that row, has been handed to the transport for
    the address of the user of the session. *)
Theorem add_subscription_mail_only_after_store {A} `{Money A}
    (form : string -> option string) (wenv : WebEnv A) (wst : WebState A) :
  let wst' := snd (add_subscription form wenv wst) in
  outbox (core wst') = outbox (core wst) \/
  exists s u delivered,
    db_subscriptions wst' = db_subscriptions wst ++ [s] /\
    In u (db_users wst) /\
    session_user_id wst = Some (User.id u) /\
    Subscription.user_id s = User.id u /\
    outbox (core wst') =
    outbox (core wst) ++
    [(SubscriptionEmail (User.email u) (Subscription.name s)
        (Subscription.monthly_price s), delivered)].
Proof.
  unfold add_subscription, login_required, wtry, wbind, py_call, flash,
    wprint, wret, wraise, session_get_user_id, db_commit, run_core, with_core,
    with_tables, get_user, store_read, core_env, send_subscription_email,
    try_except, bind, mail_send, print, ret.
  cbv zeta.
  repeat match goal with
         | |- context [match ?x with _ => _ end] =>
             lazymatch x with
             | context [match _ with _ => _ end] => fail
             | _ => destruct x eqn:?
             end
         end; cbn in *.
  all: try (left; reflexivity).
  all: repeat match goal with
              | E : (_, _) = (_, _) |- _ => injection E as ? ?; subst
              | E : Return _ = Return _ |- _ => injection E as ?; subst
              | E : Some _ = Some _ |- _ => injection E as ?; subst
              | E : Return _ = Raise _ |- _ => discriminate E
              | E : Raise _ = Return _ |- _ => discriminate E
              | E : Some _ = None |- _ => discriminate E
              | E : None = Some _ |- _ => discriminate E
              end; cbn in *.
  all: try (left; reflexivity).
  all: right;
    match goal with
    | F : find _ _ = Some ?u |- _ =>
        pose proof (find_some _ _ F) as [Iu Eu]; apply Z.eqb_eq in Eu;
        eexists; exists u; eexists
    end.
  all: split; [reflexivity|]; split; [assumption|]; cbn.
  all: repeat split; congruence.
Qed.

(** X20.  When the row is committed and the read of the user that follows
    fails (the store raises, or the user is gone), [add_subscription]
    flashes that an error occurred and sends no confirmation, and the row
    stays stored: the rollback of the handler comes after the commit. *)
Theorem add_subscription_error_after_store {A} `{Money A}
    (form : string -> option string) (wenv : WebEnv A) (wst : WebState A)
    (uid : Z) (price : A) (day : Z) (code : Z) :
  session_user_id wst = Some uid ->
  is_empty (py_strip wenv (form_get form "name")) = false ->
  is_empty (form_get form "monthly_price") = false ->
  is_empty (form_get form "billing_date") = false ->
  py_float wenv (form_get form "monthly_price") = Some price ->
  py_int wenv (form_get form "billing_date") = Some day ->
  leb price zero = false ->
  1 <= day <= 31 ->
  w_commit_fault wenv (commits wst) = None ->
  (w_store_fault wenv (store_reads (core wst)) = Some (StoreError code) \/
   (w_store_fault wenv (store_reads (core wst)) = None /\
    find (fun u => User.id u =? uid) (db_users wst) = None)) ->
  let name := py_strip wenv (form_get form "name") in
  let out := fst (add_subscription form wenv wst) in
  let wst' := snd (add_subscription form wenv wst) in
  out = WReturn (Redirect EpSubscriptions) /\
  db_subscriptions wst' =
    db_subscriptions wst ++
    [Subscription.mk (new_subscription_id wenv (db_subscriptions wst)) name
       price day uid] /\
  outbox (core wst') = outbox (core wst) /\
  flashes wst' = flashes wst ++ [(ErrorOccurred, danger)].
Proof.
  intros S N P B F I L D C R. cbv zeta.
  assert (D' : (day <? 1) || (day >? 31) = false).
  { rewrite orb_false_iff, Z.gtb_ltb, !Z.ltb_ge. lia. }
  unfold add_subscription, login_required, wtry, wbind, py_call, flash,
    wprint, wret, wraise, session_get_user_id, db_commit, run_core, with_core,
    with_tables, get_user, store_read, core_env, send_subscription_email,
    try_except, bind, mail_send, print, ret.
  cbv zeta.
  destruct R as [R|[R U]].
  - repeat (progress (cbn; rewrite ?S, ?N, ?P, ?B, ?F, ?I, ?L, ?D', ?C, ?R)).
    repeat split; reflexivity.
  - repeat (progress (cbn; rewrite ?S, ?N, ?P, ?B, ?F, ?I, ?L, ?D', ?C, ?R, ?U)).
    repeat split; reflexivity.
Qed.

Lemma add_subscription_error_after_store_witness :
  session_user_id sample_wst = Some 1 /\
  db_subscriptions
    (snd (add_subscription cloud_form
            (mkWebEnv (fun _ => march_first) (fun _ => Some (StoreError 7))
               (fun _ => None) (fun _ => None) sample_float sample_int
               (fun s => s) (fun ss => next_key (map Subscription.id ss))
               (fun us => next_key (map User.id us)) (fun _ _ => false))
            sample_wst))
  = [netflix; gym; music; Subscription.mk 4 "Cloud" 12 7 1] /\
  flashes
    (snd (add_subscription cloud_form
            (mkWebEnv (fun _ => march_first) (fun _ => Some (StoreError 7))
               (fun _ => None) (fun _ => None) sample_float sample_int
               (fun s => s) (fun ss => next_key (map Subscription.id ss))
               (fun us => next_key (map User.id us)) (fun _ _ => false))
            sample_wst))
  = [(ErrorOccurred, danger)].
Proof.
  split; [reflexivity|].
  destruct (add_subscription_error_after_store cloud_form
              (mkWebEnv (fun _ => march_first) (fun _ => Some (StoreError 7))
                 (fun _ => None) (fun _ => None) sample_float sample_int
                 (fun s => s) (fun ss => next_key (map Subscription.id ss))
                 (fun us => next_key (map User.id us)) (fun _ _ => false))
              sample_wst 1 12 7 7) as (_ & T & _ & Fl);
    try reflexivity; try lia; [left; reflexivity|].
  split; [exact T|exact Fl].
Defined.

Lemma delete_row_NoDup_in {A} (id : Z) (rows : list (Subscription.t A))
    (s : Subscription.t A) :
  NoDup (map Subscription.id rows) ->
  (In s (delete_row id rows) <-> In s rows /\ Subscription.id s <> id).
Proof.
  induction rows as [|r rows IH]; cbn; [tauto|].
  intros N. inversion N as [|? ? Nr Nrows]; subst.
  destruct (Z.eqb_spec (Subscription.id r) id) as [E|NE].
  - split.
    + intros I. split; [now right|]. intros E'. apply Nr.
      rewrite E, <- E'. now apply in_map.
    + intros [[<-|I] NE']; [contradiction|exact I].
  - cbn. rewrite (IH Nrows). split.
    + intros [<-|[I NE']]; auto.
    + intros [[<-|I] NE']; auto.
Qed.

(** X21.  When the row of the key exists, belongs to the user of the
    session, and the store and the commit answer, [delete_subscription]
    removes that row and flashes its name; with keys that are unique the
    table afterwards holds exactly the rows of the other keys. *)
Theorem delete_subscription_removes {A} `{Money A} (subscription_id : Z)
    (wenv : WebEnv A) (wst : WebState A) (uid : Z) (s : Subscription.t A) :
  session_user_id wst = Some uid ->
  w_store_fault wenv (store_reads (core wst)) = None ->
  find (fun s => Subscription.id s =? subscription_id) (db_subscriptions wst)
  = Some s ->
  Subscription.user_id s = uid ->
  w_commit_fault wenv (commits wst) = None ->
  let out := fst (delete_subscription subscription_id wenv wst) in
  let wst' := snd (delete_subscription subscription_id wenv wst) in
  out = WReturn (Redirect EpSubscriptions) /\
  db_users wst' = db_users wst /\
  db_subscriptions wst' = delete_row subscription_id (db_subscriptions wst) /\
  flashes wst' =
    flashes wst ++ [(SubscriptionDeleted (Subscription.name s), success)] /\
  (NoDup (map Subscription.id (db_subscriptions wst)) ->
   forall s', In s' (db_subscriptions wst') <->
              In s' (db_subscriptions wst) /\
              Subscription.id s' <> subscription_id).
Proof.
  intros Ss R F O C. cbv zeta.
  pose proof (find_some _ _ F) as [_ Ek]. apply Z.eqb_eq in Ek.
  assert (O' : negb (Subscription.user_id s =? uid) = false)
    by (apply negb_false_iff, Z.eqb_eq, O).
  assert (E : delete_subscription subscription_id wenv wst =
              (WReturn (Redirect EpSubscriptions),
               mkWebState (db_users wst)
                 (delete_row subscription_id (db_subscriptions wst))
                 (session_user_id wst) (session_user_email wst)
                 (flashes wst ++
                  [(SubscriptionDeleted (Subscription.name s), success)])
                 (S (commits wst)) (printed wst)
                 (mkState (clock_reads (core wst))
                    (S (store_reads (core wst))) (outbox (core wst))
                    (stdout (core wst))))).
  { unfold delete_subscription, login_required, get_subscription_or_404,
      wtry, wbind, flash, wprint, wret, wraise, session_get_user_id,
      db_commit, run_core, with_core, with_tables, store_read, core_env.
    cbv zeta.
    repeat (progress (cbn -[delete_row];
                      rewrite ?Ss, ?R, ?F, ?O', ?C, ?Ek)).
    reflexivity. }
  rewrite E. cbn [fst snd db_users db_subscriptions flashes].
  split; [reflexivity|]. split; [reflexivity|]. split; [reflexivity|].
  split; [reflexivity|]. intros N s'. now apply delete_row_NoDup_in.
Qed.

Lemma delete_subscription_removes_witness :
  session_user_id sample_wst = Some 1 /\
  find (fun s => Subscription.id s =? 2) (db_subscriptions sample_wst)
  = Some gym /\
  db_subscriptions (snd (delete_subscription 2 sample_wenv sample_wst))
  = [netflix; music].
Proof.
  split; [reflexivity|]. split; [reflexivity|].
  destruct (delete_subscription_removes 2 sample_wenv sample_wst 1 gym)
    as (_ & _ & T & _); [reflexivity..|].
  exact T.
Defined.

(** X22.  The failures of [delete_subscription] remove nothing and say
    why: a key that no row has raises [NotFound] (the 404 of
    [get_or_404]); a row of another user flashes that the action is not
    authorised; a commit that raises flashes that the deletion failed. *)
Theorem delete_subscription_failures {A} `{Money A} (subscription_id : Z)
    (wenv : WebEnv A) (wst : WebState A) (uid : Z) :
  session_user_id wst = Some uid ->
  w_store_fault wenv (store_reads (core wst)) = None ->
  let out := fst (delete_subscription subscription_id wenv wst) in
  let wst' := snd (delete_subscription subscription_id wenv wst) in
  (find (fun s => Subscription.id s =? subscription_id) (db_subscriptions wst)
   = None ->
   out = WRaise NotFound /\
   db_subscriptions wst' = db_subscriptions wst /\
   flashes wst' = flashes wst) /\
  (forall s,
     find (fun s => Subscription.id s =? subscription_id)
       (db_subscriptions wst) = Some s ->
     Subscription.user_id s <> uid ->
     out = WReturn (Redirect EpSubscriptions) /\
     db_subscriptions wst' = db_subscriptions wst /\
     flashes wst' = flashes wst ++ [(UnauthorizedAction, danger)] /\
     commits wst' = commits wst) /\
  (forall s e,
     find (fun s => Subscription.id s =? subscription_id)
       (db_subscriptions wst) = Some s ->
     Subscription.user_id s = uid ->
     w_commit_fault wenv (commits wst) = Some e ->
     out = WReturn (Redirect EpSubscriptions) /\
     db_subscriptions wst' = db_subscriptions wst /\
     flashes wst' = flashes wst ++ [(DeleteError, danger)] /\
     printed wst' = printed wst ++ [PyExn e]).
Proof.
  intros S R. cbv zeta.
  unfold delete_subscription, login_required, get_subscription_or_404,
    wtry, wbind, flash, wprint, wret, wraise, session_get_user_id,
    db_commit, run_core, with_core, with_tables, store_read, core_env.
  cbv zeta. split; [|split].
  - intros F.
    repeat (progress (cbn -[delete_row]; rewrite ?S, ?R, ?F)).
    repeat split; reflexivity.
  - intros s F O.
    assert (O' : negb (Subscription.user_id s =? uid) = true)
      by (apply negb_true_iff, Z.eqb_neq, O).
    repeat (progress (cbn -[delete_row]; rewrite ?S, ?R, ?F, ?O')).
    repeat split; reflexivity.
  - intros s e F O C.
    assert (O' : negb (Subscription.user_id s =? uid) = false)
      by (apply negb_false_iff, Z.eqb_eq, O).
    repeat (progress (cbn -[delete_row]; rewrite ?S, ?R, ?F, ?O', ?C)).
    repeat split; reflexivity.
Qed.

Lemma delete_subscription_failures_witness :
  session_user_id sample_wst = Some 1 /\
  w_store_fault sample_wenv (store_reads (core sample_wst)) = None /\
  fst (delete_subscription 99 sample_wenv sample_wst) = WRaise NotFound /\
  flashes (snd (delete_subscription 3 sample_wenv sample_wst))
  = [(UnauthorizedAction, danger)].
Proof.
  split; [reflexivity|]. split; [reflexivity|].
  destruct (delete_subscription_failures 99 sample_wenv sample_wst 1
              eq_refl eq_refl) as (M & _ & _).
  destruct (delete_subscription_failures 3 sample_wenv sample_wst 1
              eq_refl eq_refl) as (_ & U & _).
  split.
  - now destruct (M eq_refl).
  - destruct (U music eq_refl) as (_ & _ & Fl & _); [discriminate|exact Fl].
Defined.

Lemma sum_snoc {A} `{Money A} (xs : list A) (x : A) :
  sum (xs ++ [x]) = add (sum xs) x.
Proof. unfold sum. now rewrite fold_left_app. Qed.

(** X23.  A subscription that [add_subscription] has stored counts in the
    next budget check: the total of its owner is the total from before
    plus the new price, the totals of the other users are as before, and
    the check alerts the owner exactly when alerts are on, the budget is
    above 0 and the new total is above the budget. *)
Theorem new_subscription_counts_in_budget_check {A} `{Money A}
    (form : string -> option string) (wenv : WebEnv A) (wst : WebState A)
    (uid : Z) (user : User.t A) (price : A) (day : Z) :
  session_user_id wst = Some uid ->
  is_empty (py_strip wenv (form_get form "name")) = false ->
  is_empty (form_get form "monthly_price") = false ->
  is_empty (form_get form "billing_date") = false ->
  py_float wenv (form_get form "monthly_price") = Some price ->
  py_int wenv (form_get form "billing_date") = Some day ->
  leb price zero = false ->
  1 <= day <= 31 ->
  w_commit_fault wenv (commits wst) = None ->
  find (fun u => User.id u =? uid) (db_users wst) = Some user ->
  let env := core_env wenv wst in
  let env' := core_env wenv (snd (add_subscription form wenv wst)) in
  let total := add (total_of env user) price in
  total_of env' user = total /\
  (forall other, User.id other <> uid ->
                 total_of env' other = total_of env other) /\
  budget_alert_for env' user =
    (if User.budget_alerts user && gtb (User.monthly_budget user) zero
        && gtb total (User.monthly_budget user)
     then [BudgetAlert (User.email user) (User.monthly_budget user) total
             (sub total (User.monthly_budget user))]
     else []).
Proof.
  intros Ss N P B F I L D C U. cbv zeta.
  assert (D' : (day <? 1) || (day >? 31) = false).
  { rewrite orb_false_iff, Z.gtb_ltb, !Z.ltb_ge. lia. }
  pose proof (find_some _ _ U) as [_ Eu]. apply Z.eqb_eq in Eu.
  destruct (add_subscription_tables form wenv wst)
    as (_ & _ & [E|(s & E & _ & _ & _ & _ & Os & _)]).
  - (* the row is stored on this path *)
    exfalso. revert E.
    unfold add_subscription, login_required, wtry, wbind, py_call, flash,
      wprint, wret, wraise, session_get_user_id, db_commit, run_core,
      with_core, with_tables.
    cbv zeta.
    repeat (progress (cbn; rewrite ?Ss, ?N, ?P, ?B, ?F, ?I, ?L, ?D', ?C)).
    repeat match goal with
           | |- context [match ?x with _ => _ end] =>
               lazymatch x with
               | context [match _ with _ => _ end] => fail
               | _ => destruct x eqn:?
               end
           end; cbn; intros E;
      apply (f_equal (@List.length _)) in E;
      rewrite length_app in E; cbn in E; lia.
  - assert (Ep : Subscription.monthly_price s = price).
    { revert E.
      unfold add_subscription, login_required, wtry, wbind, py_call, flash,
        wprint, wret, wraise, session_get_user_id, db_commit, run_core,
        with_core, with_tables.
      cbv zeta.
      repeat (progress (cbn; rewrite ?Ss, ?N, ?P, ?B, ?F, ?I, ?L, ?D', ?C)).
      repeat match goal with
             | |- context [match ?x with _ => _ end] =>
                 lazymatch x with
                 | context [match _ with _ => _ end] => fail
                 | _ => destruct x eqn:?
                 end
             end; cbn; intros E;
        apply app_inv_head in E; now injection E as <-. }
    assert (Eo : Subscription.user_id s = uid) by congruence.
    assert (T : forall u,
              subscriptions_of
                (core_env wenv (snd (add_subscription form wenv wst))) u =
              subscriptions_of (core_env wenv wst) u ++
              (if Subscription.user_id s =? User.id u then [s] else [])).
    { intros u. unfold subscriptions_of, core_env. cbn [subscriptions].
      rewrite E, filter_app. reflexivity. }
    assert (Tu : total_of
                   (core_env wenv (snd (add_subscription form wenv wst))) user
                 = add (total_of (core_env wenv wst) user) price).
    { unfold total_of. rewrite T.
      replace (Subscription.user_id s =? User.id user) with true
        by (symmetry; apply Z.eqb_eq; congruence).
      rewrite map_app. cbn [map]. now rewrite sum_snoc, Ep. }
    split; [exact Tu|]. split.
    + intros other O. unfold total_of. rewrite T.
      replace (Subscription.user_id s =? User.id other) with false
        by (symmetry; apply Z.eqb_neq; congruence).
      now rewrite app_nil_r.
    + unfold budget_alert_for, budget_alert_message. now rewrite Tu.
Qed.

Lemma new_subscription_counts_in_budget_check_witness :
  session_user_id sample_wst = Some 1 /\
  find (fun u => User.id u =? 1) (db_users sample_wst) = Some alice /\
  total_of (core_env sample_wenv sample_wst) alice = 120 /\
  total_of
    (core_env sample_wenv
       (snd (add_subscription cloud_form sample_wenv sample_wst))) alice
  = 132.
Proof.
  split; [reflexivity|]. split; [reflexivity|]. split; [reflexivity|].
  destruct (new_subscription_counts_in_budget_check cloud_form sample_wenv
              sample_wst 1 alice 12 7) as (T & _);
    [reflexivity|reflexivity|reflexivity|reflexivity|reflexivity|reflexivity
    |reflexivity|lia|reflexivity|reflexivity|].
  rewrite T. reflexivity.
Defined.

(** ** The session *)

Section SessionFacts.
Context {A : Type} `{Money A}.

Lemma keeps_session_wret {X} (x : X) : keeps_session (A := A) (wret x).
Proof. intros wenv wst. reflexivity. Qed.

Lemma keeps_session_wraise {X} (e : WebExn) :
  keeps_session (A := A) (X := X) (wraise e).
Proof. intros wenv wst. reflexivity. Qed.

Lemma keeps_session_flash (t : FlashText) (c : Category) :
  keeps_session (A := A) (flash t c).
Proof. intros wenv wst. reflexivity. Qed.

Lemma keeps_session_wprint (e : WebExn) : keeps_session (A := A) (wprint e).
Proof. intros wenv wst. reflexivity. Qed.

Lemma keeps_session_session_get : keeps_session (A := A) session_get_user_id.
Proof.
  intros wenv wst. unfold session_get_user_id.
  destruct (session_user_id wst) eqn:E; cbn; now rewrite E.
Qed.

Lemma keeps_session_run_core {X} (c : M A X) : keeps_session (run_core c).
Proof.
  intros wenv wst. unfold run_core.
  now destruct (c (core_env wenv wst) (core wst)) as [[x|e] st'].
Qed.

Lemma keeps_session_wbind {X Y} (c : W A X) (k : X -> W A Y) :
  keeps_session c -> (forall x, keeps_session (k x)) ->
  keeps_session (wbind c k).
Proof.
  intros Hc Hk wenv wst. unfold wbind. specialize (Hc wenv wst).
  destruct (c wenv wst) as [[x|e] wst1]; cbn [snd] in *.
  - now rewrite Hk.
  - exact Hc.
Qed.

Lemma keeps_session_login_required (f : W A (Response A)) :
  keeps_session f -> keeps_session (login_required f).
Proof.
  intros Hf wenv wst. unfold login_required.
  destruct (session_user_id wst) eqn:E; [rewrite Hf; exact E|cbn; exact E].
Qed.

Lemma keeps_session_dashboard : keeps_session (A := A) dashboard.
Proof.
  unfold dashboard.
  repeat first
    [ apply keeps_session_login_required
    | apply keeps_session_wbind; intros
    | apply keeps_session_session_get
    | apply keeps_session_run_core
    | apply keeps_session_wret
    | apply keeps_session_wraise
    | match goal with
      | |- keeps_session (match ?x with _ => _ end) => destruct x
      end ].
Qed.

Lemma logout_session_none (wenv : WebEnv A) (wst : WebState A) :
  session_user_id (snd (logout wenv wst)) = None.
Proof.
  unfold logout, login_required, wbind, session_clear, flash, wret.
  destruct (session_user_id wst) eqn:E; cbn; first [reflexivity|exact E].
Qed.

Lemma handle_session_known (r : Request) (wenv : WebEnv A)
    (wst : WebState A) :
  session_user_known wst -> session_user_known (snd (handle r wenv wst)).
Proof.
  intros K.
  assert (Same : forall wst' : WebState A,
            session_user_id wst' = session_user_id wst ->
            map User.id (db_users wst') = map User.id (db_users wst) ->
            session_user_known wst').
  { intros wst' Es Eu uid. rewrite Es, Eu. apply K. }
  assert (R : forall post form,
            session_user_known (snd (register post form wenv wst))).
  { intros post form.
    destruct (register_tables post form wenv wst)
      as (_ & Es & [Eu|(u & Eu & _)]).
    - apply Same; [exact Es|now rewrite Eu].
    - intros uid. rewrite Es, Eu, map_app. intros S.
      apply in_or_app. left. now apply K. }
  assert (Lg : forall post form,
            session_user_known (snd (login post form wenv wst))).
  { intros post form.
    destruct (login_session post form wenv wst)
      as (Eu & _ & [Es|(user & _ & _ & I & _ & _ & Es & _)]).
    - apply Same; [exact Es|now rewrite Eu].
    - intros uid. rewrite Es, Eu. intros [= <-]. now apply in_map. }
  destruct r; cbn [handle].
  - apply Same; [|now destruct (keeps_tables_index wenv wst) as [-> _]].
    unfold index. destruct (session_user_id wst) eqn:E; cbn; now rewrite E.
  - apply Lg.
  - apply Lg.
  - apply R.
  - apply R.
  - intros uid. rewrite logout_session_none. discriminate.
  - apply Same; [apply keeps_session_dashboard|].
    now destruct (keeps_tables_dashboard wenv wst) as [-> _].
  - destruct (add_subscription_tables form wenv wst) as (Eu & Es & _).
    apply Same; [exact Es|now rewrite Eu].
  - destruct (delete_subscription_tables subscription_id wenv wst)
      as (Eu & Es & _).
    apply Same; [exact Es|now rewrite Eu].
  - destruct (update_profile_tables form wenv wst)
      as (_ & Es & [Eu|(uid & user & user' & _ & _ & _ & _ & _ & _ & _ & _
                        & Eu)]).
    + apply Same; [exact Es|now rewrite Eu].
    + apply Same; [exact Es|]. rewrite Eu. apply update_user_ids.
Qed.

End SessionFacts.

(** X24.  Whatever requests are served, a session that holds a user holds
    the key of a stored user: [login] takes the key from a row, no route
    removes a user or changes a user's key, and [logout] empties the
    session. *)
Theorem session_user_stays_known {A} `{Money A} (rs : list Request)
    (wenv : WebEnv A) (wst : WebState A) :
  session_user_known wst ->
  session_user_known (serve rs wenv wst).
Proof.
  revert wst. induction rs as [|r rs IH]; intros wst K; cbn [serve].
  - exact K.
  - apply IH. now apply handle_session_known.
Qed.

Lemma session_user_stays_known_witness :
  session_user_known anonymous_wst /\
  session_user_id
    (serve [PostRegister register_form; PostLogin login_form;
            PostUpdateProfile preferences_form]
       sample_wenv anonymous_wst) = Some 1 /\
  In 1 (map User.id
          (db_users
             (serve [PostRegister register_form; PostLogin login_form;
                     PostUpdateProfile preferences_form]
                sample_wenv anonymous_wst))).
Proof.
  assert (K : session_user_known anonymous_wst) by (intros uid; discriminate).
  split; [exact K|]. split; [reflexivity|].
  apply (session_user_stays_known
           [PostRegister register_form; PostLogin login_form;
            PostUpdateProfile preferences_form]
           sample_wenv anonymous_wst K 1).
  reflexivity.
Defined.


